(** * Elion AI agent: the NexHealth REST client and the voice agent's tool layer

    A shallow embedding of [src/lib/nexhealth.ts] (the practice-management
    REST client with its bearer-token cache) and of the agent entry file
    (configuration loader, prompt builder and the tools handed to the
    conversation runtime), followed by the properties proved about them.

    Conventions of the embedding.
    - JavaScript numbers that are identifiers, HTTP statuses and millisecond
      time stamps are integers ([Z]); [NaN] is kept where the code can produce
      it ([JsNum]).  Arithmetic is exact.
    - [string | null | undefined] is [option string]; truthiness is written
      out ([truthy_str], [truthy_num]).
    - Response bodies are typed by the interface the TypeScript call site
      declares ([request<T>]): the n-th [fetch] is answered at the type the
      caller asked for.
    - [await] is sequencing: one conversation is one sequential flow, so
      asynchronous code is a state-and-exception monad over the client (or
      session) state and the outside world (clock, network, request log). *)

From Stdlib Require Import ZArith String Ascii List Bool Lia DecimalString.
Import ListNotations.
Local Open Scope string_scope.
Local Open Scope Z_scope.

(* ===================================================================== *)
(** ** JavaScript values and built-ins used by the code *)
(* ===================================================================== *)

Module Js.

(** A number that may be [NaN] (the result of [parseInt], of date parsing and
    of arithmetic on those). *)
Inductive JsNum : Type :=
| NaN
| Num (z : Z).

(** [new Error(message)]. *)
Record Error : Type := mkError { message : string }.

(** Truthiness of a string: every string but the empty one. *)
Definition truthy_str (s : string) : bool := negb (s =? "")%string.

(** Truthiness of [string | null | undefined]. *)
Definition truthy_ostr (o : option string) : bool :=
  match o with
  | Some s => truthy_str s
  | None => false
  end.

(** Truthiness of an integer: every integer but zero. *)
Definition truthy_num (z : Z) : bool := negb (z =? 0).

(** Truthiness of [number | null | undefined]. *)
Definition truthy_onum (o : option Z) : bool :=
  match o with
  | Some z => truthy_num z
  | None => false
  end.

(** [a || b] on optional strings. *)
Definition or_ostr (a b : option string) : option string :=
  if truthy_ostr a then a else b.

(** [a || d] with a string default. *)
Definition or_str (a : option string) (d : string) : string :=
  match a with
  | Some s => if truthy_str s then s else d
  | None => d
  end.

(** Template-literal rendering of an integer: its decimal digits.  This is
    what JavaScript prints for an integer of magnitude up to 2^53; above
    that it prints the shortest digits that read back to the same double,
    and from 10^21 on it uses the exponent notation. *)
Definition show (z : Z) : string := NilZero.string_of_int (Z.to_int z).

(** Template-literal rendering of a number. *)
Definition show_num (n : JsNum) : string :=
  match n with
  | NaN => "NaN"
  | Num z => show z
  end.

(** Template-literal rendering of [string | undefined]. *)
Definition show_ostr (o : option string) : string :=
  match o with
  | Some s => s
  | None => "undefined"
  end.

(** [Math.ceil(a / b)] for a positive divisor, in exact arithmetic. *)
Definition ceil_div (a b : Z) : Z := - ((- a) / b).

(** *** The arithmetic of doubles on integers

    A number of the engine is an IEEE double.  The integers up to [2^53] in
    magnitude are doubles, and so are the time values of dates, which are
    integers of at most 8.64e15 in magnitude.  The result of an operation is
    the double nearest to the exact result, the one of even significand on a
    tie. *)

(** The integer nearest to [p / q], for [0 <= p] and [0 < q]; the even one
    on a tie. *)
Definition round_half_even (p q : Z) : Z :=
  let t := p / q in
  let r := p mod q in
  if orb (q <? 2 * r) (andb (q =? 2 * r) (Z.odd t)) then t + 1 else t.

(** The double nearest to the integer [z]: [z] itself below [2^53], and [z]
    rounded to 53 significant bits from there on. *)
Definition to_double (z : Z) : Z :=
  let a := Z.abs z in
  if a <? 2 ^ 53 then z
  else
    let k := Z.log2 a - 52 in
    Z.sgn z * round_half_even a (2 ^ k) * 2 ^ k.

(** [floor(log2(a / d))], for [0 < a] and [0 < d]. *)
Definition exponent_of (a d : Z) : Z :=
  let e0 := Z.log2 a - Z.log2 d in
  if a * 2 ^ Z.max (- e0) 0 <? d * 2 ^ Z.max e0 0 then e0 - 1 else e0.

(** [Math.ceil(x / d)] for a double [x] and a divisor [0 < d]: the quotient
    is the double nearest to [x / d], that is [m * 2^g] for the significand
    [m] of 53 bits and the exponent [g] of [x / d], and the result is its
    ceiling. *)
Definition quotient_ceil (x d : Z) : Z :=
  if x =? 0 then 0
  else
    let a := Z.abs x in
    let g := exponent_of a d - 52 in
    if 0 <=? g
    then Z.sgn x * round_half_even a (d * 2 ^ g) * 2 ^ g
    else ceil_div (Z.sgn x * round_half_even (a * 2 ^ (- g)) d) (2 ^ (- g)).

(** [String.prototype.toLowerCase], on the ASCII letters (other bytes are
    left alone, which cannot change a comparison with an ASCII word). *)
Definition lower_ascii (c : ascii) : ascii :=
  let n := nat_of_ascii c in
  if andb (Nat.leb 65 n) (Nat.leb n 90) then ascii_of_nat (n + 32) else c.

Fixpoint toLowerCase (s : string) : string :=
  match s with
  | EmptyString => EmptyString
  | String c r => String (lower_ascii c) (toLowerCase r)
  end.

(** [encodeURIComponent] on a UTF-8 byte string: the unreserved characters
    [A-Z a-z 0-9 - _ . ! ~ * ' ( )] stay, every other byte becomes [%XX]. *)
Definition unreserved (c : ascii) : bool :=
  let n := nat_of_ascii c in
  orb (andb (Nat.leb 65 n) (Nat.leb n 90))
 (orb (andb (Nat.leb 97 n) (Nat.leb n 122))
 (orb (andb (Nat.leb 48 n) (Nat.leb n 57))
      (existsb (Nat.eqb n) [45; 95; 46; 33; 126; 42; 39; 40; 41]%nat))).

Definition hex_digit (n : nat) : ascii :=
  if Nat.ltb n 10 then ascii_of_nat (48 + n) else ascii_of_nat (55 + n).

Fixpoint encodeURIComponent (s : string) : string :=
  match s with
  | EmptyString => EmptyString
  | String c r =>
      if unreserved c then String c (encodeURIComponent r)
      else
        let n := nat_of_ascii c in
        String "%" (String (hex_digit (Nat.div n 16))
                   (String (hex_digit (Nat.modulo n 16)) (encodeURIComponent r)))
  end.

(** Milliseconds in a day, [1000 * 60 * 60 * 24]. *)
Definition MS_PER_DAY : Z := 1000 * 60 * 60 * 24.

(** Calendar date of a day number counted from 1970-01-01 (proleptic
    Gregorian calendar), as [(year, month, day)]. *)
Definition civil_from_days (days : Z) : Z * Z * Z :=
  let z := days + 719468 in
  let era := z / 146097 in
  let doe := z - era * 146097 in
  let yoe := (doe - doe / 1460 + doe / 36524 - doe / 146096) / 365 in
  let doy := doe - (365 * yoe + yoe / 4 - yoe / 100) in
  let mp := (5 * doy + 2) / 153 in
  let d := doy - (153 * mp + 2) / 5 + 1 in
  let m := if mp <? 10 then mp + 3 else mp - 9 in
  let y := yoe + era * 400 in
  (if m <=? 2 then y + 1 else y, m, d).

(** Day number of a calendar date. *)
Definition days_from_civil (y m d : Z) : Z :=
  let y' := if m <=? 2 then y - 1 else y in
  let era := y' / 400 in
  let yoe := y' - era * 400 in
  let mp := if m <=? 2 then m + 9 else m - 3 in
  let doy := (153 * mp + 2) / 5 + d - 1 in
  let doe := yoe * 365 + yoe / 4 - yoe / 100 + doy in
  era * 146097 + doe - 719468.

(** Decimal digits left-padded with zeros to [width] characters. *)
Fixpoint pad_left (width : nat) (s : string) : string :=
  match width with
  | O => s
  | S w => if Nat.ltb (String.length s) (S w) then pad_left w ("0" ++ s) else s
  end.

(** [new Date(ms).toISOString().split('T')[0]] for the years 0000 to 9999:
    the UTC calendar date as [YYYY-MM-DD]. *)
Definition toISODate (ms : Z) : string :=
  let '(y, m, d) := civil_from_days (ms / MS_PER_DAY) in
  pad_left 4 (show y) ++ "-" ++ pad_left 2 (show m) ++ "-" ++ pad_left 2 (show d).

(** [String.prototype.toUpperCase] on the ASCII letters. *)
Definition upper_ascii (c : ascii) : ascii :=
  let n := nat_of_ascii c in
  if andb (Nat.leb 97 n) (Nat.leb n 122) then ascii_of_nat (n - 32) else c.

(** [s.charAt(0).toUpperCase() + s.slice(1)] *)
Definition capitalize (s : string) : string :=
  match s with
  | EmptyString => EmptyString
  | String c r => String (upper_ascii c) r
  end.

(** [xs.join(sep)] *)
Fixpoint join (sep : string) (xs : list string) : string :=
  match xs with
  | [] => ""
  | [x] => x
  | x :: rest => x ++ sep ++ join sep rest
  end.

(** Property lookup [obj[key]] in an object given by its entries. *)
Fixpoint lookup {A} (key : string) (entries : list (string * A)) : option A :=
  match entries with
  | [] => None
  | (k, v) :: rest => if (k =? key)%string then Some v else lookup key rest
  end.

(** A JSON value, as handed to [JSON.stringify]. *)
#[warnings="-register-all"]
Inductive Json : Type :=
| JNull
| JNum (z : Z)
| JStr (s : string)
| JObj (fields : list (string * Json)).

(** The built-ins of the engine that the embedding takes as given: date
    parsing and locale formatting depend on the engine and on the host's
    locale and time zone. *)
Class Runtime : Type := {
  (** [new Date(s).getTime()] *)
  Date_getTime : string -> JsNum;
  (** [new Date(s).getDay()], in local time; [NaN] for an invalid date *)
  Date_getDay : string -> JsNum;
  (** [new Date(s).toLocaleDateString("en-US", {weekday, month, day})] *)
  toLocaleDateString : string -> string;
  (** [new Date(s).toLocaleTimeString("en-US", {hour, minute, hour12})] *)
  toLocaleTimeString : string -> string;
  (** [parseInt(s)] *)
  parseInt : string -> JsNum;
  (** [JSON.stringify(v)] *)
  JSON_stringify : Json -> string
}.

End Js.
Export Js.

(* ===================================================================== *)
(** ** The outside world and the monad of asynchronous code *)
(* ===================================================================== *)

Module Http.

Inductive Method : Type := GET | POST | DELETE.

(** The JSON bodies the client sends ([JSON.stringify] of these objects). *)
Inductive Body : Type :=
| PatientBody (subdomain : string) (location_id : JsNum)
    (first_name last_name email phone date_of_birth gender : string)
| AppointmentBody (subdomain : string) (location_id : JsNum)
    (patient_id provider_id : Z) (start_time : string)
    (appointment_type_id operatory_id : option Z) (note : option string)
| SubdomainBody (subdomain : string).

(** One call of [fetch].  The [Content-Type] and [Accept] headers are the
    same constants on every call and are left out. *)
Record Request : Type := mkRequest {
  rq_method : Method;
  rq_url : string;
  rq_authorization : string;
  rq_body : option Body
}.

(** What a call of [fetch] followed by [response.text()] or
    [response.json()] gives: a rejected promise, a response that is not
    [ok], or the parsed body. *)
Inductive Response (T : Type) : Type :=
| Rejected (e : Error)
| NotOk (status : Z) (text : string)
| Ok (body : T).

Arguments Rejected {T} e.
Arguments NotOk {T} status text.
Arguments Ok {T} body.

End Http.
Export Http.

(** The records of [src/lib/nexhealth.ts]. *)
Module Bio.
Record t : Type := mk {
  phone_number : option string;
  cell_phone_number : option string;
  home_phone_number : option string;
  work_phone_number : option string;
  date_of_birth : option string;
  gender : option string;
  city : option string;
  state : option string;
  zip_code : option string;
  address_line_1 : option string;
  address_line_2 : option string
}.
End Bio.

Module Patient.
Record t : Type := mk {
  id : Z;
  first_name : string;
  last_name : string;
  email : option string;
  phone : option string;
  date_of_birth : option string;
  bio : option Bio.t
}.
End Patient.

Module Provider.
Record t : Type := mk {
  id : Z;
  first_name : string;
  last_name : string;
  speciality : option string
}.
End Provider.

Module Location.
Record t : Type := mk {
  id : Z;
  name : string;
  address : option string;
  phone : option string
}.
End Location.

Module AppointmentSlot.
Record t : Type := mk {
  time : string;
  provider_id : Z;
  operatory_id : option Z
}.
End AppointmentSlot.

Module Appointment.
Record t : Type := mk {
  id : Z;
  patient_id : Z;
  provider_id : Z;
  location_id : Z;
  start_time : string;
  end_time : string;
  status : string;
  appointment_type_id : option Z
}.
End Appointment.

Module AppointmentType.
Record t : Type := mk {
  id : Z;
  name : string;
  duration : Z
}.
End AppointmentType.

Module Effects.

(** The body of the authentication response: [data.data?.token] and
    [data.token]. *)
Record AuthBody : Type := mkAuthBody {
  nested_token : option string;
  top_token : option string
}.

(** The [data] field of a listing response, of declared type
    [{ patients?: T[] } | T[]] (or [slots]), read with [data?.]. *)
Inductive Listing (T : Type) : Type :=
| Bare (items : list T)
| Wrapped (inner : option (list T))
| Nullish.

Arguments Bare {T} items.
Arguments Wrapped {T} inner.
Arguments Nullish {T}.

(** The response types the call sites declare ([request<T>]). *)
Inductive Kind : Type :=
| KAuth | KLocations | KProviders | KAppointmentTypes
| KPatients | KPatient | KSlots | KAppointment | KUnknown.

Definition payload (k : Kind) : Type :=
  match k with
  | KAuth => AuthBody
  | KLocations => list Location.t
  | KProviders => list Provider.t
  | KAppointmentTypes => list AppointmentType.t
  | KPatients => Listing Patient.t
  | KPatient => Patient.t
  | KSlots => Listing AppointmentSlot.t
  | KAppointment => Appointment.t
  | KUnknown => unit
  end.

(** The world: the readings the system clock will give ([clock n] is the
    n-th reading, in milliseconds), the answers the network will give
    ([net n k] answers the n-th [fetch], read at type [k]), and the log of
    the requests issued so far, oldest first. *)
Record World : Type := mkWorld {
  clock : nat -> Z;
  ticks : nat;
  net : nat -> forall k : Kind, Response (payload k);
  trace : list Request
}.

Inductive Outcome (A : Type) : Type :=
| Return (a : A)
| Throw (e : Error).

Arguments Return {A} a.
Arguments Throw {A} e.

(** A computation over a mutable state [St] and the world. *)
Definition M (St A : Type) : Type := St -> World -> Outcome A * St * World.

Definition ret {St A} (a : A) : M St A := fun s w => (Return a, s, w).

Definition bind {St A B} (m : M St A) (k : A -> M St B) : M St B :=
  fun s w =>
    match m s w with
    | (Return a, s', w') => k a s' w'
    | (Throw e, s', w') => (Throw e, s', w')
    end.

Definition throw {St A} (e : Error) : M St A := fun s w => (Throw e, s, w).

(** [try { m } catch (error) { h error }]: what [m] did to the state and
    to the world before it threw stays done. *)
Definition try_catch {St A} (m : M St A) (h : Error -> M St A) : M St A :=
  fun s w =>
    match m s w with
    | (Return a, s', w') => (Return a, s', w')
    | (Throw e, s', w') => h e s' w'
    end.

Definition get {St} : M St St := fun s w => (Return s, s, w).

Definition modify {St} (f : St -> St) : M St unit := fun s w => (Return tt, f s, w).

(** [Date.now()] and [new Date()]: the next reading of the clock. *)
Definition now {St} : M St Z :=
  fun s w =>
    (Return (clock w (ticks w)), s,
     mkWorld (clock w) (S (ticks w)) (net w) (trace w)).

(** [await fetch(url, options)] and the reading of the body, at type [k]. *)
Definition fetch {St} (k : Kind) (rq : Request) : M St (Response (payload k)) :=
  fun s w =>
    (Return (net w (length (trace w)) k), s,
     mkWorld (clock w) (ticks w) (net w) (trace w ++ [rq])).

(** A computation on a component of the state, run on the whole state. *)
Definition zoom {St T A} (proj : St -> T) (inj : T -> St -> St) (m : M T A) : M St A :=
  fun s w =>
    match m (proj s) w with
    | (o, t', w') => (o, inj t' s, w')
    end.

End Effects.
Export Effects.

Declare Scope monad_scope.
Delimit Scope monad_scope with monad.
Notation "x <- c ;; k" := (bind c (fun x => k))
  (at level 61, c at next level, right associativity) : monad_scope.
Notation "c ;;; k" := (bind c (fun _ => k))
  (at level 61, right associativity) : monad_scope.
Local Open Scope monad_scope.

(* ===================================================================== *)
(** ** [src/lib/nexhealth.ts]: the NexHealth REST client *)
(* ===================================================================== *)

Module NexHealth.

Record NexHealthConfig : Type := mkConfig {
  cfg_apiKey : string;
  cfg_subdomain : string;
  cfg_baseUrl : option string
}.

(** The fields of a [NexHealthClient] instance. *)
Record NexHealthClient : Type := mkClient {
  apiKey : string;
  subdomain : string;
  baseUrl : string;
  bearerToken : option string;
  tokenExpiry : option Z
}.

(** The constructor. *)
Definition new_client (config : NexHealthConfig) : NexHealthClient :=
  {| apiKey := cfg_apiKey config;
     subdomain := cfg_subdomain config;
     baseUrl := or_str (cfg_baseUrl config) "https://nexhealth.info";
     bearerToken := None;
     tokenExpiry := None |}.

Definition set_bearerToken (t : option string) (c : NexHealthClient) : NexHealthClient :=
  mkClient (apiKey c) (subdomain c) (baseUrl c) t (tokenExpiry c).

Definition set_tokenExpiry (e : option Z) (c : NexHealthClient) : NexHealthClient :=
  mkClient (apiKey c) (subdomain c) (baseUrl c) (bearerToken c) e.

(** The safety margin of the token cache: [55 * 60 * 1000] milliseconds. *)
Definition TOKEN_LIFETIME_MS : Z := 55 * 60 * 1000.

(** The request [authenticate] sends. *)
Definition auth_request (this : NexHealthClient) : Request :=
  {| rq_method := POST;
     rq_url := baseUrl this ++ "/authenticates";
     rq_authorization := apiKey this;
     rq_body := None |}.

(** [this.bearerToken && this.tokenExpiry && new Date() < this.tokenExpiry]:
    the clock is read only when a token and an expiry are there. *)
Definition token_is_valid : M NexHealthClient bool :=
  this <- get ;;
  match bearerToken this, tokenExpiry this with
  | Some token, Some expiry =>
      if truthy_str token then (t <- now ;; ret (t <? expiry)) else ret false
  | _, _ => ret false
  end.

(** [authenticate()]: the cached token while it is valid, else one call of
    the authentication endpoint.  The result is [this.bearerToken!], which
    is [undefined] when the response carried no token. *)
Definition authenticate : M NexHealthClient (option string) :=
  valid <- token_is_valid ;;
  this <- get ;;
  if (valid : bool) then ret (bearerToken this)
  else
    response <- fetch KAuth (auth_request this) ;;
    match response with
    | Rejected e => throw e
    | NotOk status errorText =>
        throw (mkError ("Authentication failed: " ++ show status ++ " - " ++ errorText))
    | Ok data =>
        modify (set_bearerToken (or_ostr (nested_token data) (top_token data))) ;;;
        t <- now ;;
        modify (set_tokenExpiry (Some (t + TOKEN_LIFETIME_MS))) ;;;
        this' <- get ;;
        ret (bearerToken this')
    end.

(** The request [request] sends once it holds a token. *)
Definition api_request (this : NexHealthClient) (token : option string)
    (endpoint : string) (method : Method) (body : option Body) : Request :=
  {| rq_method := method;
     rq_url := baseUrl this ++ endpoint;
     rq_authorization := "Bearer " ++ show_ostr token;
     rq_body := body |}.

(** [request<T>(endpoint, options)]. *)
Definition request (k : Kind) (endpoint : string) (method : Method)
    (body : option Body) : M NexHealthClient (payload k) :=
  token <- authenticate ;;
  this <- get ;;
  response <- fetch k (api_request this token endpoint method body) ;;
  match response with
  | Rejected e => throw e
  | NotOk status error =>
      throw (mkError ("NexHealth API error: " ++ show status ++ " - " ++ error))
  | Ok data => ret data
  end.

Definition getLocations : M NexHealthClient (list Location.t) :=
  this <- get ;;
  request KLocations ("/locations?subdomain=" ++ subdomain this) GET None.

Definition getProviders (locationId : JsNum) : M NexHealthClient (list Provider.t) :=
  this <- get ;;
  request KProviders
    ("/providers?subdomain=" ++ subdomain this ++ "&location_id=" ++ show_num locationId)
    GET None.

Definition getAppointmentTypes (locationId : JsNum)
  : M NexHealthClient (list AppointmentType.t) :=
  this <- get ;;
  request KAppointmentTypes
    ("/appointment_types?subdomain=" ++ subdomain this
       ++ "&location_id=" ++ show_num locationId)
    GET None.

(** [if (Array.isArray(data)) return data; return data?.X || [];] *)
Definition normalize {T} (data : Listing T) : list T :=
  match data with
  | Bare items => items
  | Wrapped (Some items) => items
  | Wrapped None => []
  | Nullish => []
  end.

Record SearchParams : Type := mkSearch {
  sp_name : option string;
  sp_email : option string;
  sp_phone : option string;
  sp_locationId : JsNum
}.

(** [if (v) url += `&key=${encodeURIComponent(v)}`] *)
Definition query_opt (key : string) (v : option string) : string :=
  match v with
  | Some s => if truthy_str s then "&" ++ key ++ "=" ++ encodeURIComponent s else ""
  | None => ""
  end.

Definition searchPatients_url (sub : string) (params : SearchParams) : string :=
  "/patients?subdomain=" ++ sub ++ "&location_id=" ++ show_num (sp_locationId params)
    ++ query_opt "name" (sp_name params)
    ++ query_opt "email" (sp_email params)
    ++ query_opt "phone" (sp_phone params).

Definition searchPatients (params : SearchParams) : M NexHealthClient (list Patient.t) :=
  this <- get ;;
  data <- request KPatients (searchPatients_url (subdomain this) params) GET None ;;
  ret (normalize data).

Record NewPatient : Type := mkNewPatient {
  np_firstName : string;
  np_lastName : string;
  np_email : string;
  np_phone : string;
  np_dateOfBirth : string;
  np_gender : string;
  np_locationId : JsNum
}.

Definition createPatient (patient : NewPatient) : M NexHealthClient Patient.t :=
  this <- get ;;
  request KPatient "/patients" POST
    (Some (PatientBody (subdomain this) (np_locationId patient)
             (np_firstName patient) (np_lastName patient) (np_email patient)
             (np_phone patient) (np_dateOfBirth patient) (np_gender patient))).

Record SlotParams : Type := mkSlotParams {
  sl_locationId : JsNum;
  sl_providerId : option Z;
  sl_appointmentTypeId : option Z;
  sl_startDate : string;
  sl_endDate : string;
  sl_daysOfWeek : option (list Z)
}.

(** [if (v) url += `&key=${v}`] for an optional number. *)
Definition query_onum (key : string) (v : option Z) : string :=
  match v with
  | Some z => if truthy_num z then "&" ++ key ++ "=" ++ show z else ""
  | None => ""
  end.

Section WithRuntime.
Context {RT : Runtime}.

(** [Math.ceil((end.getTime() - start.getTime()) / (1000*60*60*24)) + 1],
    each operation in the arithmetic of doubles. *)
Definition slot_days (startDate endDate : string) : JsNum :=
  match Date_getTime startDate, Date_getTime endDate with
  | Num s, Num e => Num (to_double (quotient_ceil (to_double (e - s)) MS_PER_DAY + 1))
  | _, _ => NaN
  end.

Definition getAppointmentSlots_url (sub : string) (params : SlotParams) : string :=
  "/appointment_slots?subdomain=" ++ sub
    ++ "&start_date=" ++ sl_startDate params
    ++ "&days=" ++ show_num (slot_days (sl_startDate params) (sl_endDate params))
    ++ "&lids[]=" ++ show_num (sl_locationId params)
    ++ query_onum "pids[]" (sl_providerId params)
    ++ query_onum "appointment_type_id" (sl_appointmentTypeId params).

Definition getAppointmentSlots (params : SlotParams)
  : M NexHealthClient (list AppointmentSlot.t) :=
  this <- get ;;
  data <- request KSlots (getAppointmentSlots_url (subdomain this) params) GET None ;;
  ret (normalize data).

End WithRuntime.

Record AppointmentParams : Type := mkAppointmentParams {
  ap_locationId : JsNum;
  ap_patientId : Z;
  ap_providerId : Z;
  ap_startTime : string;
  ap_appointmentTypeId : option Z;
  ap_operatoryId : option Z;
  ap_note : option string
}.

Definition createAppointment (params : AppointmentParams)
  : M NexHealthClient Appointment.t :=
  this <- get ;;
  request KAppointment "/appointments" POST
    (Some (AppointmentBody (subdomain this) (ap_locationId params)
             (ap_patientId params) (ap_providerId params) (ap_startTime params)
             (ap_appointmentTypeId params) (ap_operatoryId params) (ap_note params))).

Definition cancelAppointment (appointmentId : Z) : M NexHealthClient unit :=
  this <- get ;;
  request KUnknown ("/appointments/" ++ show appointmentId) DELETE
    (Some (SubdomainBody (subdomain this))).

Definition getPatient (patientId : Z) : M NexHealthClient Patient.t :=
  this <- get ;;
  request KPatient
    ("/patients/" ++ show patientId ++ "?subdomain=" ++ subdomain this) GET None.

End NexHealth.

(* ===================================================================== *)
(** ** [src/lib/nexhealth.ts]: the slot formatter *)
(* ===================================================================== *)

Module Slots.

Section WithRuntime.
Context {RT : Runtime}.

(** [isNaN(slotDate.getTime())] *)
Definition invalid_date (slot : AppointmentSlot.t) : bool :=
  match Date_getTime (AppointmentSlot.time slot) with
  | NaN => true
  | Num _ => false
  end.

(** The key of the slot in [slotsByDate]: the text of its day. *)
Definition date_label (slot : AppointmentSlot.t) : string :=
  toLocaleDateString (AppointmentSlot.time slot).

(** The text of its time of day. *)
Definition time_label (slot : AppointmentSlot.t) : string :=
  toLocaleTimeString (AppointmentSlot.time slot).

(** [if (!acc[date]) acc[date] = []; acc[date].push(time)] on the object
    [acc], given by its own entries in the order of their insertion. *)
Fixpoint push_time (date time : string) (acc : list (string * list string))
  : list (string * list string) :=
  match acc with
  | [] => [(date, [time])]
  | (d, times) :: rest =>
      if (d =? date)%string then (d, (times ++ [time])%list) :: rest
      else (d, times) :: push_time date time rest
  end.

(** The callback of [slots.reduce]. *)
Definition add_slot (acc : list (string * list string)) (slot : AppointmentSlot.t)
  : list (string * list string) :=
  if invalid_date slot then acc
  else push_time (date_label slot) (time_label slot) acc.

Definition slotsByDate (slots : list AppointmentSlot.t) : list (string * list string) :=
  fold_left add_slot slots [].

(** [formatSlotsForAgent(slots)].  [Object.entries(slotsByDate)] is the list
    of the entries in the order of their insertion: this is what the engine
    gives for keys that are no integer indices, and the lookup [acc[date]]
    finds own entries only for keys that objects do not inherit.  The keys
    here are date texts of the [en-US] locale; the properties below that
    depend on it say so by [ordinary_key]. *)
Definition formatSlotsForAgent (slots : list AppointmentSlot.t) : string :=
  match slots with
  | [] => "No available slots found for the requested time period."
  | _ :: _ =>
      join ". "
        (map (fun e => fst e ++ ": " ++ join ", " (firstn 4 (snd e)))
             (firstn 3 (slotsByDate slots)))
  end.

(** *** The grouping, said by what it gives *)

(** The slots whose time is a date. *)
Definition dated (slots : list AppointmentSlot.t) : list AppointmentSlot.t :=
  filter (fun slot => negb (invalid_date slot)) slots.

(** The texts of [l] that are not in [seen], each one once, in the order
    in which they first appear. *)
Fixpoint distinct_from (seen l : list string) : list string :=
  match l with
  | [] => []
  | x :: rest =>
      if existsb (String.eqb x) seen then distinct_from seen rest
      else x :: distinct_from (x :: seen) rest
  end.

(** The days on which [slots] has a dated slot, in the order of their first
    slot. *)
Definition days_of (slots : list AppointmentSlot.t) : list string :=
  distinct_from [] (map date_label (dated slots)).

(** The times of the dated slots of [slots] on the day [day], in the order
    of [slots]. *)
Definition times_on (day : string) (slots : list AppointmentSlot.t) : list string :=
  map time_label (filter (fun slot => (date_label slot =? day)%string) (dated slots)).

End WithRuntime.

(** A key that [Object.entries] lists by insertion order and that a fresh
    object does not inherit: it starts with no digit and is not the name of
    a property of [Object.prototype]. *)
Definition ordinary_key (key : string) : bool :=
  andb (match key with
        | EmptyString => true
        | String c _ =>
            negb (andb (Nat.leb 48 (nat_of_ascii c)) (Nat.leb (nat_of_ascii c) 57))
        end)
       (negb (existsb (String.eqb key)
                ["constructor"; "__proto__"; "toString"; "toLocaleString"; "valueOf";
                 "hasOwnProperty"; "isPrototypeOf"; "propertyIsEnumerable";
                 "__defineGetter__"; "__defineSetter__"; "__lookupGetter__";
                 "__lookupSetter__"])).

End Slots.

(* ===================================================================== *)
(** ** The agent entry file: configuration, prompt and tools *)
(* ===================================================================== *)

Module Agent.

(** *** Business configuration *)

Record GeneralInfo : Type := mkGeneralInfo {
  practiceName : string;
  phone : string;
  software : string;
  noShowFee : Z;
  address : string;
  hours : string;
  services : string;
  (** the raw operating-hours object of the store, by weekday *)
  rawHours : option (list (string * string))
}.

Record AgentConfig : Type := mkAgentConfig {
  agentName : option string;
  greeting : option string;
  pretendence : option bool;
  voice : option string
}.

Record NexHealthConfig : Type := mkNexHealthConfig {
  subdomain : option string;
  locationId : option string
}.

Record DentalBridgeConfig : Type := mkDentalBridgeConfig {
  db_locationId : option string
}.

(** ['nexhealth' | 'dental_bridge' | null], by an unchecked cast of the
    stored text. *)
Definition PMSProvider : Type := option string.

Record BusinessConfig : Type := mkBusinessConfig {
  id : string;
  name : string;
  generalInfo : GeneralInfo;
  agentConfig : AgentConfig;
  pmsProvider : PMSProvider;
  nexhealthConfig : NexHealthConfig;
  dentalBridgeConfig : DentalBridgeConfig
}.

(** [formatOperatingHours(hours)] *)
Definition formatOperatingHours (hours : option (list (string * string))) : string :=
  match hours with
  | None => "Not specified"
  | Some entries =>
      let open_days :=
        filter (fun e => andb (truthy_str (snd e)) (negb (snd e =? "Closed")%string))
               entries in
      let formatted :=
        join ", " (map (fun e => capitalize (fst e) ++ ": " ++ snd e) open_days) in
      or_str (Some formatted) "Not specified"
  end.

(** *** The data store *)

(** The [services] column: an array of texts, or a text, or nothing. *)
Inductive ServicesColumn : Type :=
| ServicesArray (items : list string)
| ServicesText (text : option string).

(** A row of the [businesses] table. *)
Record BusinessRow : Type := mkBusinessRow {
  b_id : string;
  b_name : string;
  phone_no : option string;
  practice_software : option string;
  no_show_fees : option Z;
  b_address : option string;
  operating_hours : option (list (string * string));
  b_services : ServicesColumn;
  nexhealth_subdomain : option string;
  nexhealth_location_id : option string;
  pms_provider : option string;
  dental_bridge_location_id : option string
}.

(** A row of the [business_agents] table. *)
Record AgentRow : Type := mkAgentRow {
  agent_name : option string;
  greeting_text : option string;
  a_pretendence : option bool;
  a_voice : option string
}.

(** What an awaited query gives: [{ data, error }]. *)
Record QueryReply (Row : Type) : Type := mkReply {
  data : option (list Row);
  error : option Error
}.

Arguments mkReply {Row} data error.
Arguments data {Row} q.
Arguments error {Row} q.

(** An asynchronous computation on the clock: it never settles, or it
    settles [elapsed] milliseconds after it was started, by returning or by
    throwing. *)
Inductive Timed (A : Type) : Type :=
| Pending
| Settled (elapsed : Z) (o : Outcome A).

Arguments Pending {A}.
Arguments Settled {A} elapsed o.

Definition tret {A} (a : A) : Timed A := Settled 0 (Return a).

Definition tbind {A B} (m : Timed A) (k : A -> Timed B) : Timed B :=
  match m with
  | Pending => Pending
  | Settled d (Throw e) => Settled d (Throw e)
  | Settled d (Return a) =>
      match k a with
      | Pending => Pending
      | Settled d' o => Settled (d + d') o
      end
  end.

Definition tcatch {A} (m : Timed A) (h : Error -> Timed A) : Timed A :=
  match m with
  | Pending => Pending
  | Settled d (Return a) => Settled d (Return a)
  | Settled d (Throw e) =>
      match h e with
      | Pending => Pending
      | Settled d' o => Settled (d + d') o
      end
  end.

(** The data-store client: the three queries the loader issues. *)
Record SupabaseClient : Type := mkSupabase {
  (** [from("businesses").select("*").eq("id", id).limit(1)] *)
  businesses_by_id : string -> Timed (QueryReply BusinessRow);
  (** [from("businesses").select("*").limit(1)] *)
  businesses_first : Timed (QueryReply BusinessRow);
  (** [from("business_agents").select("*").eq("business_id", id).limit(1)] *)
  business_agents : string -> Timed (QueryReply AgentRow)
}.

Notation "x <~ c ;; k" := (tbind c (fun x => k))
  (at level 61, c at next level, right associativity) : monad_scope.

(** [!businesses || businesses.length === 0] *)
Definition no_rows {Row} (rows : option (list Row)) : bool :=
  match rows with
  | None => true
  | Some [] => true
  | Some (_ :: _) => false
  end.

(** The transformation of the rows to a [BusinessConfig]. *)
Definition to_config (business : BusinessRow) (agent : option AgentRow) : BusinessConfig :=
  {| id := b_id business;
     name := b_name business;
     generalInfo :=
       {| practiceName := b_name business;
          phone := or_str (phone_no business) "Not provided";
          software := or_str (practice_software business) "Not specified";
          noShowFee := match no_show_fees business with Some z => z | None => 0 end;
          address := or_str (b_address business) "Not provided";
          hours := formatOperatingHours (operating_hours business);
          services :=
            match b_services business with
            | ServicesArray items => join ", " items
            | ServicesText text => or_str text "Not specified"
            end;
          rawHours := operating_hours business |};
     agentConfig :=
       {| agentName := match agent with Some a => agent_name a | None => None end;
          greeting := match agent with Some a => greeting_text a | None => None end;
          pretendence :=
            Some (match agent with
                  | Some a => match a_pretendence a with Some b => b | None => false end
                  | None => false
                  end);
          voice :=
            Some (or_str (match agent with Some a => a_voice a | None => None end) "Puck") |};
     nexhealthConfig :=
       {| subdomain := nexhealth_subdomain business;
          locationId := nexhealth_location_id business |};
     pmsProvider := pms_provider business;
     dentalBridgeConfig := {| db_locationId := dental_bridge_location_id business |} |}.

(** The first part of [loadBusinessConfigInternal]: the lookup of the
    business by its identifier when one is given, then, when that gave no
    row, the lookup of the first available business.  The result is the
    pair of [businesses] and [bizError] as the last query set them. *)
Definition lookup_business (sb : SupabaseClient) (businessId : option string)
  : Timed (option (list BusinessRow) * option Error) :=
  first <~ (match businessId with
            | Some bid =>
                if truthy_str bid
                then (result <~ businesses_by_id sb bid ;;
                      tret (data result, error result))
                else tret (None, None)
            | None => tret (None, None)
            end) ;;
  if no_rows (fst first)
  then (result <~ businesses_first sb ;;
        tret (data result, error result))
  else tret first.

(** [agents?.[0]] *)
Definition first_agent (agents : QueryReply AgentRow) : option AgentRow :=
  match data agents with
  | Some (a :: _) => Some a
  | _ => None
  end.

(** [loadBusinessConfigInternal(businessId)], given the module-level
    [supabase] client ([null] when the environment lacks its settings). *)
Definition loadBusinessConfigInternal (supabase : option SupabaseClient)
    (businessId : option string) : Timed (option BusinessConfig) :=
  tcatch
    (match supabase with
     | None => tret None
     | Some sb =>
         found <~ lookup_business sb businessId ;;
         match snd found with
         | Some _ => tret None
         | None =>
             match fst found with
             | None => tret None
             | Some [] => tret None
             | Some (business :: _) =>
                 agents <~ business_agents sb (b_id business) ;;
                 tret (Some (to_config business (first_agent agents)))
             end
         end
     end)
    (fun _ => tret None).

Definition TIMEOUT_MS : Z := 10000.

(** [Promise.race([m, timeoutPromise])]: the timer is armed first and
    rejects after [TIMEOUT_MS]; [m] wins when it settles earlier. *)
Definition race_timeout {A} (m : Timed A) : Timed A :=
  match m with
  | Settled d o =>
      if d <? TIMEOUT_MS then Settled d o
      else Settled TIMEOUT_MS (Throw (mkError "Config load timeout"))
  | Pending => Settled TIMEOUT_MS (Throw (mkError "Config load timeout"))
  end.

(** [loadBusinessConfig(businessId)] *)
Definition loadBusinessConfig (supabase : option SupabaseClient)
    (businessId : option string) : Timed (option BusinessConfig) :=
  tcatch (race_timeout (loadBusinessConfigInternal supabase businessId))
         (fun _ => tret None).

(** *** The prompt builder *)

(** The double-quote character. *)
Definition dq : string := String (ascii_of_nat 34) EmptyString.

(** The identity paragraph, by the [pretendence] flag. *)
Definition identityInstructions (config : BusinessConfig) : string :=
  let gi := generalInfo config in
  let agentName := show_ostr (agentName (agentConfig config)) in
  if match pretendence (agentConfig config) with Some b => b | None => false end
  then "You are " ++ agentName ++ ", a receptionist at " ++ practiceName gi
         ++ ". Act naturally as a helpful human receptionist."
  else "You are " ++ agentName ++ ", an AI assistant receptionist at " ++ practiceName gi
         ++ ". When asked, honestly say you are an AI assistant. Never pretend to be human.".

(** The system prompt, given the text of today's date. *)
Definition fullInstructions (config : BusinessConfig) (today : string) : string :=
  let gi := generalInfo config in
  let identityInstructions := identityInstructions config in
  identityInstructions
  ++ " Today is "
  ++ today
  ++ ".


GOAL: Helps callers with their inquiries and book appointments efficiently and naturally.

TOOLS:
- getAvailableSlots: Check availability (uses practice operating hours).
- searchPatient: Find existing patient by name/phone.
- searchPatientByEmail: Find by email.
- createPatient: Register new patient (Name, Email, Phone, DOB, Gender required).
- bookAppointment: Finalize booking (Patient info + Time).
- getPracticeInfo: General Q&A (Hours, location, etc).

CRITICAL RULES:
- **Identity**: You know your name and role. DO NOT use tools to find out who you are.
- **Tool Usage**: Use tools ONLY when you need external data.
- **Phasing**: Do NOT say "
  ++ dq
  ++ "Let me check that"
  ++ dq
  ++ " for simple questions.
- **Tone**: Be warm, professional, and efficient.
- **Style**: OCCASIONALLY use natural fillers like "
  ++ dq
  ++ "ummm"
  ++ dq
  ++ ", "
  ++ dq
  ++ "aaah"
  ++ dq
  ++ ", "
  ++ dq
  ++ "let me see"
  ++ dq
  ++ " to sound more human. Don't overdo it, but use them when processing or transitioning.
- **Brevity**: Keep responses under 2 sentences unless explaining complex info.
- **GREETING**: Always start the conversation by introducing yourself. Do NOT ask for the user's name immediately unless they want to book an appointment.

PROCEDURES:
1. **GREETING**: Wait for the user to respond to your greeting.
2. **INQUIRY**: Answer questions about hours, services, location, etc.
3. **BOOKING (Only if user asks to book)**:
   a. **STEP 1**: Ask for **First Name**. Wait for answer.
   b. **STEP 2**: Ask for **Last Name**. Wait for answer.
   c. **STEP 3**: Ask for **Phone Number**. Wait for answer.
   d. **STEP 4**: Call `searchPatient` with the collected info.
      - **IF FOUND**: SILENTLY acknowledge it. **DO NOT** say "
  ++ dq
  ++ "I found John Smith"
  ++ dq
  ++ ". Just say something like "
  ++ dq
  ++ "Okay, I have your file pulled up."
  ++ dq
  ++ " or "
  ++ dq
  ++ "Great, thanks."
  ++ dq
  ++ " and immediately move to asking about appointment times.
      - **IF NOT FOUND**: The tool will tell you. You can say "
  ++ dq
  ++ "I couldn't find a file with that info..."
  ++ dq
  ++ " and ask for Email, DOB, Gender to `createPatient`.
   e. Check availability -> `getAvailableSlots`.
   f. Offer 2-3 slots based on the operating hours returned.
   g. Confirm & Book -> `bookAppointment`.

One question at a time. Wait for user answer.

Practice: "
  ++ practiceName gi
  ++ "
Address: "
  ++ address gi
  ++ "
Phone: "
  ++ phone gi
  ++ "
Hours: "
  ++ hours gi
  ++ "
Services: "
  ++ services gi
  ++ "
No-Show Fee: $"
  ++ show (noShowFee gi)
  ++ "
".

(** *** The tools *)

(** The variables the tools share through their closure: the client (with
    its token cache; [null] when the booking system is not configured) and
    the identifiers resolved so far in the conversation. *)
Record Session : Type := mkSession {
  nexhealth : option NexHealth.NexHealthClient;
  currentPatientId : option Z;
  currentProviderId : option Z
}.

Definition set_nexhealth (c : option NexHealth.NexHealthClient) (s : Session) : Session :=
  mkSession c (currentPatientId s) (currentProviderId s).

Definition set_currentPatientId (v : option Z) (s : Session) : Session :=
  mkSession (nexhealth s) v (currentProviderId s).

Definition set_currentProviderId (v : option Z) (s : Session) : Session :=
  mkSession (nexhealth s) (currentPatientId s) v.

(** A method call on [nexhealth]; on [null] it is a [TypeError]. *)
Definition on_client {A} (m : M NexHealth.NexHealthClient A) : M Session A :=
  fun s w =>
    match nexhealth s with
    | Some c =>
        match m c w with
        | (o, c', w') => (o, set_nexhealth (Some c') s, w')
        end
    | None => (Throw (mkError "TypeError: Cannot read properties of null"), s, w)
    end.

(** What [createDynamicAgent] builds: the prompt and what the tools close
    over. *)
Record DynamicAgent : Type := mkAgent {
  instructions : string;
  agent_generalInfo : GeneralInfo;
  agent_locationId : JsNum;
  agent_session : Session
}.

(** The values of [z.enum(["male", "female", "other"])]. *)
Inductive Gender : Type := male | female | other.

Definition gender_text (g : Gender) : string :=
  match g with
  | male => "male"
  | female => "female"
  | other => "other"
  end.

Definition MSG_NOT_CONFIGURED : string :=
  "Booking system not configured. Please call the office directly.".
Definition MSG_FOUND : string :=
  "Patient record found. Proceed directly to asking for appointment preference. Do not announce the patient's name.".
Definition MSG_NOT_FOUND : string :=
  "Patient not found in our system. I'll need to collect more information to create a new patient record.".
Definition MSG_SEARCH_TROUBLE : string :=
  "I had trouble searching for the patient. Please try again.".
Definition MSG_FOUND_BY_EMAIL : string :=
  "Patient record found. Proceed directly to asking for appointment preference.".
Definition MSG_EMAIL_NOT_FOUND : string :=
  "I couldn't find a record with that email. Let me create a new record for you.".
Definition MSG_EMAIL_TROUBLE : string :=
  "I had trouble searching. Let me create a new record for you.".
Definition MSG_CREATED (firstName lastName : string) : string :=
  "Great! I've created a patient record for " ++ firstName ++ " " ++ lastName
    ++ ". Now let me check our availability.".
Definition MSG_CREATE_TROUBLE : string :=
  "I had trouble creating the patient record. Please try again or call the office directly.".
Definition MSG_CLOSED (searchStartDate dayName : string) : string :=
  "We are closed on " ++ searchStartDate ++ " (" ++ dayName ++ "). Please check another day.".
Definition MSG_OPEN (searchStartDate dayName hoursForDay : string) : string :=
  "We are open on " ++ searchStartDate ++ " (" ++ dayName ++ ") from " ++ hoursForDay
    ++ ". You can request any time within these hours.".
Definition MSG_SLOTS_TROUBLE : string :=
  "I'm having trouble checking availability right now. Please try again.".
Definition MSG_NEED_PATIENT : string :=
  "I need to have your patient information first. Can you give me your name and email?".
Definition MSG_NO_PROVIDER : string :=
  "I couldn't find an available provider. Please call the office directly.".
Definition MSG_CONFIRMED (formattedDate formattedTime : string) : string :=
  "Your appointment is confirmed for " ++ formattedDate ++ " at " ++ formattedTime
    ++ ". You'll receive a confirmation email shortly.".
Definition MSG_BOOK_TROUBLE : string :=
  "I'm having trouble booking right now. Please try again or call the office directly.".

(** [['sunday', 'monday', ..., 'saturday']] *)
Definition days : list string :=
  ["sunday"; "monday"; "tuesday"; "wednesday"; "thursday"; "friday"; "saturday"].

(** [days[n] || 'monday'] *)
Definition dayName_of (n : JsNum) : string :=
  match n with
  | Num z =>
      if z <? 0 then "monday"
      else match nth_error days (Z.to_nat z) with
           | Some d => d
           | None => "monday"
           end
  | NaN => "monday"
  end.

Definition generalInfo_json (gi : GeneralInfo) : Json :=
  JObj [("practiceName", JStr (practiceName gi));
        ("phone", JStr (phone gi));
        ("software", JStr (software gi));
        ("noShowFee", JNum (noShowFee gi));
        ("address", JStr (address gi));
        ("hours", JStr (hours gi));
        ("services", JStr (services gi));
        ("rawHours", match rawHours gi with
                     | Some entries => JObj (map (fun e => (fst e, JStr (snd e))) entries)
                     | None => JNull
                     end)].

Section Tools.
Context {RT : Runtime}.
(** The constants of the closure: [generalInfo] and [locationId]. *)
Variable gi : GeneralInfo.
Variable loc : JsNum.

Definition name_and_phone (fullName phone : string) : NexHealth.SearchParams :=
  NexHealth.mkSearch (Some fullName) None (Some phone) loc.

Definition name_only (fullName : string) : NexHealth.SearchParams :=
  NexHealth.mkSearch (Some fullName) None None loc.

Definition by_email (email : string) : NexHealth.SearchParams :=
  NexHealth.mkSearch None (Some email) None loc.

(** The [searchPatient] tool. *)
Definition searchPatient (firstName lastName phone : string) : M Session string :=
  let fullName := firstName ++ " " ++ lastName in
  s <- get ;;
  match nexhealth s with
  | None => ret MSG_NOT_CONFIGURED
  | Some _ =>
      try_catch
        (first <- on_client (NexHealth.searchPatients (name_and_phone fullName phone)) ;;
         patients <- match first with
                     | [] => on_client (NexHealth.searchPatients (name_only fullName))
                     | _ :: _ => ret first
                     end ;;
         match patients with
         | p :: _ =>
             modify (set_currentPatientId (Some (Patient.id p))) ;;;
             ret MSG_FOUND
         | [] => ret MSG_NOT_FOUND
         end)
        (fun _ => ret MSG_SEARCH_TROUBLE)
  end.

(** The [searchPatientByEmail] tool. *)
Definition searchPatientByEmail (email : string) : M Session string :=
  s <- get ;;
  match nexhealth s with
  | None => ret MSG_NOT_CONFIGURED
  | Some _ =>
      try_catch
        (patients <- on_client (NexHealth.searchPatients (by_email email)) ;;
         match patients with
         | p :: _ =>
             modify (set_currentPatientId (Some (Patient.id p))) ;;;
             ret MSG_FOUND_BY_EMAIL
         | [] => ret MSG_EMAIL_NOT_FOUND
         end)
        (fun _ => ret MSG_EMAIL_TROUBLE)
  end.

(** The [createPatient] tool. *)
Definition createPatient (firstName lastName email phone dateOfBirth : string)
    (gender : Gender) : M Session string :=
  s <- get ;;
  match nexhealth s with
  | None => ret MSG_NOT_CONFIGURED
  | Some _ =>
      try_catch
        (patient <- on_client
           (NexHealth.createPatient
              (NexHealth.mkNewPatient firstName lastName email phone dateOfBirth
                 (gender_text gender) loc)) ;;
         modify (set_currentPatientId (Some (Patient.id patient))) ;;;
         ret (MSG_CREATED firstName lastName))
        (fun _ => ret MSG_CREATE_TROUBLE)
  end.

(** [if (providers.length > 0) currentProviderId = providers[0]?.id] *)
Definition remember_first_provider (providers : list Provider.t) : M Session unit :=
  match providers with
  | p :: _ => modify (set_currentProviderId (Some (Provider.id p)))
  | [] => ret tt
  end.

(** The end of the body of [getAvailableSlots], once the date to look up is
    known: the answer read off the operating hours of its weekday. *)
Definition hours_answer (searchStartDate : string) : string :=
  let rawHours := match rawHours gi with
                  | Some entries => entries
                  | None => []
                  end in
  let dayName := dayName_of (Date_getDay (searchStartDate ++ "T12:00:00")) in
  match lookup dayName rawHours with
  | None => MSG_CLOSED searchStartDate dayName
  | Some hoursForDay =>
      if orb (negb (truthy_str hoursForDay))
             (toLowerCase hoursForDay =? "closed")%string
      then MSG_CLOSED searchStartDate dayName
      else MSG_OPEN searchStartDate dayName hoursForDay
  end.

(** The [getAvailableSlots] tool ([daysToCheck] is not used by the body). *)
Definition getAvailableSlots (startDate : option string) (daysToCheck : option Z)
  : M Session string :=
  try_catch
    (s <- get ;;
     (if andb (negb (truthy_onum (currentProviderId s)))
              (match nexhealth s with Some _ => true | None => false end)
      then (providers <- on_client (NexHealth.getProviders loc) ;;
            remember_first_provider providers)
      else ret tt) ;;;
     t <- now ;;
     let searchStartDate := match startDate with
                            | Some d => d
                            | None => toISODate t
                            end in
     ret (hours_answer searchStartDate))
    (fun _ => ret MSG_SLOTS_TROUBLE).

(** The [bookAppointment] tool. *)
Definition bookAppointment (startTime : string) (reason : option string)
  : M Session string :=
  s <- get ;;
  match nexhealth s with
  | None => ret MSG_NOT_CONFIGURED
  | Some _ =>
      try_catch
        (match currentPatientId s with
         | None => ret MSG_NEED_PATIENT
         | Some patientId =>
             if negb (truthy_num patientId) then ret MSG_NEED_PATIENT
             else
               (** the provider to book with: the cached one, else the first
                   one of the location, which is cached on the way *)
               provider <- (if truthy_onum (currentProviderId s)
                            then ret (currentProviderId s)
                            else
                              providers <- on_client (NexHealth.getProviders loc) ;;
                              remember_first_provider providers ;;;
                              ret (match providers with
                                   | p :: _ => Some (Provider.id p)
                                   | [] => None
                                   end)) ;;
               match provider with
               | None => ret MSG_NO_PROVIDER
               | Some providerId =>
                   on_client
                     (NexHealth.createAppointment
                        (NexHealth.mkAppointmentParams loc patientId providerId
                           startTime None None reason)) ;;;
                   ret (MSG_CONFIRMED (toLocaleDateString startTime)
                                      (toLocaleTimeString startTime))
               end
         end)
        (fun _ => ret MSG_BOOK_TROUBLE)
  end.

(** The names of the properties that an object literal inherits from
    [Object.prototype]. *)
Definition inherited_name (key : string) : bool :=
  existsb (String.eqb key)
    ["constructor"; "__proto__"; "toString"; "toLocaleString"; "valueOf";
     "hasOwnProperty"; "isPrototypeOf"; "propertyIsEnumerable";
     "__defineGetter__"; "__defineSetter__"; "__lookupGetter__";
     "__lookupSetter__"].

(** The [getPracticeInfo] tool: [info[infoType.toLowerCase()] ||
    JSON.stringify(generalInfo)] over the five own properties of [info].
    For an [infoType] whose lower case is an inherited name, [constructor]
    or [__proto__], the code returns the inherited property, a function or
    an object and no text: the model gives the answer of the tool for the
    other [infoType]s only, and what is stated of that answer excludes
    these by [inherited_name]. *)
Definition getPracticeInfo (infoType : string) : M Session string :=
  let info := [("hours", hours gi);
               ("location", address gi);
               ("services", services gi);
               ("contact", phone gi);
               ("noshowfee", "$" ++ show (noShowFee gi))] in
  ret (or_str (lookup (toLowerCase infoType) info)
              (JSON_stringify (generalInfo_json gi))).

(** A tool call the conversation runtime makes, its arguments already
    validated against the tool's schema. *)
Inductive ToolCall : Type :=
| SearchPatient (firstName lastName phone : string)
| SearchPatientByEmail (email : string)
| CreatePatient (firstName lastName email phone dateOfBirth : string) (gender : Gender)
| GetAvailableSlots (startDate : option string) (daysToCheck : option Z)
| BookAppointment (startTime : string) (reason : option string)
| GetPracticeInfo (infoType : string).

(** The [execute] function of the tool called. *)
Definition execute (call : ToolCall) : M Session string :=
  match call with
  | SearchPatient firstName lastName phone => searchPatient firstName lastName phone
  | SearchPatientByEmail email => searchPatientByEmail email
  | CreatePatient firstName lastName email phone dateOfBirth gender =>
      createPatient firstName lastName email phone dateOfBirth gender
  | GetAvailableSlots startDate daysToCheck => getAvailableSlots startDate daysToCheck
  | BookAppointment startTime reason => bookAppointment startTime reason
  | GetPracticeInfo infoType => getPracticeInfo infoType
  end.

End Tools.

(** [createDynamicAgent(config)], given the module-level
    [nexhealthApiKey]: the prompt, the constants of the closure and the
    initial values of its variables. *)
Definition createDynamicAgent {RT : Runtime} (nexhealthApiKey : option string)
    (config : BusinessConfig) : M unit DynamicAgent :=
  t <- now ;;
  let today := toISODate t in
  let nexhealthConfig := nexhealthConfig config in
  let nexhealth :=
    match nexhealthApiKey, subdomain nexhealthConfig with
    | Some key, Some sub =>
        if andb (truthy_str key) (truthy_str sub)
        then Some (NexHealth.new_client (NexHealth.mkConfig key sub None))
        else None
    | _, _ => None
    end in
  let locationId :=
    match locationId nexhealthConfig with
    | Some l => if truthy_str l then parseInt l else Num 0
    | None => Num 0
    end in
  ret {| instructions := fullInstructions config today;
         agent_generalInfo := generalInfo config;
         agent_locationId := locationId;
         agent_session := mkSession nexhealth None None |}.

End Agent.

(** *** The start of a session *)

Module Entry.
Import Agent.

(** What [entry] does once [loadBusinessConfig] has settled. *)
Inductive Decision : Type :=
| NoConfig
| NotConfigured
| Start (config : BusinessConfig) (voiceName : string) (greeting : string).

(** The decisions of [entry] between the loading of the configuration and
    the start of the session: [if (!config) return], then the test
    [!config.agentConfig.agentName || !config.agentConfig.greeting], then
    the session of the agent of [createDynamicAgent(config)], which speaks
    with the voice [config.agentConfig.voice || "Puck"] and first says
    [config.agentConfig.greeting]. *)
Definition decide (loaded : option BusinessConfig) : Decision :=
  match loaded with
  | None => NoConfig
  | Some config =>
      if orb (negb (truthy_ostr (agentName (agentConfig config))))
             (negb (truthy_ostr (greeting (agentConfig config))))
      then NotConfigured
      else Start config (or_str (voice (agentConfig config)) "Puck")
                 (show_ostr (greeting (agentConfig config)))
  end.

End Entry.

(* ===================================================================== *)
(** ** A runtime for the closed examples *)
(* ===================================================================== *)

(** An instance of [Runtime] on which the examples below are evaluated.  It
    covers the inputs a well-behaved caller produces: dates written
    [YYYY-MM-DD] (parsed as UTC midnight), date-times written
    [YYYY-MM-DDTHH:MM:SS] (read as local time), decimal integers, and texts
    that need no escaping in JSON.  Every other date text is an invalid
    date. *)
Module IsoRuntime.

Definition digit (c : ascii) : option Z :=
  let n := nat_of_ascii c in
  if andb (Nat.leb 48 n) (Nat.leb n 57) then Some (Z.of_nat (n - 48)) else None.

Fixpoint digits (acc : Z) (s : string) : option Z :=
  match s with
  | EmptyString => Some acc
  | String c r =>
      match digit c with
      | Some d => digits (10 * acc + d) r
      | None => None
      end
  end.

(** The number written by exactly [len] digits at offset [off]. *)
Definition field (off len : nat) (s : string) : option Z :=
  let f := substring off len s in
  if Nat.eqb (String.length f) len then digits 0 f else None.

Definition leap (y : Z) : bool :=
  andb (y mod 4 =? 0) (orb (negb (y mod 100 =? 0)) (y mod 400 =? 0)).

Definition days_in_month (y m : Z) : Z :=
  if m =? 2 then (if leap y then 29 else 28)
  else if orb (orb (m =? 4) (m =? 6)) (orb (m =? 9) (m =? 11)) then 30
  else 31.

(** The [(year, month, day)] a text starts with, when it starts with a
    calendar date [YYYY-MM-DD]. *)
Definition date_fields (s : string) : option (Z * Z * Z) :=
  match field 0 4 s, field 5 2 s, field 8 2 s with
  | Some y, Some m, Some d =>
      if andb (andb (substring 4 1 s =? "-")%string (substring 7 1 s =? "-")%string)
              (andb (andb (1 <=? m) (m <=? 12)) (andb (1 <=? d) (d <=? days_in_month y m)))
      then Some (y, m, d)
      else None
  | _, _, _ => None
  end.

(** The [(hour, minute)] of a date-time [YYYY-MM-DDTHH:MM:SS]. *)
Definition time_fields (s : string) : option (Z * Z) :=
  match field 11 2 s, field 14 2 s, field 17 2 s with
  | Some h, Some mi, Some sec =>
      if andb (andb (Nat.eqb (String.length s) 19) (substring 10 1 s =? "T")%string)
              (andb (andb (substring 13 1 s =? ":")%string (substring 16 1 s =? ":")%string)
                    (andb (h <=? 23) (andb (mi <=? 59) (sec <=? 59))))
      then Some (h, mi)
      else None
  | _, _, _ => None
  end.

Definition getTime (s : string) : JsNum :=
  match date_fields s with
  | Some (y, m, d) =>
      if Nat.eqb (String.length s) 10 then Num (days_from_civil y m d * MS_PER_DAY)
      else NaN
  | None => NaN
  end.

(** The weekday of a day number: 1970-01-01 was a Thursday. *)
Definition weekday (day : Z) : Z := (day + 4) mod 7.

Definition getDay (s : string) : JsNum :=
  match date_fields s, time_fields s with
  | Some (y, m, d), Some _ => Num (weekday (days_from_civil y m d))
  | _, _ => NaN
  end.

Definition weekday_names : list string :=
  ["Sunday"; "Monday"; "Tuesday"; "Wednesday"; "Thursday"; "Friday"; "Saturday"].

Definition month_names : list string :=
  ["January"; "February"; "March"; "April"; "May"; "June"; "July"; "August";
   "September"; "October"; "November"; "December"].

Definition localeDate (s : string) : string :=
  match date_fields s, time_fields s with
  | Some (y, m, d), Some _ =>
      nth (Z.to_nat (weekday (days_from_civil y m d))) weekday_names ""
        ++ ", " ++ nth (Z.to_nat (m - 1)) month_names "" ++ " " ++ show d
  | _, _ => "Invalid Date"
  end.

Definition localeTime (s : string) : string :=
  match date_fields s, time_fields s with
  | Some _, Some (h, mi) =>
      show (if h mod 12 =? 0 then 12 else h mod 12) ++ ":" ++ pad_left 2 (show mi)
        ++ (if h <? 12 then " AM" else " PM")
  | _, _ => "Invalid Date"
  end.

(** [parseInt] of a text that starts with decimal digits. *)
Fixpoint leading_digits (s : string) : string :=
  match s with
  | EmptyString => EmptyString
  | String c r =>
      match digit c with
      | Some _ => String c (leading_digits r)
      | None => EmptyString
      end
  end.

Definition parse_int (s : string) : JsNum :=
  match leading_digits s with
  | EmptyString => NaN
  | ds => match digits 0 ds with
          | Some z => Num z
          | None => NaN
          end
  end.

Fixpoint stringify (fuel : nat) (v : Json) : string :=
  match fuel with
  | O => ""
  | S n =>
      match v with
      | JNull => "null"
      | JNum z => show z
      | JStr s => Agent.dq ++ s ++ Agent.dq
      | JObj fields =>
          "{" ++ join ","
                   (map (fun kv => Agent.dq ++ fst kv ++ Agent.dq ++ ":" ++ stringify n (snd kv))
                        fields)
              ++ "}"
      end
  end.

#[export] Instance runtime : Runtime := {|
  Date_getTime := getTime;
  Date_getDay := getDay;
  toLocaleDateString := localeDate;
  toLocaleTimeString := localeTime;
  parseInt := parse_int;
  JSON_stringify := stringify 8
|}.

End IsoRuntime.

(* ===================================================================== *)
(** ** Vocabulary of the properties *)
(* ===================================================================== *)

Module Calls.
Import NexHealth.

(** A call of one of the client's public methods. *)
Inductive Operation : Type :=
| Authenticate
| GetLocations
| GetProviders (locationId : JsNum)
| GetAppointmentTypes (locationId : JsNum)
| SearchPatients (params : SearchParams)
| CreatePatient (patient : NewPatient)
| GetAppointmentSlots (params : SlotParams)
| CreateAppointment (params : AppointmentParams)
| CancelAppointment (appointmentId : Z)
| GetPatient (patientId : Z).

(** Whether the operation goes through [request] (every one but a direct
    call of [authenticate]). *)
Definition is_request (op : Operation) : bool :=
  match op with
  | Authenticate => false
  | _ => true
  end.

(** The call, its result dropped. *)
Definition perform {RT : Runtime} (op : Operation) : M NexHealthClient unit :=
  match op with
  | Authenticate => _ <- authenticate ;; ret tt
  | GetLocations => _ <- getLocations ;; ret tt
  | GetProviders l => _ <- getProviders l ;; ret tt
  | GetAppointmentTypes l => _ <- getAppointmentTypes l ;; ret tt
  | SearchPatients p => _ <- searchPatients p ;; ret tt
  | CreatePatient p => _ <- createPatient p ;; ret tt
  | GetAppointmentSlots p => _ <- getAppointmentSlots p ;; ret tt
  | CreateAppointment p => _ <- createAppointment p ;; ret tt
  | CancelAppointment a => _ <- cancelAppointment a ;; ret tt
  | GetPatient p => _ <- getPatient p ;; ret tt
  end.

(** The calls one after the other, whatever each one returns or throws. *)
Fixpoint perform_all {RT : Runtime} (ops : list Operation)
    (this : NexHealthClient) (w : World) : NexHealthClient * World :=
  match ops with
  | [] => (this, w)
  | op :: rest =>
      match perform op this w with
      | (_, this', w') => perform_all rest this' w'
      end
  end.

(** A request to the authentication endpoint of the client. *)
Definition is_auth_call (this : NexHealthClient) (rq : Request) : bool :=
  (rq_url rq =? baseUrl this ++ "/authenticates")%string.

(** The requests a computation added to the log. *)
Definition issued (before after : World) : list Request :=
  skipn (length (trace before)) (trace after).

(** The world after one reading of the clock. *)
Definition tick (w : World) : World :=
  mkWorld (clock w) (S (ticks w)) (net w) (trace w).

(** The world after one call of [fetch]. *)
Definition log (rq : Request) (w : World) : World :=
  mkWorld (clock w) (ticks w) (net w) (trace w ++ [rq]).

(** The client holds a usable token: one that passes the test
    [this.bearerToken && this.tokenExpiry] of [authenticate]. *)
Definition token_live (this : NexHealthClient) (tok : string) (expiry : Z) : Prop :=
  bearerToken this = Some tok /\ truthy_str tok = true /\ tokenExpiry this = Some expiry.

(** What [authenticate] does once it has found no valid token, from the
    world [w1] in which it calls the endpoint. *)
Definition authenticate_call (this : NexHealthClient) (w1 : World)
  : Outcome (option string) * NexHealthClient * World :=
  let w2 := log (auth_request this) w1 in
  match net w1 (length (trace w1)) KAuth with
  | Rejected e => (Throw e, this, w2)
  | NotOk status errorText =>
      (Throw (mkError ("Authentication failed: " ++ show status ++ " - " ++ errorText)),
       this, w2)
  | Ok data =>
      let token := or_ostr (nested_token data) (top_token data) in
      (Return token,
       set_tokenExpiry (Some (clock w2 (ticks w2) + TOKEN_LIFETIME_MS))
         (set_bearerToken token this),
       tick w2)
  end.

(** The world in which every patient search is answered by the body [d]. *)
Definition answering_patients (d : Listing Patient.t) (w : World) : World :=
  mkWorld (clock w) (ticks w)
    (fun n k => match k as k0 return Response (payload k0) with
                | KPatients => Ok d
                | k0 => net w n k0
                end)
    (trace w).

(** The world in which every slot lookup is answered by the body [d]. *)
Definition answering_slots (d : Listing AppointmentSlot.t) (w : World) : World :=
  mkWorld (clock w) (ticks w)
    (fun n k => match k as k0 return Response (payload k0) with
                | KSlots => Ok d
                | k0 => net w n k0
                end)
    (trace w).

(** What a caller observes of a run: the outcome, the client afterwards and
    the requests logged. *)
Definition observed {A} (r : Outcome A * NexHealthClient * World)
  : Outcome A * NexHealthClient * list Request :=
  (fst (fst r), snd (fst r), trace (snd r)).

(** The outcome of an operation that answers [l] once it is authenticated:
    [l] when [authenticate] returns, the error of [authenticate] otherwise. *)
Definition after_authentication {A} (this : NexHealthClient) (w : World) (l : A)
  : Outcome A :=
  match fst (fst (authenticate this w)) with
  | Return _ => Return l
  | Throw e => Throw e
  end.

(** [w'] is a later stage of [w]: the same clock and network, and a log
    that only grew. *)
Definition later (w w' : World) : Prop :=
  clock w' = clock w /\ net w' = net w /\ exists new, trace w' = (trace w ++ new)%list.

(** Every run of [m] takes a state and a world to ones related by [R]. *)
Definition preserves {St A} (R : St * World -> St * World -> Prop) (m : M St A) : Prop :=
  forall s w o s' w', m s w = (o, s', w') -> R (s, w) (s', w').

(** The facts a computation cannot change, as relations between its start and its end *)
Definition world_later {St} : St * World -> St * World -> Prop :=
  fun a b => later (snd a) (snd b).

Definition same_config : NexHealthClient * World -> NexHealthClient * World -> Prop :=
  fun a b => apiKey (fst b) = apiKey (fst a)
             /\ NexHealth.subdomain (fst b) = NexHealth.subdomain (fst a)
             /\ baseUrl (fst b) = baseUrl (fst a).

(** A relation between the start and the end of a run that holds of the
    run that does nothing and composes over sequencing. *)
Class Invariant {St} (R : St * World -> St * World -> Prop) : Prop := {
  inv_refl : forall a, R a a;
  inv_trans : forall a b c, R a b -> R b c -> R a c
}.

(** The requests a computation issued apart from authentication calls, as
    method and URL. *)
Definition api_calls (this : NexHealthClient) (before after : World)
  : list (Method * string) :=
  map (fun rq => (rq_method rq, rq_url rq))
      (filter (fun rq => negb (is_auth_call this rq)) (issued before after)).
End Calls.

Module Dialogue.
Import Calls Agent.

(** Whether the result of a tool call says that a patient was resolved: a
    search that found a record, or a creation that went through. *)
Definition resolved_patient (call : ToolCall) (result : string) : bool :=
  match call with
  | SearchPatient _ _ _ => (result =? MSG_FOUND)%string
  | SearchPatientByEmail _ => (result =? MSG_FOUND_BY_EMAIL)%string
  | Agent.CreatePatient firstName lastName _ _ _ _ =>
      (result =? MSG_CREATED firstName lastName)%string
  | _ => false
  end.

(** The text a tool call hands to the conversation runtime. *)
Definition text {St} (r : Outcome string * St * World) : string :=
  match fst (fst r) with
  | Return s => s
  | Throw e => message e
  end.

Section WithClosure.
Context {RT : Runtime}.
Variable gi : GeneralInfo.
Variable loc : JsNum.

(** The tool calls of a conversation, one after the other, with the text
    each one returned. *)
Fixpoint run_calls (calls : list ToolCall) (s : Session) (w : World)
  : list (ToolCall * string) * Session * World :=
  match calls with
  | [] => ([], s, w)
  | call :: rest =>
      let r := execute gi loc call s w in
      match run_calls rest (snd (fst r)) (snd r) with
      | (history, s', w') => ((call, text r) :: history, s', w')
      end
  end.

End WithClosure.

(** [id] is the identifier of a patient record the network hands out in
    world [w]: the first record of a search answer, or a created record. *)
Definition upstream_id (w : World) (id : Z) : Prop :=
  (exists n d p, net w n KPatients = Ok d /\ hd_error (NexHealth.normalize d) = Some p
                 /\ Patient.id p = id)
  \/ (exists n p, net w n KPatient = Ok p /\ Patient.id p = id).

(** Every patient identifier the network hands out is non-zero. *)
Definition ids_nonzero (w : World) : Prop :=
  forall id, upstream_id w id -> id <> 0.

(** What one run of a tool leaves behind, apart from the patient
    identifier. *)
Definition tool_frame (s : Agent.Session) (w : World) (s' : Agent.Session) (w' : World)
  : Prop :=
  later w w' /\ (Agent.nexhealth s = None <-> Agent.nexhealth s' = None).

(** Whether [needle] occurs in [text]. *)
Fixpoint mentions (needle text : string) : bool :=
  orb (prefix needle text)
      match text with
      | EmptyString => false
      | String _ rest => mentions needle rest
      end.

(** The session after a tool ran on client [c] and cached the patient
    identifier [patient]. *)
Definition session_with (c : NexHealth.NexHealthClient) (patient : option Z)
    (s : Agent.Session)
  : Agent.Session :=
  Agent.mkSession (Some c) patient (Agent.currentProviderId s).
(** The date [getAvailableSlots] looks up: the one asked for, else the date
    of the clock reading [t]. *)
Definition requested_date (startDate : option string) (t : Z) : string :=
  match startDate with
  | Some d => d
  | None => toISODate t
  end.

(** The weekday [getAvailableSlots] derives from a date. *)
Definition weekday_of {RT : Runtime} (date : string) : string :=
  dayName_of (Date_getDay (date ++ "T12:00:00")).

(** *** The requested weekday, by the calendar *)

(** The weekday of a date written [YYYY-MM-DD], by the calendar: 0 for
    Sunday up to 6 for Saturday (1970-01-01 was a Thursday).  A text of
    another form has none. *)
Definition calendar_weekday (date : string) : option Z :=
  if Nat.eqb (String.length date) 10
  then match IsoRuntime.date_fields date with
       | Some (y, m, d) => Some ((days_from_civil y m d + 4) mod 7)
       | None => None
       end
  else None.

(** The key of a weekday in the raw hours. *)
Definition weekday_name (n : Z) : string :=
  match n with
  | 0 => "sunday"
  | 1 => "monday"
  | 2 => "tuesday"
  | 3 => "wednesday"
  | 4 => "thursday"
  | 5 => "friday"
  | 6 => "saturday"
  | _ => ""
  end.

(** The raw hours of the configuration have an entry for the weekday of
    the date [date], written [YYYY-MM-DD], and it reads "Closed" in some
    capitalization. *)
Definition closed_on (gi : GeneralInfo) (date : string) : Prop :=
  exists n h,
    calendar_weekday date = Some n
    /\ lookup (weekday_name n) (match rawHours gi with Some e => e | None => [] end)
       = Some h
    /\ toLowerCase h = "closed".

(** The engine reads the date by the calendar: at noon of a date written
    [YYYY-MM-DD], [getDay()] is the weekday of that date. *)
Definition read_by_calendar {RT : Runtime} (date : string) : Prop :=
  forall n, calendar_weekday date = Some n -> Date_getDay (date ++ "T12:00:00") = Num n.

(** What [getAvailableSlots] answers for the date [date] when it takes it
    for a Monday. *)
Definition monday_answer (gi : GeneralInfo) (date : string) : string :=
  match lookup "monday" (match rawHours gi with Some e => e | None => [] end) with
  | None => MSG_CLOSED date "monday"
  | Some h =>
      if orb (h =? "")%string (toLowerCase h =? "closed")%string
      then MSG_CLOSED date "monday"
      else MSG_OPEN date "monday" h
  end.
End Dialogue.
Import Dialogue.

(** *** Vocabulary of the further properties *)

Module Observations.
Import NexHealth Calls.

(** Whether a tool needs the booking client: every tool but
    [getAvailableSlots] and [getPracticeInfo]. *)
Definition needs_client (call : Agent.ToolCall) : bool :=
  match call with
  | Agent.GetAvailableSlots _ _ => false
  | Agent.GetPracticeInfo _ => false
  | _ => true
  end.

(** Whether the call asks [getPracticeInfo] for a property that its object
    of answers inherits. *)
Definition asks_inherited (call : Agent.ToolCall) : bool :=
  match call with
  | Agent.GetPracticeInfo infoType => Agent.inherited_name (toLowerCase infoType)
  | _ => false
  end.

(** Whether the text holds a colon. *)
Definition has_colon (s : string) : bool :=
  existsb (Ascii.eqb ":"%char) (list_ascii_of_string s).

(** Every authentication call is answered with a token. *)
Definition authentication_succeeds (w : World) : Prop :=
  forall n, exists data tok,
    net w n KAuth = Ok data
    /\ or_ostr (nested_token data) (top_token data) = Some tok
    /\ truthy_str tok = true.

(** Every authentication call is answered without a token. *)
Definition authentication_gives_no_token (w : World) : Prop :=
  forall n, exists data,
    net w n KAuth = Ok data
    /\ truthy_ostr (or_ostr (nested_token data) (top_token data)) = false.

(** Every reading of the clock falls in a window that starts at [t0] and is
    shorter than the lifetime the client gives a token. *)
Definition within_token_lifetime (w : World) (t0 : Z) : Prop :=
  forall n, t0 <= clock w n < t0 + TOKEN_LIFETIME_MS.

(** The token cache of the client [c] in the world [w], in a run that
    started with the client [c0] in the world [w0] at the time [t0]: no
    token yet and no authentication call issued, or a token that outlives
    the window and at most one authentication call issued. *)
Definition cache_ok (c0 : NexHealthClient) (w0 : World) (t0 : Z)
    (c : NexHealthClient) (w : World) : Prop :=
  baseUrl c = baseUrl c0
  /\ clock w = clock w0 /\ net w = net w0
  /\ exists new,
      trace w = (trace w0 ++ new)%list
      /\ ((bearerToken c = None /\ filter (is_auth_call c0) new = [])
          \/ ((exists tok e, token_live c tok e /\ t0 + TOKEN_LIFETIME_MS <= e)
              /\ (length (filter (is_auth_call c0) new) <= 1)%nat)).

(** [cache_ok] as a relation between the start and the end of a run of the
    client, and of a session that has a client. *)
Definition keeps_cache (c0 : NexHealthClient) (w0 : World) (t0 : Z)
  : NexHealthClient * World -> NexHealthClient * World -> Prop :=
  fun a b => cache_ok c0 w0 t0 (fst a) (snd a) -> cache_ok c0 w0 t0 (fst b) (snd b).

Definition keeps_session_cache (c0 : NexHealthClient) (w0 : World) (t0 : Z)
  : Agent.Session * World -> Agent.Session * World -> Prop :=
  fun a b =>
    (exists c, Agent.nexhealth (fst a) = Some c /\ cache_ok c0 w0 t0 c (snd a)) ->
    (exists c, Agent.nexhealth (fst b) = Some c /\ cache_ok c0 w0 t0 c (snd b)).

(** The most calls of the API a tool makes in one run. *)
Definition budget (call : Agent.ToolCall) : nat :=
  match call with
  | Agent.SearchPatient _ _ _ => 2
  | Agent.BookAppointment _ _ => 2
  | Agent.GetPracticeInfo _ => 0
  | _ => 1
  end.

(** The number of requests of [new] that are no authentication calls. *)
Definition api_requests (c0 : NexHealthClient) (new : list Request) : nat :=
  length (filter (fun rq => negb (is_auth_call c0 rq)) new).

(** The request goes to the base URL of [c0]. *)
Definition to_base (c0 : NexHealthClient) (rq : Request) : Prop :=
  prefix (baseUrl c0 ++ "/") (rq_url rq) = true.

(** A computation that, from a state in [P], ends in a state in [P] and
    issues at most [n] requests that are no authentication calls, all of
    its requests going to the base URL of [c0]. *)
Definition costs {St A} (c0 : NexHealthClient) (P : St -> Prop) (n : nat) (m : M St A)
  : Prop :=
  forall s w o s' w',
    P s -> m s w = (o, s', w') ->
    P s' /\ exists new, trace w' = (trace w ++ new)%list
                        /\ (api_requests c0 new <= n)%nat
                        /\ Forall (to_base c0) new.

(** The client, if any, talks to the base URL of [c0]. *)
Definition same_base (c0 : NexHealthClient) (c : NexHealthClient) : Prop :=
  baseUrl c = baseUrl c0.

Definition session_base (c0 : NexHealthClient) (s : Agent.Session) : Prop :=
  forall c, Agent.nexhealth s = Some c -> baseUrl c = baseUrl c0.

(** The cached provider is the same at the start and at the end of a run. *)
Definition same_provider : Agent.Session * World -> Agent.Session * World -> Prop :=
  fun a b => Agent.currentProviderId (fst b) = Agent.currentProviderId (fst a).

End Observations.

(* ===================================================================== *)
(** ** Concrete clients, worlds and configurations for the examples *)
(* ===================================================================== *)

Module Examples.
Import NexHealth.

(** A client that holds the token [tok-1] until the time 3300000. *)
Definition example_client : NexHealthClient :=
  {| apiKey := "key";
     subdomain := "demo";
     baseUrl := "https://nexhealth.info";
     bearerToken := Some "tok-1";
     tokenExpiry := Some 3300000 |}.

(** A world whose clock starts at [t0] and advances by one second per
    reading, and whose network answers every authentication with the token
    [tok-2] and every other call with a 503. *)
Definition example_world (t0 : Z) : World :=
  {| clock := fun n => t0 + 1000 * Z.of_nat n;
     ticks := O;
     net := fun _ k =>
              match k return Response (payload k) with
              | KAuth => Ok (mkAuthBody (Some "tok-2") None)
              | _ => NotOk 503 "unavailable"
              end;
     trace := [] |}.

(** *** The agent and its conversations *)

Import Agent.

Definition example_hours : list (string * string) :=
  [("monday", "Closed"); ("tuesday", "9:00 AM - 5:00 PM");
   ("wednesday", "9:00 AM - 5:00 PM"); ("sunday", "CLOSED")].

Definition example_info : GeneralInfo :=
  {| practiceName := "Elm Street Dental";
     phone := "555-0100";
     software := "OpenDental";
     noShowFee := 25;
     address := "1 Elm Street";
     hours := formatOperatingHours (Some example_hours);
     services := "Cleaning, Whitening";
     rawHours := Some example_hours |}.

Definition example_config : BusinessConfig :=
  {| id := "b-1";
     name := "Elm Street Dental";
     generalInfo := example_info;
     agentConfig := mkAgentConfig (Some "Mia") (Some "Hello!") (Some false) (Some "Puck");
     pmsProvider := Some "nexhealth";
     nexhealthConfig := mkNexHealthConfig (Some "demo") (Some "42");
     dentalBridgeConfig := mkDentalBridgeConfig None |}.

(** The agent [createDynamicAgent] builds for the example configuration at
    time [t0], with or without the API key in the environment. *)
Definition example_agent (nexhealthApiKey : option string) (t0 : Z) : DynamicAgent :=
  match createDynamicAgent (RT := IsoRuntime.runtime) nexhealthApiKey example_config tt
          (example_world t0) with
  | (Return agent, _, _) => agent
  | (Throw _, _, _) => mkAgent "" example_info NaN (mkSession None None None)
  end.

Definition example_patient (id : Z) : Patient.t :=
  Patient.mk id "Ada" "Lovelace" None None None None.

(** A world like [example_world] whose network answers the [first]
    patient search with [first_answer] and every later one with
    [later_answer]; the searches are the fetches after the authentication,
    which is fetch number 0. *)
Definition search_world (first_answer later_answer : Listing Patient.t) : World :=
  {| clock := fun n => 1000 * Z.of_nat n;
     ticks := O;
     net := fun n k =>
              match k return Response (payload k) with
              | KAuth => Ok (mkAuthBody (Some "tok-2") None)
              | KPatients => if Nat.eqb n 1 then Ok first_answer else Ok later_answer
              | KPatient => Ok (example_patient 9)
              | _ => NotOk 503 "unavailable"
              end;
     trace := [] |}.

(** *** The data store *)

Definition example_business : BusinessRow :=
  {| b_id := "b-1";
     b_name := "Elm Street Dental";
     phone_no := Some "555-0100";
     practice_software := None;
     no_show_fees := Some 25;
     b_address := Some "1 Elm Street";
     operating_hours := Some example_hours;
     b_services := ServicesArray ["Cleaning"; "Whitening"];
     nexhealth_subdomain := Some "demo";
     nexhealth_location_id := Some "42";
     pms_provider := Some "nexhealth";
     dental_bridge_location_id := None |}.

Definition example_agent_row : AgentRow :=
  mkAgentRow (Some "Mia") (Some "Hello!") None None.

(** A data store that answers the three queries of the loader as given. *)
Definition example_store (by_id first : Timed (QueryReply BusinessRow))
    (agents : Timed (QueryReply AgentRow)) : SupabaseClient :=
  mkSupabase (fun _ => by_id) first (fun _ => agents).

Definition found_after (ms : Z) : Timed (QueryReply BusinessRow) :=
  Settled ms (Return (mkReply (Some [example_business]) None)).

Definition agent_after (ms : Z) : Timed (QueryReply AgentRow) :=
  Settled ms (Return (mkReply (Some [example_agent_row]) None)).

Definition failed_after {Row} (ms : Z) : Timed (QueryReply Row) :=
  Settled ms (Return (mkReply None (Some (mkError "connection refused")))).
End Examples.
Import Examples.

(** A runtime like [IsoRuntime.runtime] that also reads two dates of
    expanded years, 150 000 000 days and one millisecond apart. *)
Module FarRuntime.

Definition far_start : string := "-203374-12-23".
Definition far_end : string := "+207313-01-10T00:00:00.001Z".

Definition getTime (s : string) : JsNum :=
  if (s =? far_start)%string then Num (-6480000000000000)
  else if (s =? far_end)%string then Num 6480000000000001
  else IsoRuntime.getTime s.

Definition runtime : Runtime := {|
  Date_getTime := getTime;
  Date_getDay := IsoRuntime.getDay;
  toLocaleDateString := IsoRuntime.localeDate;
  toLocaleTimeString := IsoRuntime.localeTime;
  parseInt := IsoRuntime.parse_int;
  JSON_stringify := IsoRuntime.stringify 8
|}.

End FarRuntime.

(** A practice that is closed on Sundays and open on Mondays. *)
Definition sunday_closed_info : Agent.GeneralInfo :=
  {| Agent.practiceName := "Elm Street Dental";
     Agent.phone := "555-0100";
     Agent.software := "OpenDental";
     Agent.noShowFee := 25;
     Agent.address := "1 Elm Street";
     Agent.hours := "Monday: 9:00 AM - 5:00 PM";
     Agent.services := "Cleaning";
     Agent.rawHours := Some [("sunday", "Closed"); ("monday", "9:00 AM - 5:00 PM")] |}.

(** *** Further scenarios *)

Module Scenarios.
Import NexHealth Examples.

(** A client fresh from the constructor. *)
Definition fresh_client : NexHealthClient :=
  new_client (mkConfig "key" "demo" None).

Definition example_provider : Provider.t :=
  Provider.mk 3 "Grace" "Hopper" None.

Definition example_appointment : Appointment.t :=
  Appointment.mk 11 7 3 42 "2026-11-03T09:00:00" "2026-11-03T09:30:00" "booked" None.

(** A world whose clock advances by one second per reading for fifty
    minutes and then stands still, and whose network answers every
    authentication with the token [tok-2], every patient search with one
    patient, every provider listing with one provider, every booking with
    an appointment and every other call with a 503. *)
Definition clinic_world : World :=
  {| clock := fun n => 1000 * Z.of_nat (Nat.min n 3000);
     ticks := O;
     net := fun _ k =>
              match k return Response (payload k) with
              | KAuth => Ok (mkAuthBody (Some "tok-2") None)
              | KPatients => Ok (Bare [example_patient 7])
              | KProviders => Ok [example_provider]
              | KAppointment => Ok example_appointment
              | _ => NotOk 503 "unavailable"
              end;
     trace := [] |}.

(** A world whose network answers every authentication with a body that
    holds no token, and every other call with a 503. *)
Definition tokenless_world : World :=
  {| clock := fun n => 1000 * Z.of_nat n;
     ticks := O;
     net := fun _ k =>
              match k return Response (payload k) with
              | KAuth => Ok (mkAuthBody None (Some ""))
              | _ => NotOk 503 "unavailable"
              end;
     trace := [] |}.

(** A world whose network answers every call with a 503. *)
Definition down_world : World :=
  {| clock := fun n => 1000 * Z.of_nat n;
     ticks := O;
     net := fun _ _ => NotOk 503 "unavailable";
     trace := [] |}.

(** A session of the example client in which the caller and a provider are
    known, or not yet. *)
Definition known_session : Agent.Session :=
  Agent.mkSession (Some example_client) (Some 7) (Some 3).

Definition new_session (c : NexHealthClient) : Agent.Session :=
  Agent.mkSession (Some c) None None.

(** A runtime like [IsoRuntime.runtime] that also gives a date-time
    [YYYY-MM-DDTHH:MM:SS] a time value, on a host whose time zone is UTC. *)
Module LocalRuntime.

Definition getTime (s : string) : JsNum :=
  match IsoRuntime.date_fields s, IsoRuntime.time_fields s, IsoRuntime.field 17 2 s with
  | Some (y, m, d), Some (h, mi), Some sec =>
      Num (days_from_civil y m d * MS_PER_DAY + ((h * 60 + mi) * 60 + sec) * 1000)
  | _, _, _ => IsoRuntime.getTime s
  end.

Definition runtime : Runtime := {|
  Date_getTime := getTime;
  Date_getDay := IsoRuntime.getDay;
  toLocaleDateString := IsoRuntime.localeDate;
  toLocaleTimeString := IsoRuntime.localeTime;
  parseInt := IsoRuntime.parse_int;
  JSON_stringify := IsoRuntime.stringify 8
|}.

End LocalRuntime.

(** Four slots on two days, one of them without a date. *)
Definition example_slots : list AppointmentSlot.t :=
  [AppointmentSlot.mk "2026-11-02T09:00:00" 3 None;
   AppointmentSlot.mk "2026-11-03T14:00:00" 3 None;
   AppointmentSlot.mk "soon" 3 None;
   AppointmentSlot.mk "2026-11-02T10:30:00" 4 (Some 1)].

End Scenarios.

(* ===================================================================== *)
(** ** Properties of the REST client *)
(* ===================================================================== *)

Import NexHealth Calls.

Lemma append_eqb_l (a b c : string) : (a ++ b =? a ++ c)%string = (b =? c)%string.
Proof.
  induction a as [|x a IH]; simpl; [reflexivity|].
  rewrite Ascii.eqb_refl. exact IH.
Qed.

Lemma issued_app (w : World) c t k new :
  issued w (mkWorld c t k (trace w ++ new)) = new.
Proof.
  unfold issued; simpl. rewrite skipn_app, skipn_all, Nat.sub_diag. reflexivity.
Qed.

Lemma authenticate_cached this w tok expiry :
  token_live this tok expiry -> clock w (ticks w) < expiry ->
  authenticate this w = (Return (Some tok), this, tick w).
Proof.
  intros (Ht & Hs & He) Hlt.
  unfold authenticate, token_is_valid, bind, get, now, ret. simpl.
  rewrite Ht, He, Hs. simpl.
  destruct (Z.ltb_spec (clock w (ticks w)) expiry); [|lia].
  rewrite Ht. reflexivity.
Qed.

Lemma request_cached k endpoint method body this w tok expiry :
  token_live this tok expiry -> clock w (ticks w) < expiry ->
  exists o,
    request k endpoint method body this w
    = (o, this, log (api_request this (Some tok) endpoint method body) (tick w)).
Proof.
  intros Hl Hlt. unfold request, bind.
  rewrite (authenticate_cached _ _ _ _ Hl Hlt). simpl.
  destruct (net w (length (trace w)) k); eexists; reflexivity.
Qed.

Lemma api_request_not_auth this this' token endpoint method body :
  baseUrl this' = baseUrl this ->
  (endpoint =? "/authenticates")%string = false ->
  is_auth_call this (api_request this' token endpoint method body) = false.
Proof.
  intros Hb H. unfold is_auth_call, api_request; simpl.
  now rewrite Hb, append_eqb_l.
Qed.

Lemma authenticate_expired this w tok expiry :
  token_live this tok expiry -> expiry <= clock w (ticks w) ->
  authenticate this w = authenticate_call this (tick w).
Proof.
  intros (Ht & Hs & He) Hle.
  unfold authenticate, authenticate_call, token_is_valid, bind, get, now, ret, fetch.
  simpl. rewrite Ht, He, Hs. simpl.
  destruct (Z.ltb_spec (clock w (ticks w)) expiry); [lia|]. simpl.
  destruct (net w (length (trace w)) KAuth); reflexivity.
Qed.

Ltac solve_issued :=
  unfold issued; simpl; rewrite <- ?app_assoc, skipn_app, skipn_all, Nat.sub_diag;
  reflexivity.

Section ClientProperties.
Context {RT : Runtime}.

Lemma perform_cached op this w tok expiry :
  token_live this tok expiry -> clock w (ticks w) < expiry ->
  exists o new,
    perform op this w
    = (o, this, mkWorld (clock w) (S (ticks w)) (net w) (trace w ++ new))
    /\ Forall (fun rq => is_auth_call this rq = false
                        /\ rq_authorization rq = "Bearer " ++ tok) new
    /\ length new = (if is_request op then 1 else 0)%nat.
Proof.
  intros Hl Hlt.
  destruct op; unfold perform, bind.
  1: { rewrite (authenticate_cached _ _ _ _ Hl Hlt).
       exists (Return tt), []. rewrite app_nil_r.
       split; [reflexivity|]. split; [constructor|reflexivity]. }
  all: unfold getLocations, getProviders, getAppointmentTypes, searchPatients,
        createPatient, getAppointmentSlots, createAppointment, cancelAppointment,
        getPatient, bind, get.
  all: match goal with
       | |- context [request ?k ?e ?m ?b ?c ?ww] =>
           destruct (request_cached k e m b c ww tok expiry Hl Hlt) as [o Ho];
           rewrite Ho;
           exists (match o with Return _ => Return tt | Throw err => Throw err end);
           exists [api_request c (Some tok) e m b]
       end.
  all: split; [destruct o; reflexivity|].
  all: split; [|reflexivity].
  all: constructor; [|constructor].
  all: split; [apply api_request_not_auth; reflexivity | reflexivity].
Qed.

Lemma perform_all_cached ops : forall this w tok expiry,
  token_live this tok expiry ->
  (forall k, (k < length ops)%nat -> clock w (ticks w + k) < expiry) ->
  exists new,
    perform_all ops this w
    = (this, mkWorld (clock w) (ticks w + length ops) (net w) (trace w ++ new))
    /\ Forall (fun rq => is_auth_call this rq = false
                        /\ rq_authorization rq = "Bearer " ++ tok) new
    /\ length new = length (filter is_request ops).
Proof.
  induction ops as [|op ops IH]; intros this w tok expiry Hl Hclock.
  - exists []. simpl. rewrite app_nil_r, Nat.add_0_r. destruct w; repeat split; constructor.
  - assert (H0 : clock w (ticks w) < expiry).
    { rewrite <- (Nat.add_0_r (ticks w)). apply Hclock. simpl; lia. }
    destruct (perform_cached op this w tok expiry Hl H0) as (o & new1 & Hp & Hall1 & Hlen1).
    simpl. rewrite Hp.
    destruct (IH this (mkWorld (clock w) (S (ticks w)) (net w) (trace w ++ new1))
                 tok expiry Hl) as (new2 & Hp2 & Hall2 & Hlen2).
    { intros k Hk. specialize (Hclock (S k)). rewrite Nat.add_succ_r in Hclock.
      apply Hclock. simpl; lia. }
    exists (new1 ++ new2)%list. rewrite Hp2. simpl.
    split; [|split].
    + rewrite <- app_assoc, Nat.add_succ_r. reflexivity.
    + apply Forall_app; split; assumption.
    + rewrite length_app, Hlen1, Hlen2. destruct (is_request op); reflexivity.
Qed.

Lemma perform_expired op this w tok expiry :
  token_live this tok expiry -> expiry <= clock w (ticks w) ->
  exists o this' w' rest,
    perform op this w = (o, this', w')
    /\ issued w w' = auth_request this :: rest
    /\ Forall (fun rq => is_auth_call this rq = false) rest
    /\ match net w (length (trace w)) KAuth with
       | Ok data =>
           if is_request op
           then exists rq, rest = [rq]
                  /\ rq_authorization rq
                     = "Bearer " ++ show_ostr (or_ostr (nested_token data) (top_token data))
           else rest = []
       | _ => rest = []
       end.
Proof.
  intros Hl Hle.
  destruct op; unfold perform, bind.
  1: { rewrite (authenticate_expired _ _ _ _ Hl Hle). unfold authenticate_call. simpl.
       destruct (net w (length (trace w)) KAuth); simpl;
         do 3 eexists; exists []; (split; [reflexivity|]);
         (split; [solve_issued|]); (split; [constructor|reflexivity]). }
  all: unfold getLocations, getProviders, getAppointmentTypes, searchPatients,
        createPatient, getAppointmentSlots, createAppointment, cancelAppointment,
        getPatient, request, bind, get.
  all: rewrite (authenticate_expired _ _ _ _ Hl Hle); unfold authenticate_call; simpl.
  all: destruct (net w (length (trace w)) KAuth) as [e|st tx|data]; simpl.
  all: try (do 3 eexists; exists []; (split; [reflexivity|]);
         (split; [solve_issued|]); (split; [constructor|reflexivity])).
  all: match goal with
       | |- context [net ?ww ?n ?k] => destruct (net ww n k)
       end; simpl.
  all: do 4 eexists; (split; [reflexivity|]).
  all: split; [solve_issued|].
  all: split; [constructor; [|constructor]; apply api_request_not_auth; reflexivity|].
  all: eexists; split; reflexivity.
Qed.
End ClientProperties.

(** C1 (token reuse and transparent re-authentication).  Let the client
    hold a usable bearer token [tok] with expiry [expiry].
    - Reuse: for any list of operations, as long as the clock reads strictly
      less than [expiry] at each of them, the client state is unchanged,
      every request issued carries [Bearer tok], none of them is a call of
      the authentication endpoint, and each operation but a direct
      [authenticate] issues exactly one request.
    - Re-authentication: when the clock reads [expiry] or more, the next
      operation first issues exactly one call of the authentication
      endpoint; nothing after it is an authentication call, and the
      operation's own request follows, with the fresh token, exactly when
      that call succeeded. *)
Theorem token_reused_until_expiry {RT : Runtime}
    (this : NexHealthClient) (tok : string) (expiry : Z) :
  bearerToken this = Some tok ->
  truthy_str tok = true ->
  tokenExpiry this = Some expiry ->
  (forall (ops : list Operation) (w : World),
      (forall k, (k < length ops)%nat -> clock w (ticks w + k) < expiry) ->
      fst (perform_all ops this w) = this
      /\ Forall (fun rq => is_auth_call this rq = false
                          /\ rq_authorization rq = "Bearer " ++ tok)
                (issued w (snd (perform_all ops this w)))
      /\ length (issued w (snd (perform_all ops this w)))
         = length (filter is_request ops))
  /\
  (forall (op : Operation) (w : World),
      expiry <= clock w (ticks w) ->
      exists rest,
        issued w (snd (perform op this w)) = auth_request this :: rest
        /\ is_auth_call this (auth_request this) = true
        /\ Forall (fun rq => is_auth_call this rq = false) rest
        /\ match net w (length (trace w)) KAuth with
           | Ok data =>
               if is_request op
               then exists rq,
                   rest = [rq]
                   /\ rq_authorization rq
                      = "Bearer " ++ show_ostr (or_ostr (nested_token data) (top_token data))
               else rest = []
           | _ => rest = []
           end).
Proof.
  intros Ht Hs He.
  assert (Hl : token_live this tok expiry) by (repeat split; assumption).
  split.
  - intros ops w Hclock.
    destruct (perform_all_cached ops this w tok expiry Hl Hclock)
      as (new & Hp & Hall & Hlen).
    rewrite Hp; simpl. rewrite issued_app. auto.
  - intros op w Hle.
    destruct (perform_expired op this w tok expiry Hl Hle)
      as (o & this' & w' & rest & Hp & Hi & Hall & Hrest).
    exists rest. rewrite Hp; simpl.
    repeat split; try assumption.
    unfold is_auth_call, auth_request; simpl. apply String.eqb_refl.
Qed.

(** An empty token is not a usable one: it is never reused, even before
    the expiry. *)
Lemma empty_token_not_reused (this : NexHealthClient) (w : World) :
  bearerToken this = Some "" ->
  authenticate this w = authenticate_call this w.
Proof.
  intros Ht.
  unfold authenticate, authenticate_call, token_is_valid, bind, get, ret, fetch.
  simpl. rewrite Ht. destruct (tokenExpiry this); simpl;
    destruct (net w (length (trace w)) KAuth); reflexivity.
Qed.

Lemma token_reused_until_expiry_witness :
  (let ops := [GetLocations; Authenticate; GetPatient 7] in
   let w := example_world 0 in
   fst (perform_all (RT := IsoRuntime.runtime) ops example_client w) = example_client
   /\ Forall (fun rq => is_auth_call example_client rq = false
                       /\ rq_authorization rq = "Bearer " ++ "tok-1")
             (issued w (snd (perform_all (RT := IsoRuntime.runtime) ops example_client w)))
   /\ length (issued w (snd (perform_all (RT := IsoRuntime.runtime) ops example_client w)))
      = length (filter is_request ops))
  /\
  (let w := example_world 3300000 in
   exists rest,
     issued w (snd (perform (RT := IsoRuntime.runtime) (GetPatient 7) example_client w))
       = auth_request example_client :: rest
     /\ is_auth_call example_client (auth_request example_client) = true
     /\ Forall (fun rq => is_auth_call example_client rq = false) rest
     /\ exists rq, rest = [rq] /\ rq_authorization rq = "Bearer " ++ "tok-2").
Proof.
  destruct (token_reused_until_expiry (RT := IsoRuntime.runtime)
              example_client "tok-1" 3300000 eq_refl eq_refl eq_refl) as [Hreuse Hexp].
  split.
  - apply Hreuse. intros k Hk. cbv [example_world clock ticks length] in *. lia.
  - apply (Hexp (GetPatient 7) (example_world 3300000)). cbv [example_world clock ticks]. lia.
Defined.

Ltac run_client :=
  unfold searchPatients, getAppointmentSlots, request, authenticate, token_is_valid,
    bind, get, ret, now, fetch, throw, modify; simpl.

Ltac split_auth this w :=
  destruct (bearerToken this) as [tok|]; simpl;
  [ destruct (tokenExpiry this) as [expiry|]; simpl;
    [ destruct (truthy_str tok); simpl;
      [ destruct (clock w (ticks w) <? expiry); simpl | ] | ] | ];
  try destruct (net w (length (trace w)) KAuth); simpl.

Section Normalization.
Context {RT : Runtime}.

(** C5 (response-shape normalization).  [searchPatients] gives the same
    outcome, client state and request log whether the body carries the
    patients as a bare array under [data] or wrapped in an object under
    [patients]; in both cases the result is the sequence itself as soon as
    authentication succeeds.  A wrapped object without the inner field (and a
    null [data]) gives the empty sequence.  The same holds of
    [getAppointmentSlots] and [slots]. *)
Theorem response_shapes_normalized :
  (forall params this w (items : list Patient.t),
      let run d := searchPatients params this (answering_patients d w) in
      observed (run (Bare items)) = observed (run (Wrapped (Some items)))
      /\ fst (fst (run (Bare items))) = after_authentication this w items
      /\ fst (fst (run (Wrapped (Some items)))) = after_authentication this w items
      /\ fst (fst (run (Wrapped None))) = after_authentication this w []
      /\ fst (fst (run Nullish)) = after_authentication this w [])
  /\
  (forall params this w (items : list AppointmentSlot.t),
      let run d := getAppointmentSlots params this (answering_slots d w) in
      observed (run (Bare items)) = observed (run (Wrapped (Some items)))
      /\ fst (fst (run (Bare items))) = after_authentication this w items
      /\ fst (fst (run (Wrapped (Some items)))) = after_authentication this w items
      /\ fst (fst (run (Wrapped None))) = after_authentication this w []
      /\ fst (fst (run Nullish)) = after_authentication this w []).
Proof.
  split; intros params this w items; unfold observed, after_authentication;
    run_client; split_auth this w; repeat split; reflexivity.
Qed.






End Normalization.



(* ===================================================================== *)
(** ** What no computation changes *)
(* ===================================================================== *)

Lemma later_refl w : later w w.
Proof. repeat split. exists []. now rewrite app_nil_r. Qed.

Lemma later_trans w1 w2 w3 : later w1 w2 -> later w2 w3 -> later w1 w3.
Proof.
  intros (Hc1 & Hn1 & n1 & Ht1) (Hc2 & Hn2 & n2 & Ht2).
  repeat split; try congruence.
  exists (n1 ++ n2)%list. now rewrite Ht2, Ht1, app_assoc.
Qed.

Section Preservation.
Context {St : Type} (R : St * World -> St * World -> Prop) {HR : Invariant R}.

Lemma preserves_ret A (a : A) : preserves R (ret a).
Proof. intros s w o s' w' H. inversion H; subst. apply inv_refl. Qed.

Lemma preserves_throw A e : preserves R (@throw St A e).
Proof. intros s w o s' w' H. inversion H; subst. apply inv_refl. Qed.

Lemma preserves_get : preserves R get.
Proof. intros s w o s' w' H. inversion H; subst. apply inv_refl. Qed.

Lemma preserves_bind A B (m : M St A) (k : A -> M St B) :
  preserves R m -> (forall a, preserves R (k a)) -> preserves R (bind m k).
Proof.
  intros Hm Hk s w o s' w' H. unfold bind in H.
  destruct (m s w) as [[[a|e] s1] w1] eqn:E.
  - eapply inv_trans; [eapply Hm, E | eapply Hk, H].
  - inversion H; subst. eapply Hm, E.
Qed.

Lemma preserves_try_catch A (m : M St A) (h : Error -> M St A) :
  preserves R m -> (forall e, preserves R (h e)) -> preserves R (try_catch m h).
Proof.
  intros Hm Hh s w o s' w' H. unfold try_catch in H.
  destruct (m s w) as [[[a|e] s1] w1] eqn:E.
  - inversion H; subst. eapply Hm, E.
  - eapply inv_trans; [eapply Hm, E | eapply Hh, H].
Qed.

End Preservation.

#[export] Instance world_later_invariant St : Invariant (@world_later St).
Proof.
  split.
  - intros a. apply later_refl.
  - intros a b c. apply later_trans.
Qed.

#[export] Instance same_config_invariant : Invariant same_config.
Proof.
  split.
  - intros a. repeat split.
  - intros a b c (H1 & H2 & H3) (H4 & H5 & H6). repeat split; congruence.
Qed.

Lemma world_later_now St : preserves (@world_later St) now.
Proof.
  intros s w o s' w' H. inversion H; subst. unfold world_later, later; simpl.
  repeat split. exists []. now rewrite app_nil_r.
Qed.

Lemma world_later_fetch St k rq : preserves (@world_later St) (fetch k rq).
Proof.
  intros s w o s' w' H. inversion H; subst. unfold world_later, later; simpl.
  repeat split. now exists [rq].
Qed.

Lemma world_later_modify St (f : St -> St) : preserves (@world_later St) (modify f).
Proof. intros s w o s' w' H. inversion H; subst. apply later_refl. Qed.

Lemma world_later_zoom St T A (proj : St -> T) (inj : T -> St -> St) (m : M T A) :
  preserves world_later m -> preserves world_later (zoom proj inj m).
Proof.
  intros Hm s w o s' w' H. unfold zoom in H.
  destruct (m (proj s) w) as [[o1 t1] w1] eqn:E. inversion H; subst.
  apply (Hm _ _ _ _ _ E).
Qed.

Lemma same_config_now : preserves same_config now.
Proof. intros s w o s' w' H. inversion H; subst. repeat split. Qed.

Lemma same_config_fetch k rq : preserves same_config (fetch k rq).
Proof. intros s w o s' w' H. inversion H; subst. repeat split. Qed.

Lemma same_config_set_bearerToken t : preserves same_config (modify (set_bearerToken t)).
Proof. intros s w o s' w' H. inversion H; subst. repeat split. Qed.

Lemma same_config_set_tokenExpiry e : preserves same_config (modify (set_tokenExpiry e)).
Proof. intros s w o s' w' H. inversion H; subst. repeat split. Qed.

Ltac preserve :=
  repeat first
    [ apply preserves_bind; [typeclasses eauto| |intros ?]
    | apply preserves_try_catch; [typeclasses eauto| |intros ?]
    | apply preserves_ret; typeclasses eauto
    | apply preserves_throw; typeclasses eauto
    | apply preserves_get; typeclasses eauto
    | apply world_later_now
    | apply world_later_fetch
    | apply world_later_modify
    | apply same_config_now
    | apply same_config_fetch
    | apply same_config_set_bearerToken
    | apply same_config_set_tokenExpiry
    | assumption
    | match goal with
      | |- preserves _ (match ?x with _ => _ end) => destruct x
      | |- preserves _ (if ?x then _ else _) => destruct x
      end ].

Lemma authenticate_later : preserves world_later authenticate.
Proof. unfold authenticate, token_is_valid. preserve. Qed.

Lemma request_later k endpoint method body :
  preserves world_later (request k endpoint method body).
Proof. pose proof authenticate_later. unfold request. preserve. Qed.

Lemma authenticate_same_config : preserves same_config authenticate.
Proof. unfold authenticate, token_is_valid. preserve. Qed.

Lemma request_same_config k endpoint method body :
  preserves same_config (request k endpoint method body).
Proof. pose proof authenticate_same_config. unfold request. preserve. Qed.

Section ClientInvariants.
Context {RT : Runtime}.

Lemma searchPatients_later p : preserves world_later (searchPatients p).
Proof.
  pose proof request_later. unfold searchPatients. preserve.
Qed.
End ClientInvariants.

(* ===================================================================== *)
(** ** Properties of the tools *)
(* ===================================================================== *)

Lemma on_client_some A (m : M NexHealthClient A) s w c :
  Agent.nexhealth s = Some c ->
  Agent.on_client m s w
  = (fst (fst (m c w)), Agent.set_nexhealth (Some (snd (fst (m c w)))) s, snd (m c w)).
Proof.
  intros H. unfold Agent.on_client. rewrite H. destruct (m c w) as [[o c'] w']. reflexivity.
Qed.

Section ToolProperties.
Context {RT : Runtime}.
Variable gi : Agent.GeneralInfo.
Variable loc : JsNum.

Lemma searchPatients_result params this w l this' w' :
  searchPatients params this w = (Return l, this', w') ->
  later w w' /\ exists n d, net w n KPatients = Ok d /\ l = normalize d.
Proof.
  intros H. split.
  - apply (searchPatients_later params _ _ _ _ _ H).
  - revert H. run_client. split_auth this w; intros H; try discriminate H.
    all: match type of H with
         | context [net ?ww ?n KPatients] =>
             destruct (net ww n KPatients) as [?|? ?|d] eqn:E; try discriminate H;
             exists n, d; split; [exact E | now inversion H]
         end.
Qed.

Lemma createPatient_later p : preserves world_later (NexHealth.createPatient p).
Proof. pose proof request_later. unfold NexHealth.createPatient. preserve. Qed.

Lemma getProviders_later l : preserves world_later (getProviders l).
Proof. pose proof request_later. unfold getProviders. preserve. Qed.

Lemma createAppointment_later p : preserves world_later (createAppointment p).
Proof. pose proof request_later. unfold createAppointment. preserve. Qed.

Lemma createPatient_result p this w pt this' w' :
  NexHealth.createPatient p this w = (Return pt, this', w') ->
  later w w' /\ exists n, net w n KPatient = Ok pt.
Proof.
  intros H. split.
  - apply (createPatient_later p _ _ _ _ _ H).
  - revert H. unfold NexHealth.createPatient. run_client.
    split_auth this w; intros H; try discriminate H.
    all: match type of H with
         | context [net ?ww ?n KPatient] =>
             destruct (net ww n KPatient) as [?|? ?|d] eqn:E; try discriminate H;
             exists n; inversion H; subst; exact E
         end.
Qed.


Lemma upstream_id_later w w' id : later w w' -> upstream_id w' id -> upstream_id w id.
Proof. intros (_ & Hn & _). unfold upstream_id. now rewrite Hn. Qed.

Lemma found_upstream params this w p ps this' w' :
  searchPatients params this w = (Return (p :: ps), this', w') ->
  upstream_id w (Patient.id p).
Proof.
  intros H. destruct (searchPatients_result _ _ _ _ _ _ H) as (_ & n & d & Hn & Hd).
  left. exists n, d, p. rewrite <- Hd. auto.
Qed.

Lemma searchPatient_spec f l ph s w :
  exists r s' w',
    Agent.searchPatient loc f l ph s w = (Return r, s', w')
    /\ tool_frame s w s' w'
    /\ ((r = Agent.MSG_FOUND
         /\ exists id, Agent.currentPatientId s' = Some id /\ upstream_id w id)
        \/ ((r = Agent.MSG_NOT_CONFIGURED \/ r = Agent.MSG_NOT_FOUND
             \/ r = Agent.MSG_SEARCH_TROUBLE)
            /\ Agent.currentPatientId s' = Agent.currentPatientId s)).
Proof.
  unfold Agent.searchPatient, tool_frame, bind, get.
  destruct (Agent.nexhealth s) as [c|] eqn:Hc.
  2: { do 3 eexists. split; [reflexivity|]. rewrite Hc.
       split; [split; [apply later_refl | tauto]|]. right. auto. }
  unfold try_catch, bind. rewrite (on_client_some _ _ _ _ _ Hc).
  destruct (searchPatients _ c w) as [[[[|p ps]|e1] c1] w1] eqn:E1; simpl.
  - rewrite (on_client_some _ _ (Agent.set_nexhealth (Some c1) s) _ c1 eq_refl).
    pose proof (searchPatients_later _ _ _ _ _ _ E1) as L1.
    destruct (searchPatients _ c1 w1) as [[[[|p ps]|e2] c2] w2] eqn:E2; simpl;
      pose proof (searchPatients_later _ _ _ _ _ _ E2) as L2;
      pose proof (later_trans _ _ _ L1 L2) as L;
      do 3 eexists; (split; [reflexivity|]); simpl;
      (split; [split; [exact L | split; discriminate]|]).
    + right. auto.
    + left. split; [reflexivity|]. eexists; split; [reflexivity|].
      eapply upstream_id_later; [exact L1 | eapply found_upstream, E2].
    + right. auto.
  - pose proof (searchPatients_later _ _ _ _ _ _ E1) as L1.
    do 3 eexists; (split; [reflexivity|]); simpl.
    split; [split; [exact L1 | split; discriminate]|].
    left. split; [reflexivity|]. eexists; split; [reflexivity|].
    eapply found_upstream, E1.
  - pose proof (searchPatients_later _ _ _ _ _ _ E1) as L1.
    do 3 eexists; (split; [reflexivity|]); simpl.
    split; [split; [exact L1 | split; discriminate]|]. right. auto.
Qed.


Lemma searchPatientByEmail_spec email s w :
  exists r s' w',
    Agent.searchPatientByEmail loc email s w = (Return r, s', w')
    /\ tool_frame s w s' w'
    /\ ((r = Agent.MSG_FOUND_BY_EMAIL
         /\ exists id, Agent.currentPatientId s' = Some id /\ upstream_id w id)
        \/ ((r = Agent.MSG_NOT_CONFIGURED \/ r = Agent.MSG_EMAIL_NOT_FOUND
             \/ r = Agent.MSG_EMAIL_TROUBLE)
            /\ Agent.currentPatientId s' = Agent.currentPatientId s)).
Proof.
  unfold Agent.searchPatientByEmail, tool_frame, bind, get.
  destruct (Agent.nexhealth s) as [c|] eqn:Hc.
  2: { do 3 eexists. split; [reflexivity|]. rewrite Hc.
       split; [split; [apply later_refl | tauto]|]. right. auto. }
  unfold try_catch, bind. rewrite (on_client_some _ _ _ _ _ Hc).
  destruct (searchPatients _ c w) as [[[[|p ps]|e1] c1] w1] eqn:E1; simpl;
    pose proof (searchPatients_later _ _ _ _ _ _ E1) as L1;
    do 3 eexists; (split; [reflexivity|]); simpl;
    (split; [split; [exact L1 | split; discriminate]|]).
  - right. auto.
  - left. split; [reflexivity|]. eexists; split; [reflexivity|].
    eapply found_upstream, E1.
  - right. auto.
Qed.

Lemma createPatient_spec f l email ph dob g s w :
  exists r s' w',
    Agent.createPatient loc f l email ph dob g s w = (Return r, s', w')
    /\ tool_frame s w s' w'
    /\ ((r = Agent.MSG_CREATED f l
         /\ exists id, Agent.currentPatientId s' = Some id /\ upstream_id w id)
        \/ ((r = Agent.MSG_NOT_CONFIGURED \/ r = Agent.MSG_CREATE_TROUBLE)
            /\ Agent.currentPatientId s' = Agent.currentPatientId s)).
Proof.
  unfold Agent.createPatient, tool_frame, bind, get.
  destruct (Agent.nexhealth s) as [c|] eqn:Hc.
  2: { do 3 eexists. split; [reflexivity|]. rewrite Hc.
       split; [split; [apply later_refl | tauto]|]. right. auto. }
  unfold try_catch, bind. rewrite (on_client_some _ _ _ _ _ Hc).
  destruct (NexHealth.createPatient _ c w) as [[[pt|e1] c1] w1] eqn:E1; simpl;
    pose proof (createPatient_later _ _ _ _ _ _ E1) as L1;
    do 3 eexists; (split; [reflexivity|]); simpl;
    (split; [split; [exact L1 | split; discriminate]|]).
  - left. split; [reflexivity|]. eexists; split; [reflexivity|].
    destruct (createPatient_result _ _ _ _ _ _ E1) as (_ & n & Hn).
    right. exists n, pt. auto.
  - right. auto.
Qed.

Lemma remember_first_provider_frame providers s w :
  exists s', Agent.remember_first_provider providers s w = (Return tt, s', w)
             /\ Agent.nexhealth s' = Agent.nexhealth s
             /\ Agent.currentPatientId s' = Agent.currentPatientId s.
Proof. destruct providers; eexists; repeat split. Qed.

Lemma getAvailableSlots_spec startDate daysToCheck s w :
  exists r s' w',
    Agent.getAvailableSlots gi loc startDate daysToCheck s w = (Return r, s', w')
    /\ tool_frame s w s' w'
    /\ Agent.currentPatientId s' = Agent.currentPatientId s.
Proof.
  unfold Agent.getAvailableSlots, tool_frame, try_catch, bind, get, now.
  destruct (negb (truthy_onum (Agent.currentProviderId s))); simpl.
  1: destruct (Agent.nexhealth s) as [c|] eqn:Hc; simpl.
  1: { rewrite (on_client_some _ _ _ _ _ Hc).
       destruct (getProviders loc c w) as [[[ps|e1] c1] w1] eqn:E1; simpl;
         pose proof (getProviders_later _ _ _ _ _ _ E1) as L1.
       - destruct (remember_first_provider_frame ps (Agent.set_nexhealth (Some c1) s) w1)
           as (s2 & -> & Hn2 & Hp2); simpl.
         assert (L : later w (tick w1)).
         { eapply later_trans; [exact L1|]. repeat split. exists []. now rewrite app_nil_r. }
         do 3 eexists; (split; [reflexivity|]); simpl;
           (split; [split; [exact L | rewrite Hn2; split; discriminate] | exact Hp2]).
       - do 3 eexists; (split; [reflexivity|]); simpl.
         split; [split; [exact L1 | split; discriminate] | reflexivity]. }
  all: assert (L : later w (tick w))
         by (repeat split; exists []; now rewrite app_nil_r).
  all: do 3 eexists; (split; [reflexivity|]); simpl;
         (split; [split; [exact L | tauto] | reflexivity]).
Qed.


Ltac finish :=
  repeat match goal with
         | |- later ?w ?w => apply later_refl
         | |- later _ _ => eassumption
         | |- _ /\ _ => split
         | |- _ <-> _ => split
         end;
  try first [ assumption | reflexivity | tauto | discriminate
            | intros; reflexivity | intros; discriminate ].

Lemma bookAppointment_spec startTime reason s w :
  exists r s' w',
    Agent.bookAppointment loc startTime reason s w = (Return r, s', w')
    /\ tool_frame s w s' w'
    /\ Agent.currentPatientId s' = Agent.currentPatientId s
    /\ (truthy_onum (Agent.currentPatientId s) = false ->
        s' = s /\ w' = w
        /\ r = match Agent.nexhealth s with
               | Some _ => Agent.MSG_NEED_PATIENT
               | None => Agent.MSG_NOT_CONFIGURED
               end)
    /\ (truthy_onum (Agent.currentPatientId s) = true ->
        (r =? Agent.MSG_NEED_PATIENT)%string = false).
Proof.
  unfold Agent.bookAppointment, tool_frame, bind, get.
  destruct (Agent.nexhealth s) as [c|] eqn:Hc.
  2: { do 3 eexists. split; [reflexivity|]. rewrite Hc.
       finish. }
  unfold try_catch, bind.
  destruct (Agent.currentPatientId s) as [pid|] eqn:Hp; simpl.
  2: { do 3 eexists. split; [reflexivity|]. rewrite Hc.
       finish. }
  destruct (truthy_num pid) eqn:Hpid; simpl.
  2: { do 3 eexists. split; [reflexivity|]. rewrite Hc.
       finish. }
  destruct (truthy_onum (Agent.currentProviderId s)) eqn:Hprov; simpl.
  - destruct (Agent.currentProviderId s) as [prov|]; [|discriminate]. simpl.
    rewrite (on_client_some _ _ _ _ _ Hc).
    destruct (createAppointment _ c w) as [[[a|e1] c1] w1] eqn:E1; simpl;
      pose proof (createAppointment_later _ _ _ _ _ _ E1) as L1;
      do 3 eexists; (split; [reflexivity|]); simpl;
      finish.
  - rewrite (on_client_some _ _ _ _ _ Hc).
    destruct (getProviders loc c w) as [[[ps|e1] c1] w1] eqn:E1; simpl;
      pose proof (getProviders_later _ _ _ _ _ _ E1) as L1.
    2: { do 3 eexists; (split; [reflexivity|]); simpl.
         finish. }
    destruct (remember_first_provider_frame ps (Agent.set_nexhealth (Some c1) s) w1)
      as (s2 & -> & Hn2 & Hp2); simpl in Hn2, Hp2; rewrite Hp in Hp2; simpl.
    destruct ps as [|p ps]; simpl.
    { do 3 eexists; (split; [reflexivity|]); simpl.
      rewrite ?Hn2; finish. }
    rewrite (on_client_some _ _ s2 _ c1 Hn2).
    destruct (createAppointment _ c1 w1) as [[[a|e2] c2] w2] eqn:E2; simpl;
      pose proof (createAppointment_later _ _ _ _ _ _ E2) as L2;
      pose proof (later_trans _ _ _ L1 L2) as L;
      do 3 eexists; (split; [reflexivity|]); simpl;
      finish.
Qed.


Lemma execute_spec call s w :
  exists r s' w',
    Agent.execute gi loc call s w = (Return r, s', w')
    /\ tool_frame s w s' w'
    /\ (if resolved_patient call r
        then exists id, Agent.currentPatientId s' = Some id /\ upstream_id w id
        else Agent.currentPatientId s' = Agent.currentPatientId s).
Proof.
  destruct call as [f l ph|email|f l email ph dob g|sd n|st reason|info]; simpl.
  - destruct (searchPatient_spec f l ph s w)
      as (r & s' & w' & E & F & [(-> & Hid)|([->|[->| ->]] & Hsame)]);
      eexists; exists s', w'; (split; [exact E|]); (split; [exact F|]);
      [rewrite String.eqb_refl|..]; assumption.
  - destruct (searchPatientByEmail_spec email s w)
      as (r & s' & w' & E & F & [(-> & Hid)|([->|[->| ->]] & Hsame)]);
      eexists; exists s', w'; (split; [exact E|]); (split; [exact F|]);
      [rewrite String.eqb_refl|..]; assumption.
  - destruct (createPatient_spec f l email ph dob g s w)
      as (r & s' & w' & E & F & [(-> & Hid)|([->| ->] & Hsame)]);
      eexists; exists s', w'; (split; [exact E|]); (split; [exact F|]);
      [rewrite String.eqb_refl|..]; assumption.
  - destruct (getAvailableSlots_spec sd n s w) as (r & s' & w' & E & F & Hsame).
    exists r, s', w'. auto.
  - destruct (bookAppointment_spec st reason s w) as (r & s' & w' & E & F & Hsame & _).
    exists r, s', w'. auto.
  - do 3 eexists. split; [reflexivity|]. split; [|reflexivity].
    split; [apply later_refl | tauto].
Qed.

Lemma run_calls_unresolved calls : forall s w,
  forallb (fun cr => negb (resolved_patient (fst cr) (snd cr)))
          (fst (fst (run_calls gi loc calls s w))) = true ->
  tool_frame s w (snd (fst (run_calls gi loc calls s w))) (snd (run_calls gi loc calls s w))
  /\ Agent.currentPatientId (snd (fst (run_calls gi loc calls s w)))
     = Agent.currentPatientId s.
Proof.
  induction calls as [|call calls IH]; intros s w H; simpl in *.
  - split; [split; [apply later_refl | tauto] | reflexivity].
  - destruct (execute_spec call s w) as (r & s1 & w1 & E & (L1 & N1) & Hid).
    rewrite E in *. simpl in *.
    destruct (run_calls gi loc calls s1 w1) as [[h s2] w2] eqn:E2. simpl in *.
    unfold text in H; simpl in H.
    apply andb_true_iff in H as [Hr Hh].
    apply negb_true_iff in Hr. rewrite Hr in Hid.
    specialize (IH s1 w1). rewrite E2 in IH. simpl in IH.
    destruct (IH Hh) as ((L2 & N2) & Hid2).
    split; [split; [eapply later_trans; eassumption | tauto] | congruence].
Qed.

Lemma ids_nonzero_later w w' : later w w' -> ids_nonzero w -> ids_nonzero w'.
Proof.
  intros L H id Hid. apply H. eapply upstream_id_later; eassumption.
Qed.

Lemma execute_keeps_patient call s w :
  ids_nonzero w ->
  resolved_patient call (text (Agent.execute gi loc call s w)) = true
  \/ truthy_onum (Agent.currentPatientId s) = true ->
  truthy_onum (Agent.currentPatientId (snd (fst (Agent.execute gi loc call s w)))) = true
  /\ later w (snd (Agent.execute gi loc call s w)).
Proof.
  intros Hw H.
  destruct (execute_spec call s w) as (r & s1 & w1 & E & (L1 & N1) & Hid).
  rewrite E in *. unfold text in H. simpl in *. split; [|exact L1].
  destruct (resolved_patient call r).
  - destruct Hid as (id & -> & Hup). simpl. unfold truthy_num.
    apply negb_true_iff, Z.eqb_neq. auto.
  - rewrite Hid. destruct H; [discriminate | assumption].
Qed.

Lemma run_calls_keep_patient calls : forall s w,
  ids_nonzero w ->
  truthy_onum (Agent.currentPatientId s) = true ->
  truthy_onum (Agent.currentPatientId (snd (fst (run_calls gi loc calls s w)))) = true.
Proof.
  induction calls as [|call calls IH]; intros s w Hw Hs; simpl; [assumption|].
  destruct (execute_keeps_patient call s w Hw (or_intror Hs)) as (H1 & L1).
  specialize (IH _ _ (ids_nonzero_later _ _ L1 Hw) H1).
  destruct (run_calls gi loc calls _ _) as [[h s2] w2]. exact IH.
Qed.

End ToolProperties.

Section ConversationProperties.
Context {RT : Runtime}.
Variable gi : Agent.GeneralInfo.
Variable loc : JsNum.

(** C2 (booking precondition), as the code has it.  Take a conversation in
    which no patient identifier is cached at the start and in which no
    [searchPatient], [searchPatientByEmail] or [createPatient] call resolved
    a patient.  Then [bookAppointment] changes neither the session nor the
    world (it issues no HTTP call at all), and it returns the
    need-patient-information message when the booking client is configured,
    and the not-configured message when it is not. *)
Theorem booking_without_patient calls s w startTime reason :
  Agent.currentPatientId s = None ->
  forallb (fun cr => negb (resolved_patient (fst cr) (snd cr)))
          (fst (fst (run_calls gi loc calls s w))) = true ->
  let s' := snd (fst (run_calls gi loc calls s w)) in
  let w' := snd (run_calls gi loc calls s w) in
  Agent.bookAppointment loc startTime reason s' w'
  = (Return match Agent.nexhealth s with
            | Some _ => Agent.MSG_NEED_PATIENT
            | None => Agent.MSG_NOT_CONFIGURED
            end, s', w')
  /\ issued w' (snd (Agent.bookAppointment loc startTime reason s' w')) = [].
Proof.
  intros Hs Hh s' w'.
  destruct (run_calls_unresolved gi loc calls s w Hh) as ((L & N) & Hid).
  fold s' in N, Hid. fold w' in L.
  destruct (bookAppointment_spec loc startTime reason s' w')
    as (r & s2 & w2 & E & _ & _ & Hnone & _).
  rewrite Hid, Hs in Hnone. destruct (Hnone eq_refl) as (-> & -> & ->).
  rewrite E. split.
  - destruct (Agent.nexhealth s) as [c|] eqn:Hc.
    + destruct (Agent.nexhealth s'); [reflexivity|]. destruct N as [_ N].
      specialize (N eq_refl). discriminate.
    + destruct N as [N _]. now rewrite (N eq_refl).
  - unfold issued. simpl. apply skipn_all.
Qed.

(** C10 (the cached patient identifier), as the code has it.  No tool call
    resets the identifier: each one leaves it unchanged or sets it to an
    identifier.  And when every identifier the practice-management system
    hands out is non-zero, then once a search or a creation has resolved a
    patient, no later [bookAppointment] returns the
    need-patient-information message, whatever calls come in between. *)
Theorem patient_id_never_reset :
  (forall call s w,
      let s' := snd (fst (Agent.execute gi loc call s w)) in
      Agent.currentPatientId s' = Agent.currentPatientId s
      \/ exists id, Agent.currentPatientId s' = Some id)
  /\
  (forall before call after s w startTime reason,
      ids_nonzero w ->
      let r1 := run_calls gi loc before s w in
      let r2 := Agent.execute gi loc call (snd (fst r1)) (snd r1) in
      resolved_patient call (text r2) = true ->
      let r3 := run_calls gi loc after (snd (fst r2)) (snd r2) in
      (text (Agent.bookAppointment loc startTime reason (snd (fst r3)) (snd r3))
       =? Agent.MSG_NEED_PATIENT)%string = false).
Proof.
  split.
  - intros call s w s'. subst s'.
    destruct (execute_spec gi loc call s w) as (r & s1 & w1 & E & _ & Hid).
    rewrite E. simpl. destruct (resolved_patient call r).
    + right. destruct Hid as (id & Hid & _). eauto.
    + left. exact Hid.
  - intros before call after s w startTime reason Hw r1 r2 Hres r3.
    assert (L1 : later w (snd r1)).
    { clear. subst r1. revert s w. induction before as [|c cs IH]; intros s w; simpl.
      - apply later_refl.
      - destruct (execute_spec gi loc c s w) as (r & s1 & w1 & E & (L & _) & _).
        rewrite E. simpl. specialize (IH s1 w1).
        destruct (run_calls gi loc cs s1 w1) as [[h s2] w2]. simpl in *.
        eapply later_trans; eassumption. }
    pose proof (ids_nonzero_later _ _ L1 Hw) as Hw1.
    destruct (execute_keeps_patient gi loc call (snd (fst r1)) (snd r1) Hw1 (or_introl Hres))
      as (H2 & L2).
    fold r2 in H2, L2.
    pose proof (run_calls_keep_patient gi loc after (snd (fst r2)) (snd r2)
                  (ids_nonzero_later _ _ L2 Hw1) H2) as H3.
    fold r3 in H3.
    destruct (bookAppointment_spec loc startTime reason (snd (fst r3)) (snd r3))
      as (r & s4 & w4 & E & _ & _ & _ & Hsome).
    unfold text. rewrite E. simpl. apply Hsome, H3.
Qed.

End ConversationProperties.

Lemma booking_without_patient_counterexample :
  Agent.agent_session (example_agent None 0) = Agent.mkSession None None None
  /\ text (Agent.bookAppointment (RT := IsoRuntime.runtime)
             (Agent.agent_locationId (example_agent None 0)) "2024-11-05T10:00:00" None
             (Agent.agent_session (example_agent None 0)) (example_world 0))
     = Agent.MSG_NOT_CONFIGURED
  /\ (Agent.MSG_NOT_CONFIGURED =? Agent.MSG_NEED_PATIENT)%string = false.
Proof. repeat split. Qed.

Lemma booking_without_patient_witness :
  let gi := example_info in
  let loc := Num 42 in
  let s := Agent.agent_session (example_agent (Some "key") 0) in
  let w := search_world (Bare []) (Bare []) in
  let calls := [Agent.GetPracticeInfo "hours"; Agent.SearchPatient "Ada" "Lovelace" "555"] in
  let s' := snd (fst (run_calls (RT := IsoRuntime.runtime) gi loc calls s w)) in
  let w' := snd (run_calls (RT := IsoRuntime.runtime) gi loc calls s w) in
  Agent.bookAppointment (RT := IsoRuntime.runtime) loc "2024-11-05T10:00:00" None s' w'
  = (Return Agent.MSG_NEED_PATIENT, s', w')
  /\ issued w' (snd (Agent.bookAppointment (RT := IsoRuntime.runtime) loc
                       "2024-11-05T10:00:00" None s' w')) = [].
Proof.
  exact (booking_without_patient (RT := IsoRuntime.runtime) example_info (Num 42)
           [Agent.GetPracticeInfo "hours"; Agent.SearchPatient "Ada" "Lovelace" "555"]
           (Agent.agent_session (example_agent (Some "key") 0))
           (search_world (Bare []) (Bare []))
           "2024-11-05T10:00:00" None eq_refl eq_refl).
Defined.

Lemma patient_id_never_reset_counterexample :
  let s := Agent.agent_session (example_agent (Some "key") 0) in
  let w := search_world (Bare [example_patient 0]) (Bare []) in
  let calls := [Agent.SearchPatient "Ada" "Lovelace" "555 0100";
                Agent.BookAppointment "2024-11-05T10:00:00" None] in
  let r := run_calls (RT := IsoRuntime.runtime) example_info (Num 42) calls s w in
  map snd (fst (fst r)) = [Agent.MSG_FOUND; Agent.MSG_NEED_PATIENT]
  /\ forallb (fun cr => resolved_patient (fst cr) (snd cr)) (firstn 1 (fst (fst r))) = true
  /\ Agent.currentPatientId (snd (fst r)) = Some 0.
Proof. repeat split. Qed.

Lemma patient_id_never_reset_witness :
  let gi := example_info in
  let loc := Num 42 in
  let s := Agent.agent_session (example_agent (Some "key") 0) in
  let w := search_world (Bare []) (Bare [example_patient 7]) in
  (let s' := snd (fst (Agent.execute (RT := IsoRuntime.runtime) gi loc
                         (Agent.SearchPatient "Ada" "Lovelace" "555 0100") s w)) in
   Agent.currentPatientId s' = Agent.currentPatientId s
   \/ exists id, Agent.currentPatientId s' = Some id)
  /\
  (let r1 := run_calls (RT := IsoRuntime.runtime) gi loc [Agent.GetPracticeInfo "hours"] s w in
   let r2 := Agent.execute (RT := IsoRuntime.runtime) gi loc
               (Agent.SearchPatient "Ada" "Lovelace" "555 0100") (snd (fst r1)) (snd r1) in
   let r3 := run_calls (RT := IsoRuntime.runtime) gi loc
               [Agent.GetAvailableSlots (Some "2024-11-04") None] (snd (fst r2)) (snd r2) in
   (text (Agent.bookAppointment (RT := IsoRuntime.runtime) loc "2024-11-05T10:00:00" None
            (snd (fst r3)) (snd r3))
    =? Agent.MSG_NEED_PATIENT)%string = false).
Proof.
  destruct (patient_id_never_reset (RT := IsoRuntime.runtime) example_info (Num 42))
    as [Hmono Hbook].
  split.
  - apply Hmono.
  - apply Hbook; [|reflexivity].
    intros id [(n & d & p & Hn & Hd & Hid)|(n & p & Hn & Hid)]; simpl in Hn.
    + destruct (Nat.eqb n 1); inversion Hn; subst d; simpl in Hd;
        [discriminate | inversion Hd; subst p; subst id; discriminate].
    + inversion Hn; subst p; subst id; discriminate.
Defined.

Section ResolvedPatient.
Context {RT : Runtime}.
Variable gi : Agent.GeneralInfo.
Variable loc : JsNum.

Lemma searchPatient_found_first f l ph s w c p ps c1 w1 :
  Agent.nexhealth s = Some c ->
  searchPatients (Agent.name_and_phone loc (f ++ " " ++ l) ph) c w
  = (Return (p :: ps), c1, w1) ->
  Agent.searchPatient loc f l ph s w
  = (Return Agent.MSG_FOUND, session_with c1 (Some (Patient.id p)) s, w1).
Proof.
  intros Hc E1. unfold Agent.searchPatient, bind, get. rewrite Hc.
  unfold try_catch, bind. rewrite (on_client_some _ _ _ _ _ Hc), E1. reflexivity.
Qed.

Lemma searchPatient_fallback f l ph s w c c1 w1 :
  Agent.nexhealth s = Some c ->
  searchPatients (Agent.name_and_phone loc (f ++ " " ++ l) ph) c w = (Return [], c1, w1) ->
  Agent.searchPatient loc f l ph s w
  = match searchPatients (Agent.name_only loc (f ++ " " ++ l)) c1 w1 with
    | (Return (p :: _), c2, w2) =>
        (Return Agent.MSG_FOUND, session_with c2 (Some (Patient.id p)) s, w2)
    | (Return [], c2, w2) =>
        (Return Agent.MSG_NOT_FOUND, session_with c2 (Agent.currentPatientId s) s, w2)
    | (Throw _, c2, w2) =>
        (Return Agent.MSG_SEARCH_TROUBLE, session_with c2 (Agent.currentPatientId s) s, w2)
    end.
Proof.
  intros Hc E1. unfold Agent.searchPatient, bind, get. rewrite Hc.
  unfold try_catch, bind. rewrite (on_client_some _ _ _ _ _ Hc), E1. simpl.
  rewrite (on_client_some _ _ (Agent.set_nexhealth (Some c1) s) _ c1 eq_refl).
  destruct (searchPatients _ c1 w1) as [[[[|p ps]|e2] c2] w2]; reflexivity.
Qed.

Lemma searchPatientByEmail_found email s w c p ps c1 w1 :
  Agent.nexhealth s = Some c ->
  searchPatients (Agent.by_email loc email) c w = (Return (p :: ps), c1, w1) ->
  Agent.searchPatientByEmail loc email s w
  = (Return Agent.MSG_FOUND_BY_EMAIL, session_with c1 (Some (Patient.id p)) s, w1).
Proof.
  intros Hc E1. unfold Agent.searchPatientByEmail, bind, get. rewrite Hc.
  unfold try_catch, bind. rewrite (on_client_some _ _ _ _ _ Hc), E1. reflexivity.
Qed.

Lemma createPatient_created f l email ph dob g s w c pt c1 w1 :
  Agent.nexhealth s = Some c ->
  NexHealth.createPatient
    (mkNewPatient f l email ph dob (Agent.gender_text g) loc) c w = (Return pt, c1, w1) ->
  Agent.createPatient loc f l email ph dob g s w
  = (Return (Agent.MSG_CREATED f l), session_with c1 (Some (Patient.id pt)) s, w1).
Proof.
  intros Hc E1. unfold Agent.createPatient, bind, get. rewrite Hc.
  unfold try_catch, bind. rewrite (on_client_some _ _ _ _ _ Hc), E1. reflexivity.
Qed.

(** C9 (the resolved patient is cached), as the code has it.  When a
    patient search finds a record (with the phone number, or by name alone
    after an empty first answer, or by email), the tool caches the
    identifier of the first record returned and answers with a fixed text;
    when a creation goes through, the tool caches the identifier of the
    created record and answers with a text that names the caller-supplied
    first and last name.  The two search tools only ever answer with one of
    four fixed texts each, whatever the arguments and the records are, so
    they never restate a name. *)
Theorem resolved_patient_is_cached :
  (forall f l ph s w c p ps c1 w1,
      Agent.nexhealth s = Some c ->
      searchPatients (Agent.name_and_phone loc (f ++ " " ++ l) ph) c w
      = (Return (p :: ps), c1, w1) ->
      Agent.searchPatient loc f l ph s w
      = (Return Agent.MSG_FOUND, session_with c1 (Some (Patient.id p)) s, w1))
  /\
  (forall f l ph s w c c1 w1 p ps c2 w2,
      Agent.nexhealth s = Some c ->
      searchPatients (Agent.name_and_phone loc (f ++ " " ++ l) ph) c w
      = (Return [], c1, w1) ->
      searchPatients (Agent.name_only loc (f ++ " " ++ l)) c1 w1
      = (Return (p :: ps), c2, w2) ->
      Agent.searchPatient loc f l ph s w
      = (Return Agent.MSG_FOUND, session_with c2 (Some (Patient.id p)) s, w2))
  /\
  (forall email s w c p ps c1 w1,
      Agent.nexhealth s = Some c ->
      searchPatients (Agent.by_email loc email) c w = (Return (p :: ps), c1, w1) ->
      Agent.searchPatientByEmail loc email s w
      = (Return Agent.MSG_FOUND_BY_EMAIL, session_with c1 (Some (Patient.id p)) s, w1))
  /\
  (forall f l email ph dob g s w c pt c1 w1,
      Agent.nexhealth s = Some c ->
      NexHealth.createPatient
        (mkNewPatient f l email ph dob (Agent.gender_text g) loc) c w
      = (Return pt, c1, w1) ->
      Agent.createPatient loc f l email ph dob g s w
      = (Return (Agent.MSG_CREATED f l), session_with c1 (Some (Patient.id pt)) s, w1))
  /\
  (forall f l ph s w,
      In (text (Agent.searchPatient loc f l ph s w))
         [Agent.MSG_NOT_CONFIGURED; Agent.MSG_FOUND; Agent.MSG_NOT_FOUND;
          Agent.MSG_SEARCH_TROUBLE])
  /\
  (forall email s w,
      In (text (Agent.searchPatientByEmail loc email s w))
         [Agent.MSG_NOT_CONFIGURED; Agent.MSG_FOUND_BY_EMAIL; Agent.MSG_EMAIL_NOT_FOUND;
          Agent.MSG_EMAIL_TROUBLE]).
Proof.
  repeat apply conj.
  - apply searchPatient_found_first.
  - intros f l ph s w c c1 w1 p ps c2 w2 Hc E1 E2.
    rewrite (searchPatient_fallback _ _ _ _ _ _ _ _ Hc E1), E2. reflexivity.
  - apply searchPatientByEmail_found.
  - apply createPatient_created.
  - intros f l ph s w.
    destruct (searchPatient_spec loc f l ph s w)
      as (r & s' & w' & E & _ & [(-> & _)|([->|[->| ->]] & _)]);
      unfold text; rewrite E; simpl; tauto.
  - intros email s w.
    destruct (searchPatientByEmail_spec loc email s w)
      as (r & s' & w' & E & _ & [(-> & _)|([->|[->| ->]] & _)]);
      unfold text; rewrite E; simpl; tauto.
Qed.

End ResolvedPatient.

Lemma resolved_patient_is_cached_counterexample :
  let s := Agent.agent_session (example_agent (Some "key") 0) in
  let w := search_world (Bare []) (Bare []) in
  let r := Agent.createPatient (Num 42)
             "Ada" "Lovelace" "ada@example.org" "555 0100" "1815-12-10" Agent.female s w in
  text r = "Great! I've created a patient record for Ada Lovelace. Now let me check our availability."
  /\ resolved_patient
       (Agent.CreatePatient "Ada" "Lovelace" "ada@example.org" "555 0100" "1815-12-10"
          Agent.female) (text r) = true
  /\ Agent.currentPatientId (snd (fst r)) = Some 9
  /\ mentions "Ada" (text r) = true
  /\ mentions "Lovelace" (text r) = true.
Proof. repeat split. Qed.

Lemma resolved_patient_is_cached_witness :
  let loc := Num 42 in
  let s := Agent.agent_session (example_agent (Some "key") 0) in
  let c := new_client (mkConfig "key" "demo" None) in
  let found := Bare [example_patient 7] in
  (let w := search_world found (Bare []) in
   let first := searchPatients (Agent.name_and_phone loc "Ada Lovelace" "555 0100") c w in
   Agent.searchPatient loc "Ada" "Lovelace" "555 0100" s w
   = (Return Agent.MSG_FOUND, session_with (snd (fst first)) (Some 7) s, snd first))
  /\
  (let w := search_world (Bare []) found in
   let first := searchPatients (Agent.name_and_phone loc "Ada Lovelace" "555 0100") c w in
   let second := searchPatients (Agent.name_only loc "Ada Lovelace")
                   (snd (fst first)) (snd first) in
   Agent.searchPatient loc "Ada" "Lovelace" "555 0100" s w
   = (Return Agent.MSG_FOUND, session_with (snd (fst second)) (Some 7) s, snd second))
  /\
  (let w := search_world found (Bare []) in
   let first := searchPatients (Agent.by_email loc "ada@example.org") c w in
   Agent.searchPatientByEmail loc "ada@example.org" s w
   = (Return Agent.MSG_FOUND_BY_EMAIL, session_with (snd (fst first)) (Some 7) s, snd first))
  /\
  (let w := search_world found (Bare []) in
   let created := NexHealth.createPatient
                    (mkNewPatient "Ada" "Lovelace" "ada@example.org" "555 0100"
                       "1815-12-10" "female" loc) c w in
   Agent.createPatient loc "Ada" "Lovelace" "ada@example.org" "555 0100" "1815-12-10"
     Agent.female s w
   = (Return (Agent.MSG_CREATED "Ada" "Lovelace"),
      session_with (snd (fst created)) (Some 9) s, snd created)).
Proof.
  intros loc s c found.
  destruct (resolved_patient_is_cached (Num 42)) as (H1 & H2 & H3 & H4 & _ & _).
  repeat apply conj; intros.
  - apply (H1 "Ada" "Lovelace" "555 0100" s w c (example_patient 7) []
             (snd (fst first)) (snd first)); reflexivity.
  - apply (H2 "Ada" "Lovelace" "555 0100" s w c (snd (fst first)) (snd first)
             (example_patient 7) [] (snd (fst second)) (snd second)); reflexivity.
  - apply (H3 "ada@example.org" s w c (example_patient 7) []
             (snd (fst first)) (snd first)); reflexivity.
  - apply (H4 "Ada" "Lovelace" "ada@example.org" "555 0100" "1815-12-10" Agent.female
             s w c (example_patient 9) (snd (fst created)) (snd created)); reflexivity.
Defined.

Lemma skipn_length_app {A} (a b : list A) : skipn (length a) (a ++ b) = b.
Proof. now rewrite skipn_app, skipn_all, Nat.sub_diag. Qed.

Lemma issued_later w w1 w2 :
  later w w1 -> later w1 w2 -> issued w w2 = (issued w w1 ++ issued w1 w2)%list.
Proof.
  intros (_ & _ & n1 & H1) (_ & _ & n2 & H2). unfold issued.
  rewrite H2, skipn_length_app, H1, skipn_length_app, <- app_assoc.
  apply skipn_length_app.
Qed.

Lemma api_calls_later this w w1 w2 :
  later w w1 -> later w1 w2 ->
  api_calls this w w2 = (api_calls this w w1 ++ api_calls this w1 w2)%list.
Proof.
  intros L1 L2. unfold api_calls.
  now rewrite (issued_later _ _ _ L1 L2), filter_app, map_app.
Qed.

Lemma api_calls_same_base this this' w w' :
  baseUrl this' = baseUrl this -> api_calls this' w w' = api_calls this w w'.
Proof. intros H. unfold api_calls, is_auth_call. now rewrite H. Qed.

Lemma auth_request_is_auth this : is_auth_call this (auth_request this) = true.
Proof. unfold is_auth_call, auth_request; simpl. apply String.eqb_refl. Qed.

Section SearchRequests.
Context {RT : Runtime}.

Lemma searchPatients_same_config p : preserves same_config (searchPatients p).
Proof. pose proof request_same_config. unfold searchPatients. preserve. Qed.

Lemma searchPatients_requests params this w l this' w' :
  searchPatients params this w = (Return l, this', w') ->
  api_calls this w w'
  = [(GET, baseUrl this ++ searchPatients_url (subdomain this) params)].
Proof.
  unfold api_calls. run_client. split_auth this w; intros H; try discriminate H.
  all: match type of H with
       | context [net ?ww ?n KPatients] =>
           destruct (net ww n KPatients) as [?|? ?|d]; try discriminate H
       end.
  all: inversion H; subst; unfold issued; simpl;
       rewrite <- ?app_assoc, skipn_app, skipn_all, Nat.sub_diag; simpl;
       rewrite ?auth_request_is_auth; simpl;
       rewrite api_request_not_auth by reflexivity; reflexivity.
Qed.
End SearchRequests.

Lemma fullName_truthy f l : truthy_str (f ++ " " ++ l) = true.
Proof. destruct f; reflexivity. Qed.

Lemma string_app_nil_r (s : string) : s ++ "" = s.
Proof. induction s as [|c s IH]; simpl; [reflexivity | now rewrite IH]. Qed.

Section SearchFallback.
Context {RT : Runtime}.
Variable loc : JsNum.

Lemma name_only_url sub f l :
  searchPatients_url sub (Agent.name_only loc (f ++ " " ++ l))
  = "/patients?subdomain=" ++ sub ++ "&location_id=" ++ show_num loc
      ++ "&name=" ++ encodeURIComponent (f ++ " " ++ l).
Proof.
  unfold searchPatients_url, Agent.name_only, query_opt.
  cbn [sp_name sp_email sp_phone sp_locationId].
  rewrite fullName_truthy. simpl. now rewrite string_app_nil_r.
Qed.

Lemma name_and_phone_url sub f l ph :
  searchPatients_url sub (Agent.name_and_phone loc (f ++ " " ++ l) ph)
  = "/patients?subdomain=" ++ sub ++ "&location_id=" ++ show_num loc
      ++ "&name=" ++ encodeURIComponent (f ++ " " ++ l)
      ++ (if truthy_str ph then "&phone=" ++ encodeURIComponent ph else "").
Proof.
  unfold searchPatients_url, Agent.name_and_phone, query_opt.
  cbn [sp_name sp_email sp_phone sp_locationId].
  rewrite fullName_truthy. reflexivity.
Qed.

(** C3 (patient search fallback).  For a configured client, write [first]
    for the search call with the name and the phone number.
    - When [first] returns no record, the tool goes on with a second search
      call, for the same name and without the phone parameter: the tool ends
      in the world that call ends in, it reports "not found" exactly when
      that call returns no record either, and when that call returns, the
      requests issued (authentication apart) are the [GET] with the phone
      followed by the [GET] with the name alone.
    - When [first] returns a record, the tool ends where [first] ends: the
      only request issued (authentication apart) is the [GET] with the
      phone, and no second search call is made.
    - Whenever the tool reports "not found", both requests were issued, in
      that order. *)
Theorem search_falls_back_to_name f l ph s w c :
  Agent.nexhealth s = Some c ->
  let fullName := f ++ " " ++ l in
  let name_url :=
    baseUrl c ++ "/patients?subdomain=" ++ subdomain c ++ "&location_id=" ++ show_num loc
      ++ "&name=" ++ encodeURIComponent fullName in
  let phone_url :=
    baseUrl c ++ "/patients?subdomain=" ++ subdomain c ++ "&location_id=" ++ show_num loc
      ++ "&name=" ++ encodeURIComponent fullName
      ++ (if truthy_str ph then "&phone=" ++ encodeURIComponent ph else "") in
  let first := searchPatients (Agent.name_and_phone loc fullName ph) c w in
  let tool := Agent.searchPatient loc f l ph s w in
  (forall c1 w1,
      first = (Return [], c1, w1) ->
      let second := searchPatients (Agent.name_only loc fullName) c1 w1 in
      snd tool = snd second
      /\ (text tool = Agent.MSG_NOT_FOUND <-> fst (fst second) = Return [])
      /\ (forall found, fst (fst second) = Return found ->
           api_calls c w (snd tool) = [(GET, phone_url); (GET, name_url)]))
  /\
  (forall p ps c1 w1,
      first = (Return (p :: ps), c1, w1) ->
      snd tool = w1
      /\ text tool = Agent.MSG_FOUND
      /\ api_calls c w (snd tool) = [(GET, phone_url)])
  /\
  (text tool = Agent.MSG_NOT_FOUND ->
   api_calls c w (snd tool) = [(GET, phone_url); (GET, name_url)]).
Proof.
  intros Hc fullName name_url phone_url first tool.
  assert (Hfirst : forall l1 c1 w1, first = (Return l1, c1, w1) ->
            api_calls c w w1 = [(GET, phone_url)]
            /\ later w w1 /\ baseUrl c1 = baseUrl c /\ subdomain c1 = subdomain c).
  { intros l1 c1 w1 E1. split; [|split].
    - rewrite (searchPatients_requests _ _ _ _ _ _ E1).
      subst fullName. now rewrite name_and_phone_url.
    - apply (searchPatients_later _ _ _ _ _ _ E1).
    - destruct (searchPatients_same_config _ _ _ _ _ _ E1) as (_ & H2 & H3). auto. }
  assert (Hsecond : forall c1 w1 l2 c2 w2,
            baseUrl c1 = baseUrl c -> subdomain c1 = subdomain c ->
            searchPatients (Agent.name_only loc fullName) c1 w1 = (Return l2, c2, w2) ->
            api_calls c w1 w2 = [(GET, name_url)] /\ later w1 w2).
  { intros c1 w1 l2 c2 w2 Hb Hsub E2. split.
    - rewrite <- (api_calls_same_base c c1 _ _ Hb).
      rewrite (searchPatients_requests _ _ _ _ _ _ E2), Hb, Hsub.
      subst fullName. now rewrite name_only_url.
    - apply (searchPatients_later _ _ _ _ _ _ E2). }
  assert (Hfallback : forall c1 w1,
            first = (Return [], c1, w1) ->
            let second := searchPatients (Agent.name_only loc fullName) c1 w1 in
            snd tool = snd second
            /\ (text tool = Agent.MSG_NOT_FOUND <-> fst (fst second) = Return [])
            /\ (forall found, fst (fst second) = Return found ->
                 api_calls c w (snd tool) = [(GET, phone_url); (GET, name_url)])).
  { intros c1 w1 E1 second. subst tool.
    destruct (Hfirst _ _ _ E1) as (Hcalls & L1 & Hb & Hsub).
    rewrite (searchPatient_fallback loc _ _ _ _ _ _ _ _ Hc E1). fold fullName. fold second.
    destruct second as [[[[|p ps]|e2] c2] w2] eqn:E2; unfold text; simpl;
      (split; [reflexivity|]); (split; [split; intros H; (reflexivity || discriminate H)|]).
    - intros found _. destruct (Hsecond _ _ _ _ _ Hb Hsub E2) as (H2 & L2).
      now rewrite (api_calls_later _ _ _ _ L1 L2), Hcalls, H2.
    - intros found _. destruct (Hsecond _ _ _ _ _ Hb Hsub E2) as (H2 & L2).
      now rewrite (api_calls_later _ _ _ _ L1 L2), Hcalls, H2.
    - intros found H; discriminate H. }
  split; [exact Hfallback|]. split.
  - intros p ps c1 w1 E1. subst tool.
    rewrite (searchPatient_found_first loc _ _ _ _ _ _ _ _ _ _ Hc E1). unfold text; simpl.
    repeat split. apply (Hfirst _ _ _ E1).
  - intros Hnf.
    destruct first as [[[[|p ps]|e1] c1] w1] eqn:E1.
    + destruct (Hfallback c1 w1 eq_refl) as (_ & Hiff & Hcalls).
      apply Hiff in Hnf. apply (Hcalls _ Hnf).
    + subst tool.
      rewrite (searchPatient_found_first loc _ _ _ _ _ _ _ _ _ _ Hc E1) in Hnf.
      discriminate Hnf.
    + subst tool. revert Hnf.
      unfold Agent.searchPatient, bind, get. rewrite Hc.
      unfold try_catch, bind. rewrite (on_client_some _ _ _ _ _ Hc).
      fold fullName. fold first. rewrite E1. discriminate.
Qed.
End SearchFallback.

Lemma search_falls_back_to_name_witness :
  let loc := Num 42 in
  let s := Agent.agent_session (example_agent (Some "key") 0) in
  let c := new_client (mkConfig "key" "demo" None) in
  let name_url :=
    "https://nexhealth.info/patients?subdomain=demo&location_id=42&name=Ada%20Lovelace" in
  let phone_url :=
    "https://nexhealth.info/patients?subdomain=demo&location_id=42&name=Ada%20Lovelace&phone=555%200100" in
  (let w := search_world (Bare []) (Bare []) in
   let tool := Agent.searchPatient loc "Ada" "Lovelace" "555 0100" s w in
   text tool = Agent.MSG_NOT_FOUND
   /\ api_calls c w (snd tool) = [(GET, phone_url); (GET, name_url)])
  /\
  (let w := search_world (Bare [example_patient 7]) (Bare []) in
   let tool := Agent.searchPatient loc "Ada" "Lovelace" "555 0100" s w in
   text tool = Agent.MSG_FOUND
   /\ api_calls c w (snd tool) = [(GET, phone_url)]).
Proof.
  intros loc s c name_url phone_url. split; intros w tool.
  - destruct (search_falls_back_to_name loc "Ada" "Lovelace" "555 0100" s w c eq_refl)
      as (_ & _ & H3).
    split; [reflexivity | apply H3; reflexivity].
  - destruct (search_falls_back_to_name loc "Ada" "Lovelace" "555 0100" s w c eq_refl)
      as (_ & H2 & _).
    destruct (H2 (example_patient 7) []
                (snd (fst (searchPatients (Agent.name_and_phone loc "Ada Lovelace" "555 0100") c w)))
                (snd (searchPatients (Agent.name_and_phone loc "Ada Lovelace" "555 0100") c w))
                eq_refl) as (_ & Ht & Hc).
    split; [exact Ht | exact Hc].
Defined.

Section ClosedDays.
Context {RT : Runtime}.
Variable gi : Agent.GeneralInfo.
Variable loc : JsNum.

Lemma calendar_weekday_range date n : calendar_weekday date = Some n -> 0 <= n < 7.
Proof.
  unfold calendar_weekday. destruct (Nat.eqb _ _); [|discriminate].
  destruct (IsoRuntime.date_fields date) as [[[y m] d]|]; [|discriminate].
  intros [= <-]. apply Z.mod_pos_bound. lia.
Qed.

(** The name the code gives a weekday of the engine is its key in the raw
    hours. *)
Lemma dayName_of_weekday n : 0 <= n < 7 -> Agent.dayName_of (Num n) = weekday_name n.
Proof.
  intros Hn.
  assert (H : n = 0 \/ n = 1 \/ n = 2 \/ n = 3 \/ n = 4 \/ n = 5 \/ n = 6) by lia.
  destruct H as [->|[->|[->|[->|[->|[->| ->]]]]]]; reflexivity.
Qed.

Lemma closed_answer date n :
  calendar_weekday date = Some n -> closed_on gi date -> read_by_calendar date ->
  Agent.hours_answer gi date = Agent.MSG_CLOSED date (weekday_name n).
Proof.
  intros Hn (n' & h & Hn' & Hl & Hc) Hread.
  assert (n' = n) by congruence. subst n'.
  unfold Agent.hours_answer. rewrite (Hread n Hn).
  rewrite (dayName_of_weekday n (calendar_weekday_range _ _ Hn)).
  rewrite Hl, Hc. simpl. now rewrite orb_true_r.
Qed.

(** A date that the engine does not read is taken for a Monday. *)
Lemma unread_answer date :
  Date_getDay (date ++ "T12:00:00") = NaN ->
  Agent.hours_answer gi date = monday_answer gi date.
Proof.
  intros Hnan. unfold Agent.hours_answer, monday_answer. rewrite Hnan. simpl.
  destruct (lookup "monday" _) as [h|]; [|reflexivity].
  unfold truthy_str. now rewrite negb_involutive.
Qed.

Lemma getAvailableSlots_cases startDate daysToCheck s w :
  let r := Agent.getAvailableSlots gi loc startDate daysToCheck s w in
  (exists k, text r = Agent.hours_answer gi (requested_date startDate (clock w k)))
  \/ (text r = Agent.MSG_SLOTS_TROUBLE
      /\ exists c e,
          Agent.nexhealth s = Some c
          /\ truthy_onum (Agent.currentProviderId s) = false
          /\ fst (fst (getProviders loc c w)) = Throw e).
Proof.
  unfold Agent.getAvailableSlots, text, try_catch, bind, get, now.
  destruct (truthy_onum (Agent.currentProviderId s)) eqn:Hp; simpl.
  { left. exists (ticks w). reflexivity. }
  destruct (Agent.nexhealth s) as [c|] eqn:Hc; simpl.
  2: { left. exists (ticks w). reflexivity. }
  rewrite (on_client_some _ _ _ _ _ Hc).
  destruct (getProviders loc c w) as [[[ps|e1] c1] w1] eqn:E1; simpl.
  - destruct (remember_first_provider_frame ps (Agent.set_nexhealth (Some c1) s) w1)
      as (s2 & -> & _ & _); simpl.
    destruct (getProviders_later _ _ _ _ _ _ E1) as (Hclock & _).
    simpl in Hclock. left. exists (ticks w1). now rewrite Hclock.
  - right. split; [reflexivity|]. exists c, e1. rewrite E1. auto.
Qed.

(** C4 (closed days), as the code has it.  Take a requested date written
    [YYYY-MM-DD] that the engine reads by the calendar (the requested date
    is the [startDate] argument, or the date of the clock reading when
    there is none).  When the raw hours of the configuration have, for the
    weekday of that date, an entry that reads "Closed" in some
    capitalization, [getAvailableSlots] answers that the practice is closed
    on that date and weekday, unless its preliminary provider lookup (made
    when a client is configured and no provider is cached) throws, in which
    case it answers with the generic trouble text.  It never answers with an
    hours range.  A requested date that the engine does not read, such as a
    date in words, is taken for a Monday: the answer is then the trouble
    text or the one for Monday's entry, whatever the entry of the weekday
    that was meant. *)
Theorem closed_day_is_reported startDate daysToCheck s w :
  let r := Agent.getAvailableSlots gi loc startDate daysToCheck s w in
  let trouble :=
    text r = Agent.MSG_SLOTS_TROUBLE
    /\ exists c e,
        Agent.nexhealth s = Some c
        /\ truthy_onum (Agent.currentProviderId s) = false
        /\ fst (fst (getProviders loc c w)) = Throw e in
  ((forall k,
       let date := requested_date startDate (clock w k) in
       closed_on gi date /\ read_by_calendar date) ->
   ((exists k n,
        let date := requested_date startDate (clock w k) in
        calendar_weekday date = Some n
        /\ text r = Agent.MSG_CLOSED date (weekday_name n))
    \/ trouble)
   /\ (forall date day range, text r <> Agent.MSG_OPEN date day range))
  /\ ((forall k, Date_getDay (requested_date startDate (clock w k) ++ "T12:00:00") = NaN) ->
      (exists k, text r = monday_answer gi (requested_date startDate (clock w k)))
      \/ trouble).
Proof.
  intros r trouble. split.
  - intros Hclosed.
    assert (H : (exists k n,
                    let date := requested_date startDate (clock w k) in
                    calendar_weekday date = Some n
                    /\ text r = Agent.MSG_CLOSED date (weekday_name n))
                \/ trouble).
    { destruct (getAvailableSlots_cases startDate daysToCheck s w) as [(k & Hk)|Ht].
      - left. destruct (Hclosed k) as (Hc & Hread).
        destruct Hc as (n & h & Hn & Hl & Hlow).
        exists k, n. simpl. split; [exact Hn|]. fold r in Hk. rewrite Hk.
        apply closed_answer; [exact Hn| |exact Hread].
        exists n, h. auto.
      - right. exact Ht. }
    split; [exact H|].
    intros date day range Hopen.
    destruct H as [(k & n & _ & Hk)|(Ht & _)]; simpl in *.
    + rewrite Hk in Hopen. unfold Agent.MSG_CLOSED, Agent.MSG_OPEN in Hopen.
      simpl in Hopen. discriminate Hopen.
    + rewrite Ht in Hopen. discriminate Hopen.
  - intros Hnan.
    destruct (getAvailableSlots_cases startDate daysToCheck s w) as [(k & Hk)|Ht].
    + left. exists k. fold r in Hk. rewrite Hk. apply unread_answer, Hnan.
    + right. exact Ht.
Qed.
End ClosedDays.

(** The two ways in which a closed day is not reported as closed.  On a
    closed Monday the provider lookup fails and the answer is the trouble
    text (the example network answers every call but the authentication
    with a 503).  A closed Sunday asked for in a form that the engine does
    not read is taken for a Monday, and the answer is Monday's hours
    range. *)
Lemma closed_day_is_reported_counterexample :
  let s := Agent.agent_session (example_agent (Some "key") 0) in
  let r := Agent.getAvailableSlots (RT := IsoRuntime.runtime) example_info (Num 42)
             (Some "2024-11-04") None s (example_world 0) in
  let r' := Agent.getAvailableSlots (RT := IsoRuntime.runtime) sunday_closed_info (Num 42)
              (Some "11/03/2024") None (Agent.mkSession None None None)
              (example_world 0) in
  weekday_of (RT := IsoRuntime.runtime) "2024-11-04" = "monday"
  /\ lookup "monday" example_hours = Some "Closed"
  /\ toLowerCase "Closed" = "closed"
  /\ text r = Agent.MSG_SLOTS_TROUBLE
  /\ mentions "closed" (text r) = false
  /\ calendar_weekday "2024-11-04" = Some 1
  /\ calendar_weekday "2024-11-03" = Some 0
  /\ lookup "sunday" [("sunday", "Closed"); ("monday", "9:00 AM - 5:00 PM")] = Some "Closed"
  /\ text r' = Agent.MSG_OPEN "11/03/2024" "monday" "9:00 AM - 5:00 PM".
Proof. repeat split. Qed.

Lemma closed_day_is_reported_witness :
  let s := Agent.agent_session (example_agent None 0) in
  let r := Agent.getAvailableSlots (RT := IsoRuntime.runtime) example_info (Num 42)
             (Some "2024-11-03") None s (example_world 0) in
  let r' := Agent.getAvailableSlots (RT := IsoRuntime.runtime) sunday_closed_info (Num 42)
              (Some "tomorrow") None s (example_world 0) in
  (closed_on example_info "2024-11-03"
   /\ read_by_calendar (RT := IsoRuntime.runtime) "2024-11-03")
  /\ text r = Agent.MSG_CLOSED "2024-11-03" "sunday"
  /\ (forall date day range, text r <> Agent.MSG_OPEN date day range)
  /\ Date_getDay (Runtime := IsoRuntime.runtime) ("tomorrow" ++ "T12:00:00") = NaN
  /\ text r' = Agent.MSG_OPEN "tomorrow" "monday" "9:00 AM - 5:00 PM".
Proof.
  intros s r r'.
  assert (Hpre : closed_on example_info "2024-11-03"
                 /\ read_by_calendar (RT := IsoRuntime.runtime) "2024-11-03").
  { split.
    - exists 0, "CLOSED". repeat split.
    - intros n Hn. vm_compute in Hn. injection Hn as <-. reflexivity. }
  destruct (closed_day_is_reported (RT := IsoRuntime.runtime) example_info (Num 42)
              (Some "2024-11-03") None s (example_world 0)) as (Hclosed & _).
  destruct (Hclosed (fun _ => Hpre)) as ([(k & n & Hn & Hk)|(Ht & _)] & Hnever).
  2: { vm_compute in Ht. discriminate Ht. }
  destruct (closed_day_is_reported (RT := IsoRuntime.runtime) sunday_closed_info (Num 42)
              (Some "tomorrow") None s (example_world 0)) as (_ & Hunread).
  destruct (Hunread (fun _ => eq_refl)) as [(k' & Hk')|(Ht & _)].
  2: { vm_compute in Ht. discriminate Ht. }
  split; [exact Hpre|]. split.
  - simpl in Hn, Hk. vm_compute in Hn. injection Hn as <-. exact Hk.
  - split; [exact Hnever|]. split; [reflexivity|]. exact Hk'.
Defined.

(* ===================================================================== *)
(** ** Properties of the configuration loader and of the prompt builder *)
(* ===================================================================== *)

Import Agent.

Lemma race_timeout_settles A (m : Timed A) :
  exists t o, race_timeout m = Settled t o /\ t <= TIMEOUT_MS
              /\ (o = Throw (mkError "Config load timeout") \/ m = Settled t o /\ t < TIMEOUT_MS).
Proof.
  unfold race_timeout. destruct m as [|d o].
  - do 2 eexists. split; [reflexivity|]. split; [lia | now left].
  - destruct (Z.ltb_spec d TIMEOUT_MS).
    + exists d, o. split; [reflexivity|]. split; [lia | now right].
    + do 2 eexists. split; [reflexivity|]. split; [lia | now left].
Qed.

Lemma internal_never_throws supabase businessId d e :
  loadBusinessConfigInternal supabase businessId <> Settled d (Throw e).
Proof.
  unfold loadBusinessConfigInternal, tcatch, tbind, tret.
  destruct supabase as [sb|]; [|discriminate].
  destruct (lookup_business sb businessId) as [|d1 [[rows [err|]]|e1]];
    simpl; try discriminate.
  destruct rows as [[|business rest]|]; simpl; try discriminate.
  destruct (business_agents sb (b_id business)) as [|d2 [agents|e2]];
    simpl; discriminate.
Qed.

Lemma loadBusinessConfig_cases supabase businessId :
  (exists t v, loadBusinessConfig supabase businessId = Settled t (Return v)
               /\ t <= TIMEOUT_MS)
  /\ (supabase = None ->
      loadBusinessConfig supabase businessId = Settled 0 (Return None))
  /\ (loadBusinessConfigInternal supabase businessId = Pending ->
      loadBusinessConfig supabase businessId = Settled TIMEOUT_MS (Return None))
  /\ (forall d o,
        loadBusinessConfigInternal supabase businessId = Settled d o ->
        TIMEOUT_MS <= d ->
        loadBusinessConfig supabase businessId = Settled TIMEOUT_MS (Return None))
  /\ (forall t config,
        loadBusinessConfig supabase businessId = Settled t (Return (Some config)) ->
        exists sb d1 business rest d2 agents,
          supabase = Some sb
          /\ lookup_business sb businessId
             = Settled d1 (Return (Some (business :: rest), None))
          /\ business_agents sb (b_id business) = Settled d2 (Return agents)
          /\ config = to_config business (first_agent agents)
          /\ t = d1 + (d2 + 0)
          /\ t < TIMEOUT_MS).
Proof.
  unfold loadBusinessConfig.
  repeat apply conj.
  - destruct (race_timeout_settles _ (loadBusinessConfigInternal supabase businessId))
      as (t & o & -> & Ht & [-> | (Hm & _)]); simpl.
    + exists (t + 0), None. split; [reflexivity | lia].
    + destruct o as [v|e]; [exists t, v; auto|].
      exfalso. exact (internal_never_throws _ _ _ _ Hm).
  - intros ->. reflexivity.
  - intros ->. reflexivity.
  - intros d o -> Hd. unfold race_timeout.
    destruct (Z.ltb_spec d TIMEOUT_MS); [lia | reflexivity].
  - intros t config.
    unfold race_timeout, loadBusinessConfigInternal, tcatch, tbind, tret.
    destruct supabase as [sb|].
    2: { simpl. discriminate. }
    destruct (lookup_business sb businessId) as [|d1 [[rows [err|]]|e1]] eqn:E1; simpl;
      try (destruct (_ <? _); simpl; discriminate).
    1: discriminate.
    destruct rows as [[|business rest]|]; simpl;
      try (destruct (_ <? _); simpl; discriminate).
    destruct (business_agents sb (b_id business)) as [|d2 [agents|e2]] eqn:E2; simpl;
      try (destruct (_ <? _); simpl; discriminate).
    1: discriminate.
    destruct (Z.ltb_spec (d1 + (d2 + 0)) TIMEOUT_MS); simpl; [|discriminate].
    intros Heq. inversion Heq; subst.
    exists sb, d1, business, rest, d2, agents. repeat split; assumption.
Qed.



(** An error of the lookup by identifier does not reach the caller when the
    fallback lookup answers: the loader then returns the first available
    business. *)
Example by_id_error_is_overwritten :
  loadBusinessConfig
    (Some (example_store (failed_after 20) (found_after 30) (agent_after 10))) (Some "b-1")
  = Settled 60 (Return (Some (to_config example_business (Some example_agent_row)))).
Proof. reflexivity. Qed.

(** An error of the agent-settings query is not looked at: the loader
    returns a configuration without agent name and greeting. *)
Example agent_error_is_ignored :
  loadBusinessConfig
    (Some (example_store (found_after 20) Pending (failed_after 10))) (Some "b-1")
  = Settled 30 (Return (Some (to_config example_business None))).
Proof. reflexivity. Qed.

Lemma toISODate_same_day t1 t2 :
  t1 / MS_PER_DAY = t2 / MS_PER_DAY -> toISODate t1 = toISODate t2.
Proof. intros H. unfold toISODate. now rewrite H. Qed.

(** C8 (the prompt builder), as the code has it.  [createDynamicAgent]
    reads the clock once, never throws and issues no request; the prompt it
    builds is a function of the configuration and of the UTC date of that
    reading: two invocations with the same configuration whose clock
    readings fall on the same UTC day produce the same prompt, whatever the
    API key is. *)
Theorem prompt_is_function_of_config_and_date {RT : Runtime}
    (key1 key2 : option string) (config : BusinessConfig) (w1 w2 : World) :
  clock w1 (ticks w1) / MS_PER_DAY = clock w2 (ticks w2) / MS_PER_DAY ->
  exists agent1 agent2,
    createDynamicAgent key1 config tt w1 = (Return agent1, tt, tick w1)
    /\ createDynamicAgent key2 config tt w2 = (Return agent2, tt, tick w2)
    /\ instructions agent1 = instructions agent2
    /\ instructions agent1 = fullInstructions config (toISODate (clock w1 (ticks w1))).
Proof.
  intros Hday. unfold createDynamicAgent, bind, now, ret.
  do 2 eexists. split; [reflexivity|]. split; [reflexivity|]. simpl.
  split; [|reflexivity]. now rewrite (toISODate_same_day _ _ Hday).
Qed.

Lemma prompt_is_function_of_config_and_date_counterexample :
  (instructions (example_agent (Some "key") 0)
   =? instructions (example_agent (Some "key") 86400000))%string = false
  /\ mentions "Today is 1970-01-01." (instructions (example_agent (Some "key") 0)) = true
  /\ mentions "Today is 1970-01-02."
       (instructions (example_agent (Some "key") 86400000)) = true.
Proof. vm_compute. repeat split. Qed.

Lemma prompt_is_function_of_config_and_date_witness :
  exists agent1 agent2,
    createDynamicAgent (RT := IsoRuntime.runtime) (Some "key") example_config tt
      (example_world 0)
    = (Return agent1, tt, tick (example_world 0))
    /\ createDynamicAgent (RT := IsoRuntime.runtime) None example_config tt
         (example_world 80000000)
       = (Return agent2, tt, tick (example_world 80000000))
    /\ instructions agent1 = instructions agent2
    /\ instructions agent1 = fullInstructions example_config (toISODate 0).
Proof.
  apply (prompt_is_function_of_config_and_date (RT := IsoRuntime.runtime)
           (Some "key") None example_config (example_world 0) (example_world 80000000)).
  reflexivity.
Defined.

(* ===================================================================== *)
(** ** Further properties of the REST client *)
(* ===================================================================== *)

Import NexHealth Calls Dialogue Examples.
Import Slots Observations Scenarios.

Ltac run_op :=
  unfold perform, getLocations, getProviders, getAppointmentTypes, searchPatients,
    NexHealth.createPatient, getAppointmentSlots, createAppointment, cancelAppointment,
    getPatient, request, authenticate, token_is_valid,
    bind, get, ret, now, fetch, throw, modify; simpl.

Ltac split_answer :=
  repeat match goal with
         | |- context [match net ?w ?n ?k with _ => _ end] => destruct (net w n k); simpl
         end.

Section FurtherClient.
Context {RT : Runtime}.

Lemma authenticate_without_usable_token this w :
  truthy_ostr (bearerToken this) = false ->
  authenticate this w = authenticate_call this w.
Proof.
  intros Ht. unfold authenticate, authenticate_call, token_is_valid, bind, get, ret, fetch.
  simpl. destruct (bearerToken this) as [tok|]; simpl in *.
  - rewrite Ht. destruct (tokenExpiry this); simpl;
      destruct (net w (length (trace w)) KAuth); reflexivity.
  - destruct (net w (length (trace w)) KAuth); reflexivity.
Qed.

(** X1 (requests per call).  A call of a public method of the client issues
    at most two requests, whatever the state of the client and the answers
    of the network: nothing, or the authentication call alone, or one call
    of the API, or the authentication call followed by one call of the API.
    Nothing is retried, and no second call of the API is made. *)
Theorem operation_issues_at_most_two_requests op this w :
  let sent := issued w (snd (perform op this w)) in
  sent = []
  \/ sent = [auth_request this]
  \/ (exists rq, is_auth_call this rq = false /\ sent = [rq])
  \/ (exists rq, is_auth_call this rq = false /\ sent = [auth_request this; rq]).
Proof.
  destruct op; run_op; split_auth this w; split_answer;
    unfold issued; simpl; rewrite <- ?app_assoc, ?app_nil_r, ?skipn_length_app, ?skipn_all;
    simpl.
  all: first
         [ left; reflexivity
         | right; left; reflexivity
         | right; right; left; eexists; split; [|reflexivity];
           apply api_request_not_auth; reflexivity
         | right; right; right; eexists; split; [|reflexivity];
           apply api_request_not_auth; reflexivity ].
Qed.

(** X2 (the first call of a fresh client).  On a client fresh from the
    constructor every public method first calls the authentication
    endpoint.  When that call fails (a rejected fetch or a status that is
    not OK) the method throws, with the text [Authentication failed: ...]
    for a status, the client is left as it was and nothing else is sent.
    When it succeeds the client stores the token of the answer
    ([data.data?.token || data.token]) with an expiry 55 minutes after the
    next reading of the clock, and a method other than [authenticate] then
    sends exactly one call of the API, authorized by [Bearer] and that
    token ([Bearer undefined] when the answer held none). *)
Theorem fresh_client_authenticates_first config op w :
  let this := new_client config in
  let r := perform op this w in
  match net w (length (trace w)) KAuth with
  | Ok data =>
      let token := or_ostr (nested_token data) (top_token data) in
      snd (fst r)
      = mkClient (cfg_apiKey config) (cfg_subdomain config) (baseUrl this) token
          (Some (clock w (ticks w) + 55 * 60 * 1000))
      /\ (if is_request op
          then exists rq,
              issued w (snd r) = [auth_request this; rq]
              /\ is_auth_call this rq = false
              /\ rq_authorization rq = "Bearer " ++ show_ostr token
          else issued w (snd r) = [auth_request this])
  | NotOk status errorText =>
      r = (Throw (mkError ("Authentication failed: " ++ show status ++ " - " ++ errorText)),
           this, log (auth_request this) w)
  | Rejected e => r = (Throw e, this, log (auth_request this) w)
  end.
Proof.
  destruct op; run_op;
    destruct (net w (length (trace w)) KAuth) as [e|status errorText|data]; simpl;
    try reflexivity; split_answer.
  all: split; [reflexivity|].
  all: try (unfold issued; simpl; now rewrite skipn_length_app).
  all: eexists; split;
         [unfold issued; simpl; rewrite <- app_assoc; apply skipn_length_app|];
         split; [apply api_request_not_auth; reflexivity | reflexivity].
Qed.

(** X3 (an error of the API).  When the client holds a usable token and the
    API answers a method other than [authenticate] with a status that is
    not OK, the method throws [NexHealth API error: <status> - <body>]; it
    has sent that one call, authorized by the cached token; the client is
    unchanged, so the token stays cached for the next call. *)
Theorem api_error_is_thrown op this w tok expiry status text :
  bearerToken this = Some tok ->
  truthy_str tok = true ->
  tokenExpiry this = Some expiry ->
  clock w (ticks w) < expiry ->
  is_request op = true ->
  (forall k, net w (length (trace w)) k = NotOk status text) ->
  exists rq,
    perform op this w
    = (Throw (mkError ("NexHealth API error: " ++ show status ++ " - " ++ text)),
       this, log rq (tick w))
    /\ is_auth_call this rq = false
    /\ rq_authorization rq = "Bearer " ++ tok.
Proof.
  intros Ht Hs He Hlt Hop Hnet.
  assert (Hl : token_live this tok expiry) by (repeat split; assumption).
  destruct op; try discriminate Hop; unfold perform, bind.
  all: unfold getLocations, getProviders, getAppointmentTypes, searchPatients,
         NexHealth.createPatient, getAppointmentSlots, createAppointment,
         cancelAppointment, getPatient, request, bind, get.
  all: rewrite (authenticate_cached _ _ _ _ Hl Hlt); unfold fetch; simpl.
  all: rewrite Hnet; simpl.
  all: eexists; split; [reflexivity|];
       split; [apply api_request_not_auth; reflexivity | reflexivity].
Qed.

End FurtherClient.

Lemma api_error_is_thrown_witness :
  bearerToken example_client = Some "tok-1"
  /\ truthy_str "tok-1" = true
  /\ tokenExpiry example_client = Some 3300000
  /\ clock down_world (ticks down_world) < 3300000
  /\ is_request (CancelAppointment 11) = true
  /\ (forall k, net down_world (length (trace down_world)) k = NotOk 503 "unavailable")
  /\ exists rq,
       perform (RT := IsoRuntime.runtime) (CancelAppointment 11) example_client down_world
       = (Throw (mkError ("NexHealth API error: " ++ show 503 ++ " - " ++ "unavailable")),
          example_client, log rq (tick down_world))
       /\ is_auth_call example_client rq = false
       /\ rq_authorization rq = "Bearer " ++ "tok-1".
Proof.
  assert (Hnet : forall k, net down_world (length (trace down_world)) k
                           = NotOk 503 "unavailable") by reflexivity.
  assert (Hlt : clock down_world (ticks down_world) < 3300000) by (vm_compute; reflexivity).
  do 6 (split; [first [reflexivity | assumption]|]).
  exact (api_error_is_thrown (RT := IsoRuntime.runtime) (CancelAppointment 11)
           example_client down_world "tok-1" 3300000 503 "unavailable"
           eq_refl eq_refl eq_refl Hlt eq_refl Hnet).
Defined.





(** *** The token cache over a run *)

Section TokenCache.
Variable c0 : NexHealthClient.
Variable w0 : World.
Variable t0 : Z.
Hypothesis Hauth : authentication_succeeds w0.
Hypothesis Hclock : within_token_lifetime w0 t0.

#[local] Instance keeps_cache_invariant : Invariant (keeps_cache c0 w0 t0).
Proof. split; unfold keeps_cache; auto. Qed.

#[local] Instance keeps_session_cache_invariant : Invariant (keeps_session_cache c0 w0 t0).
Proof. split; unfold keeps_session_cache; auto. Qed.

Lemma authenticate_keeps_cache : preserves (keeps_cache c0 w0 t0) authenticate.
Proof.
  intros c w o c' w' E (Hb & Hc & Hn & new & Ht & Hcase). simpl in *.
  destruct Hcase as [(Htok & Hnone)|((tok & e & Hl & He) & Hone)].
  - rewrite authenticate_without_usable_token in E by now rewrite Htok.
    unfold authenticate_call in E.
    destruct (Hauth (length (trace w))) as (data & tok & Hd & Hor & Htr).
    rewrite Hn, Hd, Hor in E. inversion E; subst; clear E. simpl.
    repeat split; auto.
    exists (new ++ [auth_request c])%list. split.
    { unfold tick, log; simpl. now rewrite Ht, app_assoc. }
    right. split.
    + exists tok, (clock w (ticks w) + TOKEN_LIFETIME_MS). repeat split; auto.
      rewrite Hc. pose proof (Hclock (ticks w)). lia.
    + rewrite filter_app, Hnone. simpl.
      unfold is_auth_call at 1. unfold auth_request at 1. simpl. rewrite Hb, String.eqb_refl.
      simpl. lia.
  - assert (Hlt : clock w (ticks w) < e).
    { rewrite Hc. pose proof (Hclock (ticks w)). lia. }
    rewrite (authenticate_cached _ _ _ _ Hl Hlt) in E. inversion E; subst; clear E. simpl.
    repeat split; auto. exists new. split; [exact Ht|]. right. split; eauto.
Qed.

Lemma cache_ok_log c w rq :
  cache_ok c0 w0 t0 c w -> is_auth_call c0 rq = false ->
  cache_ok c0 w0 t0 c (log rq w).
Proof.
  intros (Hb & Hc & Hn & new & Ht & Hcase) Hrq.
  repeat split; auto. exists (new ++ [rq])%list. split.
  { unfold log; simpl. now rewrite Ht, app_assoc. }
  rewrite filter_app. simpl. rewrite Hrq, app_nil_r. exact Hcase.
Qed.

Lemma cache_ok_tick c w : cache_ok c0 w0 t0 c w -> cache_ok c0 w0 t0 c (tick w).
Proof. intros (Hb & Hc & Hn & new & Ht & Hcase). repeat split; eauto. Qed.

Lemma request_keeps_cache k endpoint method body :
  (endpoint =? "/authenticates")%string = false ->
  preserves (keeps_cache c0 w0 t0) (request k endpoint method body).
Proof.
  intros Hep c w o c' w' E G. simpl in *.
  unfold request, bind in E.
  destruct (authenticate c w) as [[[tok|e] c1] w1] eqn:Ea.
  - pose proof (authenticate_keeps_cache _ _ _ _ _ Ea G) as G1. simpl in G1.
    unfold get, fetch in E. simpl in E.
    assert (G2 : cache_ok c0 w0 t0 c1 (log (api_request c1 tok endpoint method body) w1)).
    { apply cache_ok_log; [exact G1|].
      apply api_request_not_auth; [apply G1|exact Hep]. }
    destruct (net w1 (length (trace w1)) k); inversion E; subst; exact G2.
  - inversion E; subst. exact (authenticate_keeps_cache _ _ _ _ _ Ea G).
Qed.

Context {RT : Runtime}.

Ltac keep_cache :=
  repeat first
    [ assumption
    | apply request_keeps_cache; reflexivity
    | apply preserves_bind; [typeclasses eauto| |intros ?]
    | apply preserves_ret; typeclasses eauto
    | apply preserves_get; typeclasses eauto ].

Lemma searchPatients_keeps_cache params :
  preserves (keeps_cache c0 w0 t0) (searchPatients params).
Proof. unfold searchPatients. keep_cache. Qed.

Lemma createPatient_keeps_cache patient :
  preserves (keeps_cache c0 w0 t0) (NexHealth.createPatient patient).
Proof. unfold NexHealth.createPatient. keep_cache. Qed.

Lemma getProviders_keeps_cache l : preserves (keeps_cache c0 w0 t0) (getProviders l).
Proof. unfold getProviders. keep_cache. Qed.

Lemma createAppointment_keeps_cache params :
  preserves (keeps_cache c0 w0 t0) (createAppointment params).
Proof. unfold createAppointment. keep_cache. Qed.

Lemma perform_keeps_cache op : preserves (keeps_cache c0 w0 t0) (perform op).
Proof.
  pose proof authenticate_keeps_cache. pose proof searchPatients_keeps_cache.
  pose proof createPatient_keeps_cache. pose proof getProviders_keeps_cache.
  pose proof createAppointment_keeps_cache.
  destruct op; unfold perform, getLocations, getAppointmentTypes,
    getAppointmentSlots, cancelAppointment, getPatient; keep_cache.
Qed.

Lemma perform_all_keep_cache ops : forall c w,
  cache_ok c0 w0 t0 c w ->
  cache_ok c0 w0 t0 (fst (perform_all ops c w)) (snd (perform_all ops c w)).
Proof.
  induction ops as [|op rest IH]; intros c w G; simpl.
  - exact G.
  - destruct (perform op c w) as [[o c1] w1] eqn:E. apply IH.
    exact (perform_keeps_cache op _ _ _ _ _ E G).
Qed.

Lemma on_client_keeps_cache A (m : M NexHealthClient A) :
  preserves (keeps_cache c0 w0 t0) m ->
  preserves (keeps_session_cache c0 w0 t0) (Agent.on_client m).
Proof.
  intros Hm s w o s' w' E (c & Hs & G). simpl in *.
  unfold Agent.on_client in E. rewrite Hs in E.
  destruct (m c w) as [[o1 c1] w1] eqn:Em. inversion E; subst.
  exists c1. split; [reflexivity|]. exact (Hm _ _ _ _ _ Em G).
Qed.

Lemma now_keeps_session_cache : preserves (keeps_session_cache c0 w0 t0) now.
Proof.
  intros s w o s' w' E (c & Hs & G). inversion E; subst. simpl.
  exists c. split; [exact Hs|]. now apply cache_ok_tick.
Qed.

Lemma set_currentPatientId_keeps_cache v :
  preserves (keeps_session_cache c0 w0 t0) (modify (Agent.set_currentPatientId v)).
Proof. intros s w o s' w' E G. inversion E; subst. exact G. Qed.

Lemma set_currentProviderId_keeps_cache v :
  preserves (keeps_session_cache c0 w0 t0) (modify (Agent.set_currentProviderId v)).
Proof. intros s w o s' w' E G. inversion E; subst. exact G. Qed.

Variable gi : Agent.GeneralInfo.
Variable loc : JsNum.

Lemma execute_keeps_cache call :
  preserves (keeps_session_cache c0 w0 t0) (Agent.execute gi loc call).
Proof.
  destruct call; unfold Agent.execute, Agent.searchPatient, Agent.searchPatientByEmail,
    Agent.createPatient, Agent.getAvailableSlots, Agent.bookAppointment,
    Agent.getPracticeInfo, Agent.remember_first_provider;
  repeat first
    [ apply on_client_keeps_cache;
      first [ apply searchPatients_keeps_cache | apply createPatient_keeps_cache
            | apply getProviders_keeps_cache | apply createAppointment_keeps_cache ]
    | apply now_keeps_session_cache
    | apply set_currentPatientId_keeps_cache
    | apply set_currentProviderId_keeps_cache
    | apply preserves_bind; [typeclasses eauto| |intros ?]
    | apply preserves_try_catch; [typeclasses eauto| |intros ?]
    | apply preserves_ret; typeclasses eauto
    | apply preserves_throw; typeclasses eauto
    | apply preserves_get; typeclasses eauto
    | match goal with
      | |- preserves _ (match ?x with _ => _ end) => destruct x
      | |- preserves _ (if ?x then _ else _) => destruct x
      end ].
Qed.

Lemma run_calls_keep_cache calls : forall s w,
  keeps_session_cache c0 w0 t0 (s, w)
    (snd (fst (run_calls gi loc calls s w)), snd (run_calls gi loc calls s w)).
Proof.
  induction calls as [|call rest IH]; intros s w; simpl.
  - intros G; exact G.
  - destruct (Agent.execute gi loc call s w) as [[o s1] w1] eqn:E. simpl.
    specialize (IH s1 w1).
    destruct (run_calls gi loc rest s1 w1) as [[h s2] w2]. simpl in *.
    intros G. apply IH. exact (execute_keeps_cache call _ _ _ _ _ E G).
Qed.

End TokenCache.

Lemma cache_ok_start c w t0 : bearerToken c = None -> cache_ok c w t0 c w.
Proof.
  intros H. repeat split. exists []. split; [now rewrite app_nil_r|]. left. now split.
Qed.

Lemma cache_ok_issued c0 w0 t0 c w :
  cache_ok c0 w0 t0 c w ->
  (length (filter (is_auth_call c0) (issued w0 w)) <= 1)%nat.
Proof.
  intros (_ & _ & _ & new & Ht & Hcase). unfold issued. rewrite Ht, skipn_length_app.
  destruct Hcase as [(_ & ->)|(_ & H)]; simpl; lia.
Qed.

Lemma clinic_world_authenticates : authentication_succeeds clinic_world.
Proof. intros n. exists (mkAuthBody (Some "tok-2") None), "tok-2". repeat split. Qed.

Lemma clinic_world_is_short : within_token_lifetime clinic_world 0.
Proof.
  intros n. unfold clinic_world, TOKEN_LIFETIME_MS. cbn [clock].
  pose proof (Nat.le_min_r n 3000). lia.
Qed.

Lemma tokenless_world_gives_no_token : authentication_gives_no_token tokenless_world.
Proof. intros n. exists (mkAuthBody None (Some "")). split; reflexivity. Qed.

Section AuthenticationCounts.
Context {RT : Runtime}.

(** X5 (one authentication per client).  When every authentication call is
    answered with a token and all readings of the clock fall within a
    window shorter than the 55 minutes a token is kept, a client fresh from
    the constructor calls the authentication endpoint at most once over any
    sequence of calls of its public methods, whatever the API answers to
    the other calls. *)
Theorem client_authenticates_at_most_once config ops w t0 :
  authentication_succeeds w -> within_token_lifetime w t0 ->
  let this := new_client config in
  (length (filter (is_auth_call this) (issued w (snd (perform_all ops this w)))) <= 1)%nat.
Proof.
  intros Hauth Hclock this.
  apply (cache_ok_issued this w t0 (fst (perform_all ops this w))).
  apply perform_all_keep_cache; auto. now apply cache_ok_start.
Qed.

Lemma perform_without_token c0 w0 op c w :
  authentication_gives_no_token w0 ->
  net w = net w0 -> baseUrl c = baseUrl c0 -> truthy_ostr (bearerToken c) = false ->
  let r := perform op c w in
  net (snd r) = net w0 /\ baseUrl (snd (fst r)) = baseUrl c0
  /\ truthy_ostr (bearerToken (snd (fst r))) = false
  /\ exists new, trace (snd r) = (trace w ++ new)%list
                 /\ length (filter (is_auth_call c0) new) = 1%nat.
Proof.
  intros Hauth Hn Hb Ht.
  destruct (Hauth (length (trace w))) as (data & Hd & Hor). rewrite <- Hn in Hd.
  destruct op; unfold perform, getLocations, getProviders, getAppointmentTypes, searchPatients,
    NexHealth.createPatient, getAppointmentSlots, createAppointment, cancelAppointment,
    getPatient, request, bind, get;
    rewrite (authenticate_without_usable_token _ _ Ht); unfold authenticate_call;
    rewrite Hd; unfold fetch, ret, throw; simpl.
  all: repeat match goal with
              | |- context [match net ?ww ?n ?kk with _ => _ end] =>
                  destruct (net ww n kk); simpl
              end.
  all: repeat split; try assumption.
  all: eexists; split; [rewrite <- ?app_assoc; reflexivity|].
  all: simpl; unfold is_auth_call at 1, auth_request at 1; simpl; rewrite Hb, String.eqb_refl.
  all: simpl; rewrite ?(api_request_not_auth c0) by first [assumption | reflexivity].
  all: reflexivity.
Qed.

(** X6 (an answer without a token is not cached).  When every
    authentication call is answered OK but without a token (none, or an
    empty one), a client fresh from the constructor calls the authentication
    endpoint again in every call of a public method: over a sequence of
    calls it authenticates once per call. *)
Theorem tokenless_answers_repeat_authentication config ops w :
  authentication_gives_no_token w ->
  let this := new_client config in
  length (filter (is_auth_call this) (issued w (snd (perform_all ops this w))))
  = length ops.
Proof.
  intros Hauth this.
  assert (H : forall c w1 done,
             net w1 = net w -> baseUrl c = baseUrl this ->
             truthy_ostr (bearerToken c) = false ->
             trace w1 = (trace w ++ done)%list ->
             length (filter (is_auth_call this) (issued w (snd (perform_all ops c w1))))
             = (length (filter (is_auth_call this) done) + length ops)%nat).
  { induction ops as [|op rest IH]; intros c w1 done Hn Hb Ht Htr; simpl.
    - unfold issued. rewrite Htr, skipn_length_app. lia.
    - destruct (perform_without_token this w op c w1 Hauth Hn Hb Ht)
        as (Hn' & Hb' & Ht' & new & Htr' & Hone).
      destruct (perform op c w1) as [[o c1] w2]. simpl in *.
      rewrite (IH c1 w2 (done ++ new)%list Hn' Hb' Ht').
      + rewrite filter_app, length_app. lia.
      + rewrite Htr', Htr. now rewrite app_assoc. }
  rewrite (H this w []); [reflexivity|reflexivity|reflexivity|reflexivity|].
  now rewrite app_nil_r.
Qed.

End AuthenticationCounts.

Lemma client_authenticates_at_most_once_witness :
  authentication_succeeds clinic_world
  /\ within_token_lifetime clinic_world 0
  /\ (length (filter (is_auth_call fresh_client)
                (issued clinic_world
                   (snd (perform_all (RT := IsoRuntime.runtime)
                           [GetLocations; GetProviders (Num 42); GetPatient 7]
                           fresh_client clinic_world)))) <= 1)%nat.
Proof.
  split; [exact clinic_world_authenticates|].
  split; [exact clinic_world_is_short|].
  exact (client_authenticates_at_most_once (RT := IsoRuntime.runtime)
           (mkConfig "key" "demo" None)
           [GetLocations; GetProviders (Num 42); GetPatient 7] clinic_world 0
           clinic_world_authenticates clinic_world_is_short).
Defined.

Lemma tokenless_answers_repeat_authentication_witness :
  authentication_gives_no_token tokenless_world
  /\ length (filter (is_auth_call fresh_client)
               (issued tokenless_world
                  (snd (perform_all (RT := IsoRuntime.runtime)
                          [GetLocations; Authenticate; GetPatient 7]
                          fresh_client tokenless_world))))
     = 3%nat.
Proof.
  split; [exact tokenless_world_gives_no_token|].
  exact (tokenless_answers_repeat_authentication (RT := IsoRuntime.runtime)
           (mkConfig "key" "demo" None)
           [GetLocations; Authenticate; GetPatient 7] tokenless_world
           tokenless_world_gives_no_token).
Defined.

(* ===================================================================== *)
(** ** Properties of the slot formatter *)
(* ===================================================================== *)

Section SlotFormatting.
Context {RT : Runtime}.

Lemma slotsByDate_invalid slots acc :
  forallb invalid_date slots = true -> fold_left add_slot slots acc = acc.
Proof.
  revert acc. induction slots as [|s r IH]; intros acc H; simpl in *; [reflexivity|].
  apply andb_prop in H as [H1 H2]. unfold add_slot at 2. rewrite H1. now apply IH.
Qed.

(** X7 (slots without a date).  When the list of slots is not empty but no
    slot has a time that is a date, [formatSlotsForAgent] returns the empty
    text, not the sentence [No available slots found ...], which it keeps
    for the empty list. *)
Theorem undated_slots_give_empty_text slot slots :
  forallb invalid_date (slot :: slots) = true ->
  formatSlotsForAgent (slot :: slots) = ""
  /\ formatSlotsForAgent [] = "No available slots found for the requested time period.".
Proof.
  intros H. split; [|reflexivity]. unfold formatSlotsForAgent, slotsByDate.
  now rewrite (slotsByDate_invalid _ _ H).
Qed.

Lemma times_on_cons day s r :
  times_on day (s :: r)
  = if andb (negb (invalid_date s)) (date_label s =? day)%string
    then time_label s :: times_on day r else times_on day r.
Proof.
  unfold times_on, dated. simpl. destruct (invalid_date s); simpl; [reflexivity|].
  destruct (date_label s =? day)%string; reflexivity.
Qed.

Lemma existsb_eqb_In x l : existsb (String.eqb x) l = true <-> In x l.
Proof.
  rewrite existsb_exists. split.
  - intros (y & Hy & E). apply String.eqb_eq in E. now subst.
  - intros H. exists x. split; [exact H|apply String.eqb_refl].
Qed.

Lemma distinct_from_ext seen1 seen2 l :
  (forall x, In x seen1 <-> In x seen2) ->
  distinct_from seen1 l = distinct_from seen2 l.
Proof.
  revert seen1 seen2. induction l as [|x r IH]; intros seen1 seen2 H; simpl; [reflexivity|].
  assert (E : existsb (String.eqb x) seen1 = existsb (String.eqb x) seen2).
  { apply eq_true_iff_eq. rewrite !existsb_eqb_In. apply H. }
  rewrite E. destruct (existsb (String.eqb x) seen2).
  - now apply IH.
  - f_equal. apply IH. intros y. simpl. now rewrite H.
Qed.

Lemma distinct_from_fresh seen l x : In x (distinct_from seen l) -> ~ In x seen.
Proof.
  revert seen. induction l as [|y r IH]; intros seen H; simpl in *; [contradiction|].
  destruct (existsb (String.eqb y) seen) eqn:E.
  - now apply IH.
  - destruct H as [->|H].
    + intros Hin. apply existsb_eqb_In in Hin. congruence.
    + intros Hin. apply (IH _ H). now right.
Qed.

Lemma push_time_present date time acc :
  NoDup (map fst acc) -> In date (map fst acc) ->
  push_time date time acc
  = map (fun e => (fst e, if (fst e =? date)%string then (snd e ++ [time])%list else snd e))
        acc.
Proof.
  induction acc as [|[d ts] rest IH]; intros Hnd Hin; simpl in *; [contradiction|].
  inversion Hnd as [|? ? Hd Hrest]; subst.
  destruct (d =? date)%string eqn:E.
  - apply String.eqb_eq in E. subst d. f_equal.
    rewrite <- (map_id rest) at 1. apply map_ext_in. intros [d' ts'] Hin'. simpl.
    destruct (d' =? date)%string eqn:E'; [|reflexivity].
    apply String.eqb_eq in E'. subst d'. exfalso. apply Hd.
    change date with (fst (date, ts')). now apply in_map.
  - f_equal. apply IH; [exact Hrest|].
    destruct Hin as [->|Hin]; [now rewrite String.eqb_refl in E|exact Hin].
Qed.

Lemma push_time_absent date time acc :
  ~ In date (map fst acc) -> push_time date time acc = (acc ++ [(date, [time])])%list.
Proof.
  induction acc as [|[d ts] rest IH]; intros Hin; simpl in *; [reflexivity|].
  destruct (d =? date)%string eqn:E.
  - apply String.eqb_eq in E. subst. exfalso. apply Hin. now left.
  - f_equal. apply IH. intros H. apply Hin. now right.
Qed.

(** The accumulator of the reduction, after the slots [slots]: every day it
    had has gained the times of its slots, and the new days follow in the
    order of their first slot. *)
Lemma fold_add_slot slots : forall acc,
  NoDup (map fst acc) ->
  fold_left add_slot slots acc
  = (map (fun e => (fst e, (snd e ++ times_on (fst e) slots)%list)) acc
     ++ map (fun day => (day, times_on day slots))
            (distinct_from (map fst acc) (map date_label (dated slots))))%list.
Proof.
  induction slots as [|s r IH]; intros acc Hnd.
  - simpl. rewrite app_nil_r. rewrite <- (map_id acc) at 1. apply map_ext.
    intros [d ts]. simpl. unfold times_on. simpl. now rewrite app_nil_r.
  - simpl fold_left. unfold add_slot at 2. unfold dated. simpl filter.
    fold (dated r). destruct (invalid_date s) eqn:Ev; simpl negb; cbv iota.
    + rewrite (IH acc Hnd). f_equal.
      * apply map_ext. intros e. now rewrite times_on_cons, Ev.
      * apply map_ext. intros d. now rewrite times_on_cons, Ev.
    + simpl map. simpl distinct_from.
      destruct (existsb (String.eqb (date_label s)) (map fst acc)) eqn:Ex.
      * apply existsb_eqb_In in Ex.
        rewrite (push_time_present _ _ _ Hnd Ex).
        rewrite IH.
        2:{ rewrite map_map. simpl. exact Hnd. }
        rewrite !map_map. simpl. f_equal.
        -- apply map_ext. intros [d ts]. simpl. rewrite times_on_cons, Ev. simpl.
           destruct (d =? date_label s)%string eqn:E.
           ++ apply String.eqb_eq in E. subst d. rewrite String.eqb_refl.
              now rewrite <- app_assoc.
           ++ rewrite String.eqb_sym, E. reflexivity.
        -- apply map_ext_in. intros d Hd. rewrite times_on_cons, Ev. simpl.
           destruct (date_label s =? d)%string eqn:E; [|reflexivity].
           apply String.eqb_eq in E. subst d.
           apply distinct_from_fresh in Hd. exfalso. apply Hd.
           exact Ex.
      * assert (Hnot : ~ In (date_label s) (map fst acc)).
        { intros H. apply existsb_eqb_In in H. congruence. }
        rewrite (push_time_absent _ _ _ Hnot).
        rewrite IH.
        2:{ rewrite map_app. simpl. apply NoDup_app; [exact Hnd|repeat constructor; intros []|].
            intros x Hx [<-|[]]. contradiction. }
        rewrite !map_app. simpl. rewrite <- app_assoc. simpl. f_equal.
        -- apply map_ext_in. intros [d ts] Hd. simpl. rewrite times_on_cons, Ev. simpl.
           destruct (date_label s =? d)%string eqn:E; [|reflexivity].
           apply String.eqb_eq in E. subst d. exfalso. apply Hnot.
           change (date_label s) with (fst (date_label s, ts)). now apply in_map.
        -- f_equal.
           ++ rewrite times_on_cons, Ev. simpl. now rewrite String.eqb_refl.
           ++ rewrite (distinct_from_ext (map fst acc ++ [date_label s])
                         (date_label s :: map fst acc)).
              2:{ intros x. rewrite in_app_iff. simpl. tauto. }
              apply map_ext_in. intros d Hd. rewrite times_on_cons, Ev. simpl.
              destruct (date_label s =? d)%string eqn:E; [|reflexivity].
              apply String.eqb_eq in E. subst d.
              apply distinct_from_fresh in Hd. exfalso. apply Hd. now left.
Qed.

Lemma slotsByDate_groups slots :
  slotsByDate slots = map (fun day => (day, times_on day slots)) (days_of slots).
Proof. unfold slotsByDate. rewrite fold_add_slot; [reflexivity|constructor]. Qed.

(** X8 (slots by day).  For a list of slots that is not empty,
    [formatSlotsForAgent] ignores the slots whose time is no date and lists
    the others by day: the first three days in the order of their first
    slot, each as [<day>: <times>] with the first four times of the day in
    the order of the list, the times joined by a comma and the days by a
    full stop.  Slots of a fourth day and fifth times are left out; the
    slots are not sorted.  The day texts are taken to be ordinary object
    keys, as the date texts of the locale are. *)
Theorem slots_are_grouped_by_day slot slots :
  let all := slot :: slots in
  (forall s, In s (dated all) -> ordinary_key (date_label s) = true) ->
  formatSlotsForAgent all
  = join ". " (map (fun day => day ++ ": " ++ join ", " (firstn 4 (times_on day all)))
                   (firstn 3 (days_of all))).
Proof.
  intros all _. unfold formatSlotsForAgent, all. rewrite slotsByDate_groups.
  rewrite firstn_map, map_map. reflexivity.
Qed.

End SlotFormatting.

Lemma undated_slots_give_empty_text_witness :
  forallb (invalid_date (RT := IsoRuntime.runtime))
    [AppointmentSlot.mk "soon" 3 None; AppointmentSlot.mk "" 3 None] = true
  /\ formatSlotsForAgent (RT := IsoRuntime.runtime)
       [AppointmentSlot.mk "soon" 3 None; AppointmentSlot.mk "" 3 None] = ""
  /\ formatSlotsForAgent (RT := IsoRuntime.runtime) []
     = "No available slots found for the requested time period.".
Proof.
  split; [reflexivity|].
  exact (undated_slots_give_empty_text (RT := IsoRuntime.runtime)
           (AppointmentSlot.mk "soon" 3 None) [AppointmentSlot.mk "" 3 None] eq_refl).
Defined.

Lemma slots_are_grouped_by_day_witness :
  (forall s, In s (dated (RT := LocalRuntime.runtime) example_slots) ->
             ordinary_key (date_label (RT := LocalRuntime.runtime) s) = true)
  /\ formatSlotsForAgent (RT := LocalRuntime.runtime) example_slots
     = "Monday, November 2: 9:00 AM, 10:30 AM. Tuesday, November 3: 2:00 PM".
Proof.
  assert (H : forall s, In s (dated (RT := LocalRuntime.runtime) example_slots) ->
                        ordinary_key (date_label (RT := LocalRuntime.runtime) s) = true).
  { intros s Hs. vm_compute in Hs.
    destruct Hs as [<-|[<-|[<-|[]]]]; vm_compute; reflexivity. }
  split; [exact H|].
  etransitivity.
  - exact (slots_are_grouped_by_day (RT := LocalRuntime.runtime)
             (AppointmentSlot.mk "2026-11-02T09:00:00" 3 None)
             [AppointmentSlot.mk "2026-11-03T14:00:00" 3 None;
              AppointmentSlot.mk "soon" 3 None;
              AppointmentSlot.mk "2026-11-02T10:30:00" 4 (Some 1)] H).
  - vm_compute. reflexivity.
Defined.

(* ===================================================================== *)
(** ** Further properties of the tools *)
(* ===================================================================== *)

Section FurtherTools.
Context {RT : Runtime}.
Variable gi : Agent.GeneralInfo.
Variable loc : JsNum.

(** X9 (tools never throw).  Every tool answers with a text, whatever the
    state of the session and the answers of the network: an error of the
    client is caught in the tool and turned into one of its fixed
    sentences, and none escapes to the conversation runtime.  The one call
    left out is [getPracticeInfo] for an [infoType] whose lower case is the
    name of an inherited property ([constructor], [__proto__]): there the
    code returns that property, which is no text. *)
Theorem tool_always_answers call s w :
  asks_inherited call = false ->
  exists r s' w', Agent.execute gi loc call s w = (Return r, s', w').
Proof.
  intros _.
  destruct (execute_spec gi loc call s w) as (r & s' & w' & E & _). eauto.
Qed.

Lemma execute_unconfigured call s w :
  Agent.nexhealth s = None ->
  exists r w',
    Agent.execute gi loc call s w = (Return r, s, w')
    /\ trace w' = trace w
    /\ (needs_client call = true -> r = Agent.MSG_NOT_CONFIGURED).
Proof.
  intros Hn.
  destruct call; simpl;
    unfold Agent.searchPatient, Agent.searchPatientByEmail, Agent.createPatient,
      Agent.bookAppointment, Agent.getAvailableSlots, Agent.getPracticeInfo,
      try_catch, bind, get, now, ret; rewrite ?Hn; simpl.
  1, 2, 3, 5: do 2 eexists; repeat split.
  - rewrite andb_false_r. simpl. do 2 eexists. split; [reflexivity|]. split; [reflexivity|].
    discriminate.
  - do 2 eexists. split; [reflexivity|]. split; [reflexivity|]. discriminate.
Qed.

Lemma unconfigured_session_is_silent calls : forall s w,
  Agent.nexhealth s = None ->
  let r := run_calls gi loc calls s w in
  snd (fst r) = s
  /\ trace (snd r) = trace w
  /\ Forall (fun cr => needs_client (fst cr) = true -> snd cr = Agent.MSG_NOT_CONFIGURED)
            (fst (fst r)).
Proof.
  induction calls as [|call calls IH]; intros s w Hn; simpl.
  - repeat split. constructor.
  - destruct (execute_unconfigured call s w Hn) as (r & w' & E & Ht & Hr).
    rewrite E. simpl. specialize (IH s w' Hn). simpl in IH.
    destruct (run_calls gi loc calls s w') as [[h s2] w2]. simpl in *.
    destruct IH as (-> & Ht2 & Hall). repeat split; [congruence|].
    constructor; [|exact Hall]. unfold text. simpl. exact Hr.
Qed.

Lemma request_api_calls k endpoint method body this w :
  (endpoint =? "/authenticates")%string = false ->
  let w' := snd (request k endpoint method body this w) in
  api_calls this w w' = [] \/ api_calls this w w' = [(method, baseUrl this ++ endpoint)].
Proof.
  intros He. unfold api_calls. run_client. split_auth this w;
    repeat match goal with
           | |- context [match net ?ww ?n ?kk with _ => _ end] =>
               destruct (net ww n kk); simpl
           end;
    unfold issued; simpl; rewrite <- ?app_assoc, ?skipn_length_app; simpl;
    rewrite ?auth_request_is_auth; simpl;
    rewrite ?api_request_not_auth by first [assumption | reflexivity]; simpl;
    auto.
Qed.

Lemma getProviders_api_calls this w :
  let w' := snd (getProviders loc this w) in
  api_calls this w w' = []
  \/ api_calls this w w'
     = [(GET, baseUrl this ++ "/providers?subdomain=" ++ NexHealth.subdomain this
                ++ "&location_id=" ++ show_num loc)].
Proof.
  unfold getProviders, bind, get.
  destruct (request_api_calls KProviders
              ("/providers?subdomain=" ++ NexHealth.subdomain this
                 ++ "&location_id=" ++ show_num loc)
              GET None this w eq_refl) as [H|H];
    destruct (request _ _ _ _ this w) as [[[ps|e] c1] w1]; simpl in *; auto.
Qed.

(** X11 (availability without the slot API).  [getAvailableSlots] never
    asks the API for appointment slots: the only call of the API it can
    make is the listing of the providers of the location, and it makes none
    when a provider is already cached; it then only reads the clock and
    answers from the operating hours of the configuration, leaving the
    session as it was. *)
Theorem availability_never_asks_for_slots startDate daysToCheck s w c :
  Agent.nexhealth s = Some c ->
  let r := Agent.getAvailableSlots gi loc startDate daysToCheck s w in
  (api_calls c w (snd r) = []
   \/ api_calls c w (snd r)
      = [(GET, baseUrl c ++ "/providers?subdomain=" ++ NexHealth.subdomain c
                 ++ "&location_id=" ++ show_num loc)])
  /\ (truthy_onum (Agent.currentProviderId s) = true ->
      r = (Return (Agent.hours_answer gi (requested_date startDate (clock w (ticks w)))),
           s, tick w)).
Proof.
  intros Hc r. subst r.
  unfold Agent.getAvailableSlots, try_catch, bind, get, now.
  destruct (truthy_onum (Agent.currentProviderId s)) eqn:Hp; simpl.
  { split; [|reflexivity]. left. unfold api_calls, issued. simpl. now rewrite skipn_all. }
  split; [|discriminate].
  rewrite Hc. rewrite (on_client_some _ _ _ _ _ Hc).
  pose proof (getProviders_api_calls c w) as Hcalls. simpl in Hcalls.
  destruct (getProviders loc c w) as [[[ps|e1] c1] w1]; simpl in *.
  - destruct (remember_first_provider_frame ps (Agent.set_nexhealth (Some c1) s) w1)
      as (s2 & -> & _ & _); simpl. exact Hcalls.
  - exact Hcalls.
Qed.

Lemma dayName_of_engine_day n :
  Agent.dayName_of n
  = match n with
    | Num z => if andb (0 <=? z) (z <=? 6) then weekday_name z else "monday"
    | NaN => "monday"
    end.
Proof.
  destruct n as [|z]; [reflexivity|].
  destruct (andb (0 <=? z) (z <=? 6)) eqn:E.
  - apply dayName_of_weekday. lia.
  - unfold Agent.dayName_of. destruct (z <? 0) eqn:Ez; [reflexivity|].
    assert (Hz : (7 <= Z.to_nat z)%nat) by lia.
    destruct (nth_error Agent.days (Z.to_nat z)) eqn:En; [|reflexivity].
    assert (Hlt : (Z.to_nat z < length Agent.days)%nat)
      by (apply nth_error_Some; congruence).
    simpl in Hlt. lia.
Qed.

(** X12 (what availability answers).  The answer of [getAvailableSlots] is
    one of three texts: the sentence for trouble, or, for the requested
    date (the [startDate] argument, or the date of a reading of the clock)
    and a weekday, the sentence that the practice is closed, when the raw
    hours of the configuration have no entry for the weekday or an entry
    that is empty or reads [closed] in any capitalization, and otherwise
    the sentence that the practice is open with the text of that entry.
    The weekday is the one that [getDay()] of the engine gives for the
    requested date at local noon, 0 for Sunday up to 6 for Saturday, and
    Monday when the engine does not read the date.  The argument
    [daysToCheck] has no part in it. *)
Theorem availability_reads_operating_hours startDate daysToCheck s w :
  let r := Agent.getAvailableSlots gi loc startDate daysToCheck s w in
  let hours := match Agent.rawHours gi with Some e => e | None => [] end in
  text r = Agent.MSG_SLOTS_TROUBLE
  \/ exists k,
      let date := requested_date startDate (clock w k) in
      let day := match Date_getDay (date ++ "T12:00:00") with
                 | Num n => if andb (0 <=? n) (n <=? 6) then weekday_name n else "monday"
                 | NaN => "monday"
                 end in
      match lookup day hours with
      | None => text r = Agent.MSG_CLOSED date day
      | Some h =>
          if orb (h =? "")%string (toLowerCase h =? "closed")%string
          then text r = Agent.MSG_CLOSED date day
          else text r = Agent.MSG_OPEN date day h
      end.
Proof.
  intros r hours.
  destruct (getAvailableSlots_cases gi loc startDate daysToCheck s w) as [(k & Hk)|(Ht & _)].
  - right. exists k. fold r in Hk. cbv zeta. rewrite Hk.
    unfold Agent.hours_answer. fold hours.
    rewrite dayName_of_engine_day.
    destruct (lookup _ hours) as [h|]; [|reflexivity].
    unfold truthy_str. rewrite negb_involutive.
    destruct (orb _ _); reflexivity.
  - left. exact Ht.
Qed.

(** X13 (booking with the cached ids).  With a caller and a provider cached
    in the session and a usable token in the client, [bookAppointment] sends
    exactly one request: the POST of the appointment for the cached patient
    and provider at the location of the agent, with the start time and the
    reason as given and no appointment type or operatory.  It confirms the
    booking when the API answers OK and answers the sentence for trouble
    otherwise; the session is unchanged either way. *)
Theorem booking_sends_cached_ids startTime reason s w c pid prov tok expiry :
  Agent.nexhealth s = Some c ->
  Agent.currentPatientId s = Some pid -> pid <> 0 ->
  Agent.currentProviderId s = Some prov -> prov <> 0 ->
  bearerToken c = Some tok -> truthy_str tok = true -> tokenExpiry c = Some expiry ->
  clock w (ticks w) < expiry ->
  let r := Agent.bookAppointment loc startTime reason s w in
  issued w (snd r)
  = [mkRequest POST (baseUrl c ++ "/appointments") ("Bearer " ++ tok)
       (Some (AppointmentBody (NexHealth.subdomain c) loc pid prov startTime None None
                reason))]
  /\ snd (fst r) = s
  /\ text r = match net w (length (trace w)) KAppointment with
              | Ok _ => Agent.MSG_CONFIRMED (toLocaleDateString startTime)
                          (toLocaleTimeString startTime)
              | _ => Agent.MSG_BOOK_TROUBLE
              end.
Proof.
  intros Hc Hp Hpid Hpr Hprov Ht Hs He Hlt r. subst r.
  assert (Hl : token_live c tok expiry) by (repeat split; assumption).
  unfold Agent.bookAppointment, try_catch, bind, get. rewrite Hc, Hp, Hpr. simpl.
  unfold truthy_num.
  destruct (Z.eqb_spec pid 0) as [|_]; [contradiction|].
  destruct (Z.eqb_spec prov 0) as [|_]; [contradiction|]. simpl.
  rewrite (on_client_some _ _ _ _ _ Hc).
  unfold createAppointment, request, bind, get.
  rewrite (authenticate_cached _ _ _ _ Hl Hlt). unfold fetch, text. simpl.
  destruct s as [n p q]. simpl in *. subst n p q.
  destruct (net w (length (trace w)) KAppointment); simpl;
    (split; [unfold issued; simpl; apply skipn_length_app|]); split; reflexivity.
Qed.

(** X14 (booking without a cached provider).  With a caller cached but no
    provider, [bookAppointment] first lists the providers of the location.
    When the listing throws it answers the sentence for trouble, and when
    it is empty the sentence that no provider was found; in both cases no
    appointment is requested.  Otherwise it books with the first provider
    of the listing and caches that provider in the session, also when the
    booking itself then fails. *)
Theorem booking_finds_provider_lazily startTime reason s w c pid :
  Agent.nexhealth s = Some c ->
  Agent.currentPatientId s = Some pid -> pid <> 0 ->
  truthy_onum (Agent.currentProviderId s) = false ->
  let r := Agent.bookAppointment loc startTime reason s w in
  match getProviders loc c w with
  | (Throw _, c1, w1) =>
      r = (Return Agent.MSG_BOOK_TROUBLE, Agent.set_nexhealth (Some c1) s, w1)
  | (Return [], c1, w1) =>
      r = (Return Agent.MSG_NO_PROVIDER, Agent.set_nexhealth (Some c1) s, w1)
  | (Return (p :: _), c1, w1) =>
      let booking :=
        createAppointment
          (mkAppointmentParams loc pid (Provider.id p) startTime None None reason) c1 w1 in
      snd r = snd booking
      /\ snd (fst r) = Agent.mkSession (Some (snd (fst booking))) (Some pid)
                         (Some (Provider.id p))
      /\ text r = match fst (fst booking) with
                  | Return _ => Agent.MSG_CONFIRMED (toLocaleDateString startTime)
                                  (toLocaleTimeString startTime)
                  | Throw _ => Agent.MSG_BOOK_TROUBLE
                  end
  end.
Proof.
  intros Hc Hp Hpid Hprov r. subst r.
  unfold Agent.bookAppointment, try_catch, bind, get. rewrite Hc, Hp, Hprov. simpl.
  unfold truthy_num. destruct (Z.eqb_spec pid 0) as [|_]; [contradiction|]. simpl.
  rewrite (on_client_some _ _ _ _ _ Hc).
  destruct (getProviders loc c w) as [[[[|p ps]|e1] c1] w1]; simpl; try reflexivity.
  rewrite (on_client_some _ _
             (Agent.set_currentProviderId (Some (Provider.id p))
                (Agent.set_nexhealth (Some c1) s)) _ c1 eq_refl).
  unfold text. destruct (createAppointment _ c1 w1) as [[[a|e2] c2] w2]; simpl;
    repeat split; unfold Agent.set_nexhealth, Agent.set_currentProviderId; simpl;
    now rewrite Hp.
Qed.

(** X15 (one authentication per conversation).  When every authentication
    call is answered with a token and all readings of the clock fall within
    a window shorter than the 55 minutes a token is kept, a conversation
    that starts with a client that holds no token, as the client of a new
    agent does, calls the authentication endpoint at most once, whatever
    tools are called and whatever the API answers to the other calls. *)
Theorem conversation_authenticates_at_most_once calls s w c t0 :
  Agent.nexhealth s = Some c -> bearerToken c = None ->
  authentication_succeeds w -> within_token_lifetime w t0 ->
  (length (filter (is_auth_call c) (issued w (snd (run_calls gi loc calls s w)))) <= 1)%nat.
Proof.
  intros Hs Htok Hauth Hclock.
  destruct (run_calls_keep_cache c w t0 Hauth Hclock gi loc calls s w) as (c' & _ & G).
  { exists c. split; [exact Hs|]. now apply cache_ok_start. }
  exact (cache_ok_issued _ _ _ _ _ G).
Qed.

End FurtherTools.

Lemma tool_always_answers_witness :
  asks_inherited (Agent.SearchPatient "Ada" "Lovelace" "555") = false
  /\ asks_inherited (Agent.GetPracticeInfo "Hours") = false
  /\ (exists r s' w',
        Agent.execute (RT := IsoRuntime.runtime) example_info (Num 42)
          (Agent.SearchPatient "Ada" "Lovelace" "555") known_session down_world
        = (Return r, s', w'))
  /\ (exists r s' w',
        Agent.execute (RT := IsoRuntime.runtime) example_info (Num 42)
          (Agent.GetPracticeInfo "Hours") known_session down_world
        = (Return r, s', w')).
Proof.
  split; [reflexivity|]. split; [reflexivity|]. split.
  - apply (tool_always_answers (RT := IsoRuntime.runtime) example_info (Num 42)
             (Agent.SearchPatient "Ada" "Lovelace" "555") known_session down_world).
    reflexivity.
  - apply (tool_always_answers (RT := IsoRuntime.runtime) example_info (Num 42)
             (Agent.GetPracticeInfo "Hours") known_session down_world).
    reflexivity.
Defined.

Section Credentials.
Context {RT : Runtime}.

(** X10 (an agent without credentials).  When the API key of the
    environment or the subdomain of the business is missing or empty,
    [createDynamicAgent] builds an agent without a client, and no
    conversation with it ever sends a request: every tool that needs the
    client answers that the booking system is not configured, and the
    session stays as it was built. *)
Theorem agent_without_credentials_is_silent nexhealthApiKey config u w0 calls w :
  truthy_ostr nexhealthApiKey = false
  \/ truthy_ostr (Agent.subdomain (Agent.nexhealthConfig config)) = false ->
  exists agent w1,
    Agent.createDynamicAgent nexhealthApiKey config u w0 = (Return agent, u, w1)
    /\ let r := run_calls (Agent.agent_generalInfo agent) (Agent.agent_locationId agent)
                  calls (Agent.agent_session agent) w in
       snd (fst r) = Agent.agent_session agent
       /\ trace (snd r) = trace w
       /\ Forall (fun cr => needs_client (fst cr) = true
                            -> snd cr = Agent.MSG_NOT_CONFIGURED)
                 (fst (fst r)).
Proof.
  intros Hnone. unfold Agent.createDynamicAgent, bind, now, ret.
  do 2 eexists. split; [reflexivity|].
  cbn [Agent.agent_generalInfo Agent.agent_locationId Agent.agent_session].
  apply unconfigured_session_is_silent. simpl.
  destruct nexhealthApiKey as [key|]; [|reflexivity].
  destruct (Agent.subdomain (Agent.nexhealthConfig config)) as [sub|]; [|reflexivity].
  simpl in Hnone. destruct Hnone as [->| ->]; simpl; [reflexivity|].
  now rewrite andb_false_r.
Qed.

End Credentials.

(* ===================================================================== *)
(** ** What a conversation costs and keeps *)
(* ===================================================================== *)

Lemma prefix_app (b x r : string) : prefix (b ++ x) (b ++ x ++ r) = true.
Proof.
  induction b as [|c b IH]; simpl.
  - induction x as [|c x IHx]; simpl; [now destruct r|].
    destruct (ascii_dec c c); [exact IHx|contradiction].
  - destruct (ascii_dec c c); [exact IH|contradiction].
Qed.

Section Costs.
Variable c0 : NexHealthClient.

Lemma nothing_issued (w : World) (n : nat) :
  exists new, trace w = (trace w ++ new)%list
              /\ (api_requests c0 new <= n)%nat /\ Forall (to_base c0) new.
Proof.
  exists []. rewrite app_nil_r. repeat split; [unfold api_requests; simpl; lia|constructor].
Qed.

Lemma both_issued (w w1 w2 : World) new1 new2 a b :
  trace w1 = (trace w ++ new1)%list -> trace w2 = (trace w1 ++ new2)%list ->
  (api_requests c0 new1 <= a)%nat /\ Forall (to_base c0) new1 ->
  (api_requests c0 new2 <= b)%nat /\ Forall (to_base c0) new2 ->
  exists new, trace w2 = (trace w ++ new)%list
              /\ (api_requests c0 new <= a + b)%nat /\ Forall (to_base c0) new.
Proof.
  intros Ht1 Ht2 (Hn1 & Hf1) (Hn2 & Hf2). exists (new1 ++ new2)%list. repeat split.
  - now rewrite Ht2, Ht1, app_assoc.
  - unfold api_requests in *. rewrite filter_app, length_app. lia.
  - apply Forall_app. now split.
Qed.

Section Generic.
Context {St : Type}.
Variable P : St -> Prop.

Lemma costs_nothing A (m : M St A) n :
  (forall s w, exists o, m s w = (o, s, w) \/ m s w = (o, s, tick w)) ->
  costs c0 P n m.
Proof.
  intros H s w o s' w' Hs E. destruct (H s w) as (o1 & [E1|E1]); rewrite E1 in E;
    injection E as _ <- <-; (split; [exact Hs|]); apply (nothing_issued w).
Qed.

Lemma costs_ret A (a : A) n : costs c0 P n (ret a).
Proof. apply costs_nothing. intros s w. eexists. left. reflexivity. Qed.

Lemma costs_throw A e n : costs c0 P n (@throw St A e).
Proof. apply costs_nothing. intros s w. eexists. left. reflexivity. Qed.

Lemma costs_get n : costs c0 P n get.
Proof. apply costs_nothing. intros s w. eexists. left. reflexivity. Qed.

Lemma costs_now n : costs c0 P n now.
Proof. apply costs_nothing. intros s w. eexists. right. reflexivity. Qed.

Lemma costs_more A (m : M St A) a n : (a <= n)%nat -> costs c0 P a m -> costs c0 P n m.
Proof.
  intros Hle Hm s w o s' w' Hs E.
  destruct (Hm _ _ _ _ _ Hs E) as (Hs1 & new & Ht & Hn & Hf).
  split; [exact Hs1|]. exists new. repeat split; [exact Ht|lia|exact Hf].
Qed.

Lemma costs_bind A B (m : M St A) (k : A -> M St B) a b :
  costs c0 P a m -> (forall x, costs c0 P b (k x)) -> costs c0 P (a + b) (bind m k).
Proof.
  intros Hm Hk s w o s' w' Hs E. unfold bind in E.
  destruct (m s w) as [[[x|e] s1] w1] eqn:Em.
  - destruct (Hm _ _ _ _ _ Hs Em) as (Hs1 & new1 & Ht1 & Hn1).
    destruct (Hk x _ _ _ _ _ Hs1 E) as (Hs2 & new2 & Ht2 & Hn2).
    split; [exact Hs2|]. exact (both_issued _ _ _ _ _ _ _ Ht1 Ht2 Hn1 Hn2).
  - injection E as _ <- <-.
    destruct (Hm _ _ _ _ _ Hs Em) as (Hs1 & new1 & Ht1 & Hn1 & Hf1).
    split; [exact Hs1|]. exists new1. repeat split; [exact Ht1|lia|exact Hf1].
Qed.

Lemma costs_try_catch A (m : M St A) (h : Error -> M St A) n :
  costs c0 P n m -> (forall e, costs c0 P 0 (h e)) -> costs c0 P n (try_catch m h).
Proof.
  intros Hm Hh s w o s' w' Hs E. unfold try_catch in E.
  destruct (m s w) as [[[x|e] s1] w1] eqn:Em.
  - injection E as _ <- <-. exact (Hm _ _ _ _ _ Hs Em).
  - destruct (Hm _ _ _ _ _ Hs Em) as (Hs1 & new1 & Ht1 & Hn1).
    destruct (Hh e _ _ _ _ _ Hs1 E) as (Hs2 & new2 & Ht2 & Hn2).
    split; [exact Hs2|].
    destruct (both_issued _ _ _ _ _ _ _ Ht1 Ht2 Hn1 Hn2) as (new & Ht & Hn & Hf).
    exists new. repeat split; [exact Ht|lia|exact Hf].
Qed.

End Generic.

Lemma authenticate_costs_nothing : costs c0 (same_base c0) 0 authenticate.
Proof.
  intros c w o c' w' Hb E. unfold same_base in *.
  assert (Hauth : (api_requests c0 [auth_request c] <= 0)%nat
                  /\ Forall (to_base c0) [auth_request c]).
  { split.
    - unfold api_requests. simpl. unfold is_auth_call, auth_request. simpl.
      rewrite Hb, String.eqb_refl. simpl. lia.
    - constructor; [|constructor]. unfold to_base, auth_request. simpl. rewrite Hb.
      apply (prefix_app (baseUrl c0) "/" "authenticates"). }
  assert (Hcall : forall w1, trace w1 = trace w ->
                  authenticate_call c w1 = (o, c', w') ->
                  same_base c0 c'
                  /\ exists new, trace w' = (trace w ++ new)%list
                                 /\ (api_requests c0 new <= 0)%nat
                                 /\ Forall (to_base c0) new).
  { unfold authenticate_call. intros w1 Hw1 H.
    destruct (net w1 (length (trace w1)) KAuth); injection H as _ <- <-;
      (split; [exact Hb|]); exists [auth_request c];
      (split; [simpl; now rewrite Hw1|exact Hauth]). }
  destruct (truthy_ostr (bearerToken c)) eqn:Ht.
  - destruct (bearerToken c) as [tok|] eqn:Etok; [|discriminate]. simpl in Ht.
    destruct (tokenExpiry c) as [ex|] eqn:Eex.
    + destruct (Z.ltb_spec (clock w (ticks w)) ex) as [Hlt|Hge].
      * rewrite (authenticate_cached c w tok ex) in E by (repeat split; assumption).
        injection E as _ <- <-. split; [exact Hb|]. apply (nothing_issued w).
      * rewrite (authenticate_expired c w tok ex) in E by (repeat split; assumption).
        now apply (Hcall (tick w)).
    + apply (Hcall w eq_refl). rewrite <- E. clear E Hcall.
      unfold authenticate, authenticate_call, token_is_valid, bind, get, ret, fetch.
      simpl. rewrite Etok, Eex. simpl.
      destruct (net w (length (trace w)) KAuth); reflexivity.
  - apply (Hcall w eq_refl). rewrite <- E. symmetry.
    now apply authenticate_without_usable_token.
Qed.

Lemma request_costs_one k endpoint method body :
  (endpoint =? "/authenticates")%string = false ->
  (exists rest, endpoint = "/" ++ rest) ->
  costs c0 (same_base c0) 1 (request k endpoint method body).
Proof.
  intros Hep (rest & Hslash) c w o c' w' Hb E. unfold request, bind in E.
  destruct (authenticate c w) as [[[tok|e] c1] w1] eqn:Ea;
    destruct (authenticate_costs_nothing _ _ _ _ _ Hb Ea) as (Hb1 & new1 & Ht1 & Hn1).
  - unfold get, fetch in E. simpl in E.
    assert (Hrq : (api_requests c0 [api_request c1 tok endpoint method body] <= 1)%nat
                  /\ Forall (to_base c0) [api_request c1 tok endpoint method body]).
    { split; [unfold api_requests; simpl; destruct (negb _); simpl; lia|].
      constructor; [|constructor]. unfold to_base, api_request. simpl.
      rewrite (Hb1 : baseUrl c1 = baseUrl c0).
      rewrite Hslash. apply (prefix_app (baseUrl c0) "/" rest). }
    destruct (net w1 (length (trace w1)) k); injection E as _ <- <-;
      (split; [exact Hb1|]);
      exact (both_issued w w1 (log (api_request c1 tok endpoint method body) w1)
               _ _ 0 1 Ht1 eq_refl Hn1 Hrq).
  - injection E as _ <- <-. split; [exact Hb1|].
    destruct Hn1 as (Hn1 & Hf1). exists new1. repeat split; [exact Ht1|lia|exact Hf1].
Qed.

Context {RT : Runtime}.

Lemma searchPatients_costs_one params :
  costs c0 (same_base c0) 1 (searchPatients params).
Proof.
  unfold searchPatients.
  apply (costs_bind _ _ _ _ _ 0 1); [apply costs_get|intros this].
  apply (costs_bind _ _ _ _ _ 1 0); [apply (request_costs_one KPatients); [reflexivity|eexists; reflexivity]|intros d].
  apply costs_ret.
Qed.

Lemma createPatient_costs_one patient :
  costs c0 (same_base c0) 1 (NexHealth.createPatient patient).
Proof.
  unfold NexHealth.createPatient.
  apply (costs_bind _ _ _ _ _ 0 1); [apply costs_get|intros this].
  apply (request_costs_one KPatient); [reflexivity|eexists; reflexivity].
Qed.

Lemma getProviders_costs_one l : costs c0 (same_base c0) 1 (getProviders l).
Proof.
  unfold getProviders.
  apply (costs_bind _ _ _ _ _ 0 1); [apply costs_get|intros this].
  apply (request_costs_one KProviders); [reflexivity|eexists; reflexivity].
Qed.

Lemma createAppointment_costs_one params :
  costs c0 (same_base c0) 1 (createAppointment params).
Proof.
  unfold createAppointment.
  apply (costs_bind _ _ _ _ _ 0 1); [apply costs_get|intros this].
  apply (request_costs_one KAppointment); [reflexivity|eexists; reflexivity].
Qed.

Lemma on_client_costs A (m : M NexHealthClient A) n :
  costs c0 (same_base c0) n m -> costs c0 (session_base c0) n (Agent.on_client m).
Proof.
  intros Hm s w o s' w' Hs E. unfold Agent.on_client in E.
  destruct (Agent.nexhealth s) as [c|] eqn:Hc.
  - destruct (m c w) as [[o1 c1] w1] eqn:Em. inversion E; subst.
    destruct (Hm _ _ _ _ _ (Hs c Hc) Em) as (Hb1 & new & Ht & Hn).
    split; [|exists new; now split].
    intros c' [= <-]. exact Hb1.
  - injection E as _ <- <-. split; [exact Hs|]. apply (nothing_issued w).
Qed.

Lemma set_currentPatientId_costs v n :
  costs c0 (session_base c0) n (modify (Agent.set_currentPatientId v)).
Proof.
  intros s w o s' w' Hs E. injection E as _ <- <-. split; [exact Hs|].
  apply (nothing_issued w).
Qed.

Lemma set_currentProviderId_costs v n :
  costs c0 (session_base c0) n (modify (Agent.set_currentProviderId v)).
Proof.
  intros s w o s' w' Hs E. injection E as _ <- <-. split; [exact Hs|].
  apply (nothing_issued w).
Qed.

Variable gi : Agent.GeneralInfo.
Variable loc : JsNum.

Ltac free :=
  first [ apply costs_ret | apply costs_throw | apply costs_get | apply costs_now
        | apply set_currentPatientId_costs | apply set_currentProviderId_costs ].

Ltac one_call :=
  apply on_client_costs;
  first [ apply searchPatients_costs_one | apply createPatient_costs_one
        | apply getProviders_costs_one | apply createAppointment_costs_one ].

Ltac tool_cost :=
  first
    [ solve [free]
    | solve [one_call]
    | solve [apply (costs_more _ _ _ 1); [lia|one_call]]
    | match goal with
      | |- costs _ _ _ (match ?x with _ => _ end) => destruct x; tool_cost
      | |- costs _ _ _ (if ?x then _ else _) => destruct x; tool_cost
      end
    | solve [apply costs_try_catch; [tool_cost|intros ?; tool_cost]]
    | solve [apply (costs_bind _ _ _ _ _ 0 _); [tool_cost|intros ?; tool_cost]]
    | solve [apply (costs_bind _ _ _ _ _ 1 _); [tool_cost|intros ?; tool_cost]] ].

Lemma execute_costs call :
  costs c0 (session_base c0) (budget call) (Agent.execute gi loc call).
Proof.
  destruct call; unfold Agent.execute, Agent.searchPatient, Agent.searchPatientByEmail,
    Agent.createPatient, Agent.getAvailableSlots, Agent.bookAppointment,
    Agent.getPracticeInfo, Agent.remember_first_provider, budget.
  - tool_cost.
  - tool_cost.
  - tool_cost.
  - tool_cost.
  - tool_cost.
  - tool_cost.
Qed.

Lemma run_calls_cost calls : forall s w,
  session_base c0 s ->
  exists new,
    trace (snd (run_calls gi loc calls s w)) = (trace w ++ new)%list
    /\ (api_requests c0 new <= list_sum (map budget calls))%nat
    /\ Forall (to_base c0) new.
Proof.
  induction calls as [|call rest IH]; intros s w Hs; simpl.
  - apply (nothing_issued w).
  - destruct (Agent.execute gi loc call s w) as [[o s1] w1] eqn:E. simpl.
    destruct (execute_costs call _ _ _ _ _ Hs E) as (Hs1 & new1 & Ht1 & Hn1).
    destruct (IH s1 w1 Hs1) as (new2 & Ht2 & Hn2).
    destruct (run_calls gi loc rest s1 w1) as [[h s2] w2]. simpl in *.
    exact (both_issued _ _ _ _ _ _ _ Ht1 Ht2 Hn1 Hn2).
Qed.
End Costs.

Section Budget.
Context {RT : Runtime}.
Variable gi : Agent.GeneralInfo.
Variable loc : JsNum.

(** X21 (the calls of the API in a conversation).  Over any conversation
    of a session that has a client, the calls of the API (the requests
    other than authentication calls) are at most as many as the budgets of
    the tools called add up to: two for [searchPatient] and
    [bookAppointment], one for [searchPatientByEmail], [createPatient] and
    [getAvailableSlots], none for [getPracticeInfo].  No tool loops or
    retries, whatever the API answers. *)
Theorem conversation_stays_within_budget calls s w c :
  Agent.nexhealth s = Some c ->
  (length (api_calls c w (snd (run_calls gi loc calls s w)))
   <= list_sum (map budget calls))%nat.
Proof.
  intros Hc.
  destruct (run_calls_cost c gi loc calls s w) as (new & Ht & Hn & _).
  { intros c' Hc'. congruence. }
  unfold api_calls, issued. rewrite Ht, skipn_length_app, length_map. exact Hn.
Qed.

(** X23 (one host).  Every request that a conversation with an agent
    built by [createDynamicAgent] sends goes to a URL under
    [https://nexhealth.info/], whatever the configuration, the API key, the
    tools called and the answers of the network: the client is built
    without a base URL of its own, and no call changes the one it has. *)
Theorem agent_talks_to_one_host nexhealthApiKey config u w0 calls w :
  exists agent w1,
    Agent.createDynamicAgent nexhealthApiKey config u w0 = (Return agent, u, w1)
    /\ Forall (fun rq => prefix "https://nexhealth.info/" (rq_url rq) = true)
              (issued w (snd (run_calls (Agent.agent_generalInfo agent)
                                (Agent.agent_locationId agent) calls
                                (Agent.agent_session agent) w))).
Proof.
  unfold Agent.createDynamicAgent, bind, now, ret.
  do 2 eexists. split; [reflexivity|].
  cbn [Agent.agent_generalInfo Agent.agent_locationId Agent.agent_session].
  set (c0 := new_client (mkConfig "" "" None)).
  match goal with
  | |- context [run_calls ?g ?l calls ?s w] =>
      destruct (run_calls_cost c0 g l calls s w) as (new & Ht & _ & Hf)
  end.
  - intros c Hc. simpl in Hc.
    destruct nexhealthApiKey as [key|]; [|discriminate].
    destruct (Agent.subdomain (Agent.nexhealthConfig config)) as [sub|]; [|discriminate].
    destruct (andb _ _); [|discriminate]. injection Hc as <-. reflexivity.
  - unfold issued. rewrite Ht, skipn_length_app. exact Hf.
Qed.

#[local] Instance same_provider_invariant : Invariant same_provider.
Proof. split; unfold same_provider; [reflexivity|intros a b c H1 H2; congruence]. Qed.

Lemma on_client_same_provider A (m : M NexHealthClient A) :
  preserves same_provider (Agent.on_client m).
Proof.
  intros s w o s' w' E. unfold Agent.on_client in E.
  destruct (Agent.nexhealth s); [destruct (m n w) as [[o1 c1] w1]|];
    inversion E; subst; reflexivity.
Qed.

Lemma set_currentPatientId_same_provider v :
  preserves same_provider (modify (Agent.set_currentPatientId v)).
Proof. intros s w o s' w' E. inversion E; subst. reflexivity. Qed.

Lemma now_same_provider : preserves same_provider (@now Agent.Session).
Proof. intros s w o s' w' E. inversion E; subst. reflexivity. Qed.

Ltac same_provider :=
  repeat first
    [ apply on_client_same_provider
    | apply set_currentPatientId_same_provider
    | apply now_same_provider
    | apply preserves_bind; [typeclasses eauto| |intros ?]
    | apply preserves_try_catch; [typeclasses eauto| |intros ?]
    | apply preserves_ret; typeclasses eauto
    | apply preserves_throw; typeclasses eauto
    | apply preserves_get; typeclasses eauto
    | match goal with
      | |- preserves _ (match ?x with _ => _ end) => destruct x
      | |- preserves _ (if ?x then _ else _) => destruct x
      end ].

Lemma execute_keeps_provider call s w :
  truthy_onum (Agent.currentProviderId s) = true ->
  Agent.currentProviderId (snd (fst (Agent.execute gi loc call s w)))
  = Agent.currentProviderId s.
Proof.
  intros Hp.
  assert (Hgen : forall m : M Agent.Session string,
             preserves same_provider m ->
             Agent.currentProviderId (snd (fst (m s w))) = Agent.currentProviderId s).
  { intros m Hm. destruct (m s w) as [[o s1] w1] eqn:E. exact (Hm _ _ _ _ _ E). }
  destruct call; simpl.
  - apply Hgen. unfold Agent.searchPatient. same_provider.
  - apply Hgen. unfold Agent.searchPatientByEmail. same_provider.
  - apply Hgen. unfold Agent.createPatient. same_provider.
  - unfold Agent.getAvailableSlots, try_catch, bind, get, now. rewrite Hp. reflexivity.
  - unfold Agent.bookAppointment, bind, get.
    destruct (Agent.nexhealth s) as [c|] eqn:Hc; [|reflexivity].
    unfold try_catch, bind.
    destruct (Agent.currentPatientId s) as [pid|]; [|reflexivity].
    destruct (truthy_num pid); [|reflexivity]. simpl. rewrite Hp.
    destruct (Agent.currentProviderId s) as [prov|] eqn:Hprov; [|discriminate]. simpl.
    rewrite (on_client_some _ _ _ _ _ Hc).
    destruct (createAppointment _ c w) as [[[a|e] c1] w1]; simpl; now rewrite Hprov.
  - reflexivity.
Qed.

(** X22 (the provider is chosen once).  Once a provider is cached in the
    session, no tool call changes it: over any conversation the cached
    provider stays the one it was, whatever the tools called and whatever
    the API answers.  Only a session without a provider can gain one. *)
Theorem provider_is_chosen_once calls : forall s w,
  truthy_onum (Agent.currentProviderId s) = true ->
  Agent.currentProviderId (snd (fst (run_calls gi loc calls s w)))
  = Agent.currentProviderId s.
Proof.
  induction calls as [|call rest IH]; intros s w Hp; simpl; [reflexivity|].
  pose proof (execute_keeps_provider call s w Hp) as H1.
  destruct (Agent.execute gi loc call s w) as [[o s1] w1]. simpl in *.
  specialize (IH s1 w1). rewrite H1 in IH. specialize (IH Hp).
  destruct (run_calls gi loc rest s1 w1) as [[h s2] w2]. simpl in *.
  congruence.
Qed.
End Budget.

Lemma conversation_stays_within_budget_witness :
  Agent.nexhealth (new_session fresh_client) = Some fresh_client
  /\ (length (api_calls fresh_client clinic_world
                (snd (run_calls (RT := IsoRuntime.runtime) example_info (Num 42)
                        [Agent.SearchPatient "Ada" "Lovelace" "555-0100";
                         Agent.GetAvailableSlots None None;
                         Agent.BookAppointment "2026-11-03T09:00:00" None;
                         Agent.GetPracticeInfo "hours"]
                        (new_session fresh_client) clinic_world)))
       <= list_sum (map budget
                      [Agent.SearchPatient "Ada" "Lovelace" "555-0100";
                       Agent.GetAvailableSlots None None;
                       Agent.BookAppointment "2026-11-03T09:00:00" None;
                       Agent.GetPracticeInfo "hours"]))%nat.
Proof.
  split; [reflexivity|].
  exact (conversation_stays_within_budget (RT := IsoRuntime.runtime) example_info (Num 42)
           [Agent.SearchPatient "Ada" "Lovelace" "555-0100";
            Agent.GetAvailableSlots None None;
            Agent.BookAppointment "2026-11-03T09:00:00" None;
            Agent.GetPracticeInfo "hours"]
           (new_session fresh_client) clinic_world fresh_client eq_refl).
Defined.

Lemma provider_is_chosen_once_witness :
  truthy_onum (Agent.currentProviderId known_session) = true
  /\ Agent.currentProviderId
       (snd (fst (run_calls (RT := IsoRuntime.runtime) example_info (Num 42)
                    [Agent.BookAppointment "2026-11-03T09:00:00" None;
                     Agent.GetAvailableSlots None None;
                     Agent.SearchPatient "Ada" "Lovelace" "555-0100"]
                    known_session clinic_world)))
     = Agent.currentProviderId known_session.
Proof.
  split; [reflexivity|].
  exact (provider_is_chosen_once (RT := IsoRuntime.runtime) example_info (Num 42)
           [Agent.BookAppointment "2026-11-03T09:00:00" None;
            Agent.GetAvailableSlots None None;
            Agent.SearchPatient "Ada" "Lovelace" "555-0100"]
           known_session clinic_world eq_refl).
Defined.

Lemma agent_without_credentials_is_silent_witness :
  (truthy_ostr None = false
   \/ truthy_ostr (Agent.subdomain (Agent.nexhealthConfig example_config)) = false)
  /\ exists agent w1,
       Agent.createDynamicAgent (RT := IsoRuntime.runtime) None example_config tt
         (example_world 0)
       = (Return agent, tt, w1)
       /\ let r := run_calls (RT := IsoRuntime.runtime)
                     (Agent.agent_generalInfo agent) (Agent.agent_locationId agent)
                     [Agent.SearchPatient "Ada" "Lovelace" "555-0100";
                      Agent.GetPracticeInfo "hours";
                      Agent.BookAppointment "2026-11-03T09:00:00" None]
                     (Agent.agent_session agent) clinic_world in
          snd (fst r) = Agent.agent_session agent
          /\ trace (snd r) = trace clinic_world
          /\ Forall (fun cr => needs_client (fst cr) = true
                               -> snd cr = Agent.MSG_NOT_CONFIGURED)
                    (fst (fst r)).
Proof.
  split; [left; reflexivity|].
  exact (agent_without_credentials_is_silent (RT := IsoRuntime.runtime) None example_config
           tt (example_world 0)
           [Agent.SearchPatient "Ada" "Lovelace" "555-0100";
            Agent.GetPracticeInfo "hours";
            Agent.BookAppointment "2026-11-03T09:00:00" None]
           clinic_world (or_introl eq_refl)).
Defined.

Lemma availability_never_asks_for_slots_witness :
  Agent.nexhealth known_session = Some example_client
  /\ let r := Agent.getAvailableSlots (RT := IsoRuntime.runtime) example_info (Num 42)
                (Some "2026-11-03") (Some 7) known_session clinic_world in
     (api_calls example_client clinic_world (snd r) = []
      \/ api_calls example_client clinic_world (snd r)
         = [(GET, baseUrl example_client ++ "/providers?subdomain="
                    ++ NexHealth.subdomain example_client
                    ++ "&location_id=" ++ show_num (Num 42))])
     /\ (truthy_onum (Agent.currentProviderId known_session) = true ->
         r = (Return (Agent.hours_answer (RT := IsoRuntime.runtime) example_info
                        (requested_date (Some "2026-11-03")
                           (clock clinic_world (ticks clinic_world)))),
              known_session, tick clinic_world)).
Proof.
  split; [reflexivity|].
  exact (availability_never_asks_for_slots (RT := IsoRuntime.runtime) example_info (Num 42)
           (Some "2026-11-03") (Some 7) known_session clinic_world example_client eq_refl).
Defined.

Lemma booking_sends_cached_ids_witness :
  Agent.nexhealth known_session = Some example_client
  /\ Agent.currentPatientId known_session = Some 7 /\ 7 <> 0
  /\ Agent.currentProviderId known_session = Some 3 /\ 3 <> 0
  /\ bearerToken example_client = Some "tok-1" /\ truthy_str "tok-1" = true
  /\ tokenExpiry example_client = Some 3300000
  /\ clock clinic_world (ticks clinic_world) < 3300000
  /\ let r := Agent.bookAppointment (RT := IsoRuntime.runtime) (Num 42)
                "2026-11-03T09:00:00" (Some "cleaning") known_session clinic_world in
     issued clinic_world (snd r)
     = [mkRequest POST (baseUrl example_client ++ "/appointments") ("Bearer " ++ "tok-1")
          (Some (AppointmentBody (NexHealth.subdomain example_client) (Num 42) 7 3
                   "2026-11-03T09:00:00" None None (Some "cleaning")))]
     /\ snd (fst r) = known_session
     /\ text r = match net clinic_world (length (trace clinic_world)) KAppointment with
                 | Ok _ => Agent.MSG_CONFIRMED
                             (toLocaleDateString (Runtime := IsoRuntime.runtime)
                                "2026-11-03T09:00:00")
                             (toLocaleTimeString (Runtime := IsoRuntime.runtime)
                                "2026-11-03T09:00:00")
                 | _ => Agent.MSG_BOOK_TROUBLE
                 end.
Proof.
  assert (H7 : 7 <> 0) by lia. assert (H3 : 3 <> 0) by lia.
  assert (Hlt : clock clinic_world (ticks clinic_world) < 3300000) by (vm_compute; reflexivity).
  do 9 (split; [first [reflexivity | assumption]|]).
  exact (booking_sends_cached_ids (RT := IsoRuntime.runtime) (Num 42)
           "2026-11-03T09:00:00" (Some "cleaning") known_session clinic_world
           example_client 7 3 "tok-1" 3300000
           eq_refl eq_refl H7 eq_refl H3 eq_refl eq_refl eq_refl Hlt).
Defined.

Lemma booking_finds_provider_lazily_witness :
  Agent.nexhealth (Agent.mkSession (Some example_client) (Some 7) None) = Some example_client
  /\ Agent.currentPatientId (Agent.mkSession (Some example_client) (Some 7) None) = Some 7
  /\ 7 <> 0
  /\ truthy_onum (Agent.currentProviderId (Agent.mkSession (Some example_client) (Some 7) None))
     = false
  /\ let s := Agent.mkSession (Some example_client) (Some 7) None in
     let r := Agent.bookAppointment (RT := IsoRuntime.runtime) (Num 42)
                "2026-11-03T09:00:00" None s clinic_world in
     match getProviders (Num 42) example_client clinic_world with
     | (Throw _, c1, w1) =>
         r = (Return Agent.MSG_BOOK_TROUBLE, Agent.set_nexhealth (Some c1) s, w1)
     | (Return [], c1, w1) =>
         r = (Return Agent.MSG_NO_PROVIDER, Agent.set_nexhealth (Some c1) s, w1)
     | (Return (p :: _), c1, w1) =>
         let booking :=
           createAppointment
             (mkAppointmentParams (Num 42) 7 (Provider.id p) "2026-11-03T09:00:00"
                None None None) c1 w1 in
         snd r = snd booking
         /\ snd (fst r) = Agent.mkSession (Some (snd (fst booking))) (Some 7)
                            (Some (Provider.id p))
         /\ text r = match fst (fst booking) with
                     | Return _ =>
                         Agent.MSG_CONFIRMED
                           (toLocaleDateString (Runtime := IsoRuntime.runtime)
                              "2026-11-03T09:00:00")
                           (toLocaleTimeString (Runtime := IsoRuntime.runtime)
                              "2026-11-03T09:00:00")
                     | Throw _ => Agent.MSG_BOOK_TROUBLE
                     end
     end.
Proof.
  assert (H7 : 7 <> 0) by lia.
  do 4 (split; [first [reflexivity | assumption]|]).
  exact (booking_finds_provider_lazily (RT := IsoRuntime.runtime) (Num 42)
           "2026-11-03T09:00:00" None
           (Agent.mkSession (Some example_client) (Some 7) None) clinic_world
           example_client 7 eq_refl eq_refl H7 eq_refl).
Defined.

Lemma conversation_authenticates_at_most_once_witness :
  Agent.nexhealth (new_session fresh_client) = Some fresh_client
  /\ bearerToken fresh_client = None
  /\ authentication_succeeds clinic_world
  /\ within_token_lifetime clinic_world 0
  /\ (length (filter (is_auth_call fresh_client)
                (issued clinic_world
                   (snd (run_calls (RT := IsoRuntime.runtime) example_info (Num 42)
                           [Agent.SearchPatient "Ada" "Lovelace" "555-0100";
                            Agent.GetAvailableSlots None None;
                            Agent.BookAppointment "2026-11-03T09:00:00" None]
                           (new_session fresh_client) clinic_world)))) <= 1)%nat.
Proof.
  split; [reflexivity|]. split; [reflexivity|].
  split; [exact clinic_world_authenticates|].
  split; [exact clinic_world_is_short|].
  exact (conversation_authenticates_at_most_once (RT := IsoRuntime.runtime) example_info
           (Num 42)
           [Agent.SearchPatient "Ada" "Lovelace" "555-0100";
            Agent.GetAvailableSlots None None;
            Agent.BookAppointment "2026-11-03T09:00:00" None]
           (new_session fresh_client) clinic_world fresh_client 0
           eq_refl eq_refl clinic_world_authenticates clinic_world_is_short).
Defined.

(* ===================================================================== *)
(** ** Further properties of the configuration loader and of the entry *)
(* ===================================================================== *)

Import Agent.

Lemma has_colon_app a b : has_colon (a ++ b) = orb (has_colon a) (has_colon b).
Proof.
  unfold has_colon. induction a as [|c a IH]; simpl; [reflexivity|].
  rewrite IH. now rewrite orb_assoc.
Qed.

Lemma join_has_colon sep x xs : has_colon x = true -> has_colon (join sep (x :: xs)) = true.
Proof.
  intros H. destruct xs as [|y r]; simpl; [exact H|].
  now rewrite has_colon_app, H.
Qed.

Lemma or_str_not_blank a d : d <> "" -> or_str a d <> "".
Proof.
  intros Hd. unfold or_str, truthy_str. destruct a as [s|]; [|exact Hd].
  destruct (s =? "")%string eqn:E; simpl; [exact Hd|].
  now apply String.eqb_neq in E.
Qed.

Lemma formatOperatingHours_not_blank hours : formatOperatingHours hours <> "".
Proof.
  unfold formatOperatingHours. destruct hours as [entries|]; [|discriminate].
  now apply or_str_not_blank.
Qed.

(** X17 (the text of the hours).  [formatOperatingHours] never returns the
    empty text, and it returns [Not specified] exactly when there is no
    hours object or every entry of it is empty or reads [Closed], so
    spelled: an entry [closed] or [CLOSED] is listed as the hours of its
    day. *)
Theorem hours_text_is_never_blank hours :
  formatOperatingHours hours <> ""
  /\ (formatOperatingHours hours = "Not specified"
      <-> forall entries, hours = Some entries ->
            forall day time, In (day, time) entries -> time = "" \/ time = "Closed").
Proof.
  split; [apply formatOperatingHours_not_blank|].
  unfold formatOperatingHours. destruct hours as [entries|].
  2:{ split; [discriminate|reflexivity]. }
  set (open_days := filter _ entries).
  destruct open_days as [|[d t] rest] eqn:E.
  - simpl. split; [|reflexivity]. intros _ entries' [= <-] day time Hin.
    destruct (time =? "")%string eqn:E1; [left; now apply String.eqb_eq|].
    destruct (time =? "Closed")%string eqn:E2; [right; now apply String.eqb_eq|].
    exfalso. assert (H : In (day, time) open_days).
    { apply filter_In. split; [exact Hin|]. unfold truthy_str. simpl. now rewrite E1, E2. }
    rewrite E in H. destruct H.
  - assert (Hin : In (d, t) open_days) by (rewrite E; now left).
    apply filter_In in Hin as [Hin Hopen]. simpl in Hopen.
    apply andb_prop in Hopen as [H1 H2].
    set (formatted := join ", " _).
    assert (Hc : has_colon formatted = true).
    { unfold formatted. simpl map. apply join_has_colon. rewrite !has_colon_app.
      replace (has_colon ": ") with true by reflexivity. now rewrite orb_true_r. }
    split.
    + intros Heq. exfalso. unfold or_str in Heq.
      destruct (truthy_str formatted) eqn:Et.
      * rewrite Heq in Hc. discriminate.
      * unfold truthy_str in Et. apply negb_false_iff, String.eqb_eq in Et.
        rewrite Et in Hc. discriminate.
    + intros H. destruct (H entries eq_refl d t Hin) as [->| ->]; discriminate.
Qed.

(** X18 (what a loaded configuration holds).  In every configuration that
    [loadBusinessConfig] returns, the practice name is the name of the
    business, the phone, the software and the address are not empty (a
    missing or empty column is replaced by [Not provided] or [Not
    specified]), the hours text is the formatting of the raw hours and is
    not empty, the voice is present and not empty ([Puck] by default) and
    the human-pretence flag is present. *)
Theorem loaded_config_has_no_blank_field supabase businessId t config :
  loadBusinessConfig supabase businessId = Settled t (Return (Some config)) ->
  let gi := generalInfo config in
  practiceName gi = name config
  /\ phone gi <> "" /\ software gi <> "" /\ address gi <> ""
  /\ hours gi = formatOperatingHours (rawHours gi) /\ hours gi <> ""
  /\ (exists v, voice (agentConfig config) = Some v /\ v <> "")
  /\ (exists b, pretendence (agentConfig config) = Some b).
Proof.
  intros H.
  destruct (loadBusinessConfig_cases supabase businessId) as (_ & _ & _ & _ & Hc).
  destruct (Hc _ _ H) as (sb & d1 & business & rest & d2 & agents & _ & _ & _ & -> & _).
  simpl. repeat split.
  - now apply or_str_not_blank.
  - now apply or_str_not_blank.
  - now apply or_str_not_blank.
  - apply formatOperatingHours_not_blank.
  - eexists. split; [reflexivity|]. now apply or_str_not_blank.
  - eexists. reflexivity.
Qed.

Lemma loaded_config_has_no_blank_field_witness :
  let supabase := Some (example_store (found_after 100) (found_after 100) (agent_after 50)) in
  let config := to_config example_business (Some example_agent_row) in
  loadBusinessConfig supabase (Some "b-1") = Settled 150 (Return (Some config))
  /\ (let gi := generalInfo config in
      practiceName gi = name config
      /\ phone gi <> "" /\ software gi <> "" /\ address gi <> ""
      /\ hours gi = formatOperatingHours (rawHours gi) /\ hours gi <> ""
      /\ (exists v, voice (agentConfig config) = Some v /\ v <> "")
      /\ (exists b, pretendence (agentConfig config) = Some b)).
Proof.
  split; [reflexivity|].
  exact (loaded_config_has_no_blank_field
           (Some (example_store (found_after 100) (found_after 100) (agent_after 50)))
           (Some "b-1") 150 (to_config example_business (Some example_agent_row)) eq_refl).
Defined.

(** X19 (an unknown business).  When a business identifier is given and the
    lookup by that identifier settles without a row, after [d]
    milliseconds, with or without an error, the loader goes on exactly as
    if no identifier had been given, [d] milliseconds later: it looks up
    the first business of the store, and the error of the first lookup is
    forgotten.  A caller with an unknown identifier gets the configuration
    of the first business. *)
Theorem unknown_business_gets_first_business sb bid d reply :
  truthy_str bid = true ->
  businesses_by_id sb bid = Settled d (Return reply) ->
  no_rows (data reply) = true ->
  match loadBusinessConfigInternal (Some sb) None with
  | Pending => loadBusinessConfigInternal (Some sb) (Some bid) = Pending
  | Settled t o => loadBusinessConfigInternal (Some sb) (Some bid) = Settled (d + t) o
  end.
Proof.
  intros Hb Hq Hn.
  unfold loadBusinessConfigInternal, lookup_business, tcatch, tbind, tret.
  rewrite Hb, Hq. simpl. rewrite Hn.
  destruct (businesses_first sb) as [|d1 [r|e]]; simpl; [reflexivity| |f_equal; lia].
  destruct (error r); simpl; [f_equal; lia|].
  destruct (data r) as [[|business rest]|]; simpl; try (f_equal; lia).
  destruct (business_agents sb (b_id business)) as [|d2 [agents|e2]]; simpl;
    [reflexivity|f_equal; lia|f_equal; lia].
Qed.

Lemma unknown_business_gets_first_business_witness :
  let sb := example_store (failed_after 30) (found_after 100) (agent_after 50) in
  truthy_str "b-404" = true
  /\ businesses_by_id sb "b-404"
     = Settled 30 (Return (mkReply None (Some (mkError "connection refused"))))
  /\ no_rows (data (mkReply (Row := BusinessRow) None (Some (mkError "connection refused"))))
     = true
  /\ match loadBusinessConfigInternal (Some sb) None with
     | Pending => loadBusinessConfigInternal (Some sb) (Some "b-404") = Pending
     | Settled t o => loadBusinessConfigInternal (Some sb) (Some "b-404") = Settled (30 + t) o
     end.
Proof.
  intros sb. do 3 (split; [reflexivity|]).
  exact (unknown_business_gets_first_business
           (example_store (failed_after 30) (found_after 100) (agent_after 50))
           "b-404" 30 (mkReply None (Some (mkError "connection refused")))
           eq_refl eq_refl eq_refl).
Defined.

(** X20 (when a session starts).  For the configuration the loader builds
    from a business row and the agent row it found, if any, [entry] starts
    a session only when there is an agent row whose name and greeting are
    present and not empty; it then greets with that greeting and speaks
    with the voice of the row, or [Puck] when the row has none (the second
    default of the voice in [entry] never applies).  Without an agent row,
    or with a name or a greeting missing or empty, it stops before the
    agent is created. *)
Theorem session_starts_only_for_configured_agent business agent :
  match Entry.decide (Some (to_config business agent)) with
  | Entry.Start config voiceName greeting =>
      config = to_config business agent
      /\ exists row agentName,
           agent = Some row
           /\ agent_name row = Some agentName /\ agentName <> ""
           /\ greeting_text row = Some greeting /\ greeting <> ""
           /\ voiceName = or_str (a_voice row) "Puck"
           /\ voice (agentConfig config) = Some voiceName
  | Entry.NotConfigured =>
      match agent with
      | None => True
      | Some row => truthy_ostr (agent_name row) = false
                    \/ truthy_ostr (greeting_text row) = false
      end
  | Entry.NoConfig => False
  end.
Proof.
  unfold Entry.decide. simpl.
  destruct agent as [row|]; simpl; [|exact I].
  destruct (agent_name row) as [n|] eqn:En; simpl; [|now left].
  destruct (truthy_str n) eqn:Tn; simpl; [|now left].
  destruct (greeting_text row) as [g|] eqn:Eg; simpl; [|now right].
  destruct (truthy_str g) eqn:Tg; simpl; [|now right].
  assert (Hv : or_str (Some (or_str (a_voice row) "Puck")) "Puck"
               = or_str (a_voice row) "Puck").
  { unfold or_str. destruct (a_voice row) as [v|]; simpl; [|reflexivity].
    destruct (truthy_str v) eqn:Tv; [now rewrite Tv|reflexivity]. }
  split; [reflexivity|]. exists row, n.
  split; [reflexivity|]. split; [exact En|].
  split; [intros ->; discriminate|]. split; [exact Eg|].
  split; [intros ->; discriminate|]. split; [exact Hv|].
  exact (f_equal Some (eq_sym Hv)).
Qed.

Section PracticeInfo.
Context {RT : Runtime}.

(** X16 (practice information of a loaded configuration).  For the general
    information of a configuration built by the loader, [getPracticeInfo]
    answers a request for the hours, the location or the contact, in any
    capitalization of the type, with that field itself and never with the
    JSON text of the whole information: the loader has left none of them
    empty.  A request for the no-show fee is answered with a dollar sign
    and the digits of the fee, for a fee that is a whole number of
    magnitude at most 2^53.  A request for the services is answered with
    the JSON text of the whole information when the services text is
    empty, as it is for a business with an empty list of services, and
    with the services text otherwise.  The session and the world are
    untouched.  Nothing is said of the other types. *)
Theorem practice_info_of_loaded_config business agent infoType s w :
  let gi := generalInfo (to_config business agent) in
  let key := toLowerCase infoType in
  let answer := Agent.getPracticeInfo gi infoType s w in
  (key = "hours" -> answer = (Return (hours gi), s, w))
  /\ (key = "location" -> answer = (Return (address gi), s, w))
  /\ (key = "contact" -> answer = (Return (phone gi), s, w))
  /\ (key = "noshowfee" -> Z.abs (noShowFee gi) <= 2 ^ 53 ->
      answer = (Return ("$" ++ show (noShowFee gi)), s, w))
  /\ (key = "services" ->
      answer = (Return (if (services gi =? "")%string
                        then JSON_stringify (generalInfo_json gi)
                        else services gi), s, w)).
Proof.
  intros gi key answer. subst answer. unfold Agent.getPracticeInfo, ret. fold key.
  set (whole := JSON_stringify (generalInfo_json gi)).
  assert (Hor : forall v, v <> "" -> or_str (Some v) whole = v).
  { intros v Hv. unfold or_str, truthy_str. destruct (v =? "")%string eqn:E; [|reflexivity].
    now apply String.eqb_eq in E. }
  repeat apply conj; intros ->; cbn [lookup String.eqb Ascii.eqb Bool.eqb].
  - rewrite Hor; [reflexivity|]. apply formatOperatingHours_not_blank.
  - rewrite Hor; [reflexivity|]. now apply or_str_not_blank.
  - rewrite Hor; [reflexivity|]. now apply or_str_not_blank.
  - intros _. rewrite Hor; [reflexivity|]. discriminate.
  - unfold or_str, truthy_str. now destruct (services gi =? "")%string.
Qed.

End PracticeInfo.
